(** * Job preparation and submission tools: model and properties

    A shallow embedding of [tools/job_prepper.py] and [tools/job_launcher.py].
    Python values loaded from JSON are the type [json]; dictionaries keep
    their insertion order (association lists with distinct keys); the file
    system is a finite map from resolved paths to nodes; functions with
    side effects run in a state-and-exception monad over that store.

    The library calls the tools make are modelled from the libraries'
    documented behaviour: Python's built-ins on ASCII text, [os] on a tree
    without symbolic links, [itertools.product], and [numpy.arange] on a
    64-bit platform with memory taken as unbounded. The scheduler's
    submission command, the date and the revision of the working copy are
    inputs. *)

From Stdlib Require Import ZArith Lia Ascii Floats Uint63.
From stdpp Require Import gmap strings list.

Open Scope Z_scope.

(** ** Python values, exceptions and built-in operations *)
Module Py.

(** What [json.load] returns: [None], [bool], [int], [float] (binary64),
    [str], [list] and [dict] with string keys, in insertion order. *)
#[local] Unset Elimination Schemes.
Inductive json : Type :=
| JNull
| JBool (b : bool)
| JInt (z : Z)
| JFloat (f : float)
| JStr (s : string)
| JList (l : list json)
| JDict (d : list (string * json)).
#[local] Set Elimination Schemes.

(** The exceptions the two tools can raise. *)
Inductive exn : Type :=
| ValueError (msg : string)
| KeyError (key : string)
| IndexError
| TypeError
| AttributeError
| ZeroDivisionError
| OverflowError
| FileNotFoundError
| FileExistsError
| NotADirectoryError
| IsADirectoryError
| JSONDecodeError
| InvalidGitRepositoryError.

Inductive result (A : Type) : Type :=
| Ok (a : A)
| Raise (e : exn).
Arguments Ok {A} a.
Arguments Raise {A} e.

Definition rbind {A B} (c : result A) (k : A -> result B) : result B :=
  match c with
  | Ok a => k a
  | Raise e => Raise e
  end.

(** *** Dictionaries *)

(** [d[k]] and [k in d]: the first entry for [k] (keys are distinct in a
    Python dict, so it is the only one). *)
Fixpoint dict_get {V} (k : string) (d : list (string * V)) : option V :=
  match d with
  | [] => None
  | (k', v) :: d' => if String.eqb k k' then Some v else dict_get k d'
  end.

Definition dict_mem {V} (k : string) (d : list (string * V)) : bool :=
  match dict_get k d with Some _ => true | None => false end.

(** [d[k] = v]: an existing key keeps its position, a new one goes last. *)
Fixpoint dict_set {V} (k : string) (v : V) (d : list (string * V))
  : list (string * V) :=
  match d with
  | [] => [(k, v)]
  | (k', v') :: d' =>
      if String.eqb k k' then (k, v) :: d' else (k', v') :: dict_set k v d'
  end.

(** [d.update(other)]. *)
Definition dict_update {V} (d other : list (string * V)) : list (string * V) :=
  fold_left (fun acc kv => dict_set (fst kv) (snd kv) acc) other d.

(** [dict(pairs)]. *)
Definition dict_of_pairs {V} (pairs : list (string * V)) : list (string * V) :=
  dict_update [] pairs.

(** [d[k]], raising [KeyError]. *)
Definition getitem {V} (d : list (string * V)) (k : string) : result V :=
  match dict_get k d with
  | Some v => Ok v
  | None => Raise (KeyError k)
  end.

(** *** Numbers *)

Definition float_of_Z (z : Z) : float :=
  if z <? 0 then PrimFloat.opp (PrimFloat.of_uint63 (Uint63.of_Z (- z)))
  else PrimFloat.of_uint63 (Uint63.of_Z z).

(** The mathematical value of a finite float compared with an integer
    (Python compares [int] and [float] exactly). *)
Definition float_eq_Z (f : float) (z : Z) : bool :=
  match Prim2SF f with
  | S754_zero _ => z =? 0
  | S754_finite s m e =>
      let v := if s then Z.neg m else Z.pos m in
      if 0 <=? e then z =? v * 2 ^ e else z * 2 ^ (- e) =? v
  | _ => false
  end.

(** [math.ceil] of a finite float; [None] on infinities and NaN. *)
Definition float_ceil (f : float) : option Z :=
  match Prim2SF f with
  | S754_zero _ => Some 0
  | S754_finite s m e =>
      let v := if s then Z.neg m else Z.pos m in
      Some (if 0 <=? e then v * 2 ^ e else - ((- v) / 2 ^ (- e)))
  | _ => None
  end.

Inductive number : Type :=
| NInt (z : Z)
| NFloat (f : float).

(** Values that take part in numeric comparison ([bool] is an [int]). *)
Definition as_number (j : json) : option number :=
  match j with
  | JBool b => Some (NInt (if b then 1 else 0))
  | JInt z => Some (NInt z)
  | JFloat f => Some (NFloat f)
  | _ => None
  end.

Definition number_eq (a b : number) : bool :=
  match a, b with
  | NInt x, NInt y => x =? y
  | NFloat f, NFloat g => PrimFloat.eqb f g
  | NInt x, NFloat f | NFloat f, NInt x => float_eq_Z f x
  end.

(** The two values are the one NaN object that [json.load] returns for
    every [NaN] it reads. *)
Definition same_nan (a b : json) : bool :=
  match a, b with
  | JFloat f, JFloat g => PrimFloat.is_nan f && PrimFloat.is_nan g
  | _, _ => false
  end.

(** [a == b] on loaded values: numbers by value, strings and lists
    element-wise, dictionaries as unordered maps. Inside a list or a
    dictionary Python takes identical objects as equal before it compares
    them, which, for loaded values, only matters for NaN. *)
Fixpoint py_eq (a b : json) {struct a} : bool :=
  match a, b with
  | JNull, JNull => true
  | JStr s, JStr t => String.eqb s t
  | JList l, JList m =>
      (fix go (l m : list json) {struct l} : bool :=
         match l, m with
         | [], [] => true
         | x :: l', y :: m' => (same_nan x y || py_eq x y) && go l' m'
         | _, _ => false
         end) l m
  | JDict d, JDict e =>
      Nat.eqb (length d) (length e) &&
      (fix go (d : list (string * json)) {struct d} : bool :=
         match d with
         | [] => true
         | (k, v) :: d' =>
             match dict_get k e with
             | Some w => same_nan v w || py_eq v w
             | None => false
             end && go d'
         end) d
  | JBool x, (JBool _ | JInt _ | JFloat _) =>
      match as_number b with
      | Some n => number_eq (NInt (if x then 1 else 0)) n
      | None => false
      end
  | JInt x, (JBool _ | JInt _ | JFloat _) =>
      match as_number b with
      | Some n => number_eq (NInt x) n
      | None => false
      end
  | JFloat f, (JBool _ | JInt _ | JFloat _) =>
      match as_number b with
      | Some n => number_eq (NFloat f) n
      | None => false
      end
  | _, _ => false
  end.

(** *** Strings *)

Definition code (c : ascii) : Z := Z.of_nat (nat_of_ascii c).

(** Whitespace for [str.strip] and [str.split] on ASCII text. *)
Definition is_space (c : ascii) : bool :=
  let n := code c in
  ((9 <=? n) && (n <=? 13)) || ((28 <=? n) && (n <=? 32)).

(** Whitespace that [int] skips around the digits of ASCII text. *)
Definition is_int_space (c : ascii) : bool :=
  let n := code c in
  ((9 <=? n) && (n <=? 13)) || (n =? 32).

Definition is_digit (c : ascii) : bool :=
  let n := code c in (48 <=? n) && (n <=? 57).

Definition digit_value (c : ascii) : Z := code c - 48.

(** [s.startswith(prefix)]. *)
Fixpoint startswith (s prefix : string) : bool :=
  match prefix, s with
  | EmptyString, _ => true
  | String c p', String d s' => Ascii.eqb c d && startswith s' p'
  | String _ _, EmptyString => false
  end.

(** [s.endswith(suffix)] for a one-character suffix. *)
Fixpoint endswith_char (s : string) (c : ascii) : bool :=
  match s with
  | EmptyString => false
  | String d EmptyString => Ascii.eqb c d
  | String _ s' => endswith_char s' c
  end.

(** Scanning loop of [s.replace(old, new)] for a non-empty [old]:
    occurrences are taken left to right and do not overlap; [skip] counts
    the characters of the current occurrence still to be passed over. *)
Fixpoint replace_from (old new s : string) (skip : nat) : string :=
  match s with
  | EmptyString => EmptyString
  | String c s' =>
      match skip with
      | S k => replace_from old new s' k
      | O =>
          if startswith s old
          then new +:+ replace_from old new s' (Nat.pred (String.length old))
          else String c (replace_from old new s' 0)
      end
  end.

(** [s.replace(old, new)]; with an empty [old] Python inserts [new]
    before every character and at the end. *)
Fixpoint intersperse (new s : string) : string :=
  match s with
  | EmptyString => new
  | String c s' => new +:+ String c (intersperse new s')
  end.

Definition replace (s old new : string) : string :=
  match old with
  | EmptyString => intersperse new s
  | String _ _ => replace_from old new s 0
  end.

(** [s.split()]: the maximal runs of non-whitespace characters. *)
Fixpoint split_from (s : string) (cur : string) : list string :=
  match s with
  | EmptyString => if String.eqb cur EmptyString then [] else [cur]
  | String c s' =>
      if is_space c
      then (if String.eqb cur EmptyString then [] else [cur]) ++ split_from s' EmptyString
      else split_from s' (cur +:+ String c EmptyString)
  end.

Definition split (s : string) : list string := split_from s EmptyString.

Fixpoint lstrip (s : string) : string :=
  match s with
  | String c s' => if is_space c then lstrip s' else s
  | EmptyString => EmptyString
  end.

Fixpoint rstrip (s : string) : string :=
  match s with
  | EmptyString => EmptyString
  | String c s' =>
      match rstrip s' with
      | EmptyString => if is_space c then EmptyString else String c EmptyString
      | r => String c r
      end
  end.

(** [s.strip()]. *)
Definition strip (s : string) : string := rstrip (lstrip s).

(** [xs[-1]]. *)
Definition last_item {A} (xs : list A) : result A :=
  match last xs with
  | Some x => Ok x
  | None => Raise IndexError
  end.

(** *** [int(s)] and [str(n)] *)

Fixpoint all_int_space (s : string) : bool :=
  match s with
  | EmptyString => true
  | String c s' => is_int_space c && all_int_space s'
  end.

(** The digits after the first one: more digits, single underscores each
    followed by a digit, then only trailing whitespace. *)
Fixpoint int_digits (s : string) (acc : Z) : option Z :=
  match s with
  | EmptyString => Some acc
  | String c s' =>
      if is_digit c then int_digits s' (acc * 10 + digit_value c)
      else if Ascii.eqb c "_" then
        match s' with
        | String d s'' =>
            if is_digit d then int_digits s'' (acc * 10 + digit_value d)
            else None
        | EmptyString => None
        end
      else if all_int_space s then Some acc
      else None
  end.

Definition int_unsigned (s : string) : option Z :=
  match s with
  | String c s' => if is_digit c then int_digits s' (digit_value c) else None
  | EmptyString => None
  end.

Fixpoint int_lstrip (s : string) : string :=
  match s with
  | String c s' => if is_int_space c then int_lstrip s' else s
  | EmptyString => EmptyString
  end.

(** [int(s)] in base ten on ASCII text; [None] stands for [ValueError]. *)
Definition int (s : string) : option Z :=
  match int_lstrip s with
  | String "+" s' => int_unsigned s'
  | String "-" s' => Z.opp <$> int_unsigned s'
  | s' => int_unsigned s'
  end.

Definition digit_char (d : Z) : ascii := ascii_of_nat (Z.to_nat (48 + d)).

(** Decimal digits of a positive number, most significant first; the
    fuel bounds the number of digits. *)
Fixpoint digits_of (fuel : nat) (n : Z) (acc : string) : string :=
  match fuel with
  | O => acc
  | S fuel' =>
      let acc' := String (digit_char (n mod 10)) acc in
      if n <? 10 then acc' else digits_of fuel' (n / 10) acc'
  end.

(** [str(n)] for an [int]. *)
Definition str_of_int (n : Z) : string :=
  if n <? 0 then String "-" (digits_of (S (Z.to_nat (Z.log2 (- n)))) (- n) EmptyString)
  else digits_of (S (Z.to_nat (Z.log2 n))) n EmptyString.

End Py.

(** ** [numpy.arange(start, stop, step).tolist()]

    numpy computes the number of elements as [ceil((stop - start) / step)]
    with Python's subtraction and true division, writes [start] and
    [start + step] as the first two elements, and fills in element [i] as
    [start + i * delta], [delta] being the difference of the first two.
    For small integers this is exact and gives the values of Python's
    [range]; for floats every operation rounds to binary64. *)
Module Numpy.
Import Py.

Section Arange.

(** What numpy answers outside the arguments modelled below: a start, stop
    or step that is not a number, an integer of magnitude [2^52] or more, a
    float that is not finite, or a quotient that overflows or underflows. *)
Variable arange_other : json -> json -> json -> result (list json).

(** Integers that binary64 holds exactly together with their differences. *)
Definition exact_int (z : Z) : bool := Z.abs z <? 2 ^ 52.

Definition small_number (j : json) : option number :=
  match j with
  | JInt z => if exact_int z then Some (NInt z) else None
  | JFloat f => if PrimFloat.is_finite f then Some (NFloat f) else None
  | _ => None
  end.

Definition to_float (n : number) : float :=
  match n with
  | NInt z => float_of_Z z
  | NFloat f => f
  end.

(** Integer arguments: the length is [ceil((stop - start) / step)], the
    division of Python integers raising on a zero step, and element [i] is
    [start + i * step] (the values of Python's [range]). *)
Definition arange_int (start stop step : Z) : result (list json) :=
  if step =? 0 then Raise ZeroDivisionError
  else
    let length := - ((- (stop - start)) / step) in
    Ok ((fun i : nat => JInt (start + Z.of_nat i * step))
          <$> seq 0 (Z.to_nat length)).

(** Element [i] of a float range: the first two are [start] and
    [start + step]; the others are filled in from [start] with the
    difference of those two as increment. *)
Definition float_item (start step : float) (i : nat) : float :=
  match i with
  | O => start
  | S O => (start + step)%float
  | _ => (start + float_of_Z (Z.of_nat i) * ((start + step) - start))%float
  end.

(** Float arguments: the same length formula evaluated in binary64. *)
Definition arange_float (start stop step : float) : option (result (list json)) :=
  if PrimFloat.eqb step 0 then Some (Raise ZeroDivisionError)
  else
    let quotient := ((stop - start) / step)%float in
    if PrimFloat.eqb quotient 0 && negb (PrimFloat.eqb (stop - start) 0) then None
    else
      match float_ceil quotient with
      | Some length =>
          Some (Ok ((fun i : nat => JFloat (float_item start step i))
                      <$> seq 0 (Z.to_nat length)))
      | None => None
      end.

Definition arange (start stop step : json) : result (list json) :=
  match small_number start, small_number stop, small_number step with
  | Some (NInt a), Some (NInt b), Some (NInt s) => arange_int a b s
  | Some a, Some b, Some s =>
      match arange_float (to_float a) (to_float b) (to_float s) with
      | Some r => r
      | None => arange_other start stop step
      end
  | _, _, _ => arange_other start stop step
  end.

End Arange.

(** A stand-in for numpy outside the modelled arguments, for running the
    model on inputs that stay inside them. *)
Definition arange_rejects (start stop step : json) : result (list json) :=
  Raise TypeError.

End Numpy.

(** ** [itertools.product] *)
Module Itertools.

(** The product of the pools as the library documents it: starting from the one
    empty tuple, every pool in turn extends each partial tuple by each of
    its values. *)
Definition product {A} (pools : list (list A)) : list (list A) :=
  fold_left
    (fun result pool => x ← result; y ← pool; [x ++ [y]])
    pools [[]].

End Itertools.

(** ** The file system and the process environment *)
Module OS.
Import Py.

(** A file either holds the text of a JSON document, recorded as the
    value [json.load] returns for it, or other text, which [json.load]
    rejects. *)
Inductive content : Type :=
| Json (j : json)
| Text (s : string).

(** A node of the tree; [mode] is [None] until [chmod] sets it. *)
Inductive node : Type :=
| Dir
| File (c : content) (mode : option Z).

(** The store: the working directory of the process, the nodes by
    resolved path (the root, [[]], is a directory) and the lines printed. *)
Record world : Type := World {
  cwd : list string;
  files : gmap (list string) node;
  stdout : list string
}.

(** State-and-exception monad: an exception keeps the store as it was when
    it was raised. *)
Definition M (A : Type) : Type := world -> result A * world.

Definition ret {A} (a : A) : M A := fun w => (Ok a, w).

Definition raise {A} (e : exn) : M A := fun w => (Raise e, w).

Definition bind {A B} (c : M A) (k : A -> M B) : M B :=
  fun w =>
    match c w with
    | (Ok a, w') => k a w'
    | (Raise e, w') => (Raise e, w')
    end.

Definition lift {A} (r : result A) : M A := fun w => (r, w).

Definition get : M world := fun w => (Ok w, w).

(** *** Paths *)

(** [os.path.join(a, b)]. *)
Definition join (a b : string) : string :=
  if startswith b "/" then b
  else if String.eqb a EmptyString || endswith_char a "/" then a +:+ b
  else a +:+ "/" +:+ b.

Fixpoint components_from (s cur : string) : list string :=
  match s with
  | EmptyString => [cur]
  | String c s' =>
      if Ascii.eqb c "/" then cur :: components_from s' EmptyString
      else components_from s' (cur +:+ String c EmptyString)
  end.

(** The path split at its slashes. *)
Definition components (path : string) : list string :=
  components_from path EmptyString.

(** Walking the components from a base directory: empty components and
    [.] stay in place, [..] goes up (there are no symbolic links). *)
Definition walk (base : list string) (comps : list string) : list string :=
  fold_left
    (fun at_ c =>
       if String.eqb c EmptyString || String.eqb c "." then at_
       else if String.eqb c ".." then removelast at_
       else at_ ++ [c])
    comps base.

Definition resolve (w : world) (path : string) : list string :=
  walk (if startswith path "/" then [] else cwd w) (components path).

Definition lookup (fs : gmap (list string) node) (p : list string) : option node :=
  match p with
  | [] => Some Dir
  | _ => fs !! p
  end.

(** *** System calls *)

(** [os.path.isdir(path)]. *)
Definition isdir (w : world) (path : string) : bool :=
  match lookup (files w) (resolve w path) with
  | Some Dir => negb (String.eqb path EmptyString)
  | _ => false
  end.

(** Creates the missing directories along [rest] below [at_]; a file in
    the way raises. *)
Fixpoint makedirs_from (at_ rest : list string) (fs : gmap (list string) node)
  : result unit * gmap (list string) node :=
  match rest with
  | [] => (Ok tt, fs)
  | c :: rest' =>
      let p := at_ ++ [c] in
      match lookup fs p with
      | Some Dir => makedirs_from p rest' fs
      | Some (File _ _) =>
          (Raise (match rest' with [] => FileExistsError | _ => NotADirectoryError end), fs)
      | None => makedirs_from p rest' (<[p := Dir]> fs)
      end
  end.

(** [os.makedirs(path, exist_ok=True)]. *)
Definition makedirs (path : string) : M unit :=
  fun w =>
    if String.eqb path EmptyString then (Raise FileNotFoundError, w)
    else
      let '(r, fs) := makedirs_from [] (resolve w path) (files w) in
      (r, World (cwd w) fs (stdout w)).

(** The name of [p] when it is an immediate child of [dir]. *)
Fixpoint child_of (dir p : list string) : option string :=
  match dir, p with
  | [], [n] => Some n
  | d :: dir', c :: p' => if String.eqb d c then child_of dir' p' else None
  | _, _ => None
  end.

(** [os.listdir(path)]; the order is the store's. *)
Definition listdir (path : string) : M (list string) :=
  fun w =>
    match lookup (files w) (resolve w path) with
    | Some Dir =>
        if String.eqb path EmptyString then (Raise FileNotFoundError, w)
        else (Ok (omap (fun kv => child_of (resolve w path) (fst kv))
                       (map_to_list (files w))), w)
    | Some (File _ _) => (Raise NotADirectoryError, w)
    | None => (Raise FileNotFoundError, w)
    end.

(** [open(path, "r")] followed by reading the whole file. *)
Definition read_file (path : string) : M content :=
  fun w =>
    if String.eqb path EmptyString then (Raise FileNotFoundError, w)
    else
      match lookup (files w) (resolve w path) with
      | Some (File c _) => (Ok c, w)
      | Some Dir => (Raise IsADirectoryError, w)
      | None => (Raise FileNotFoundError, w)
      end.

(** [open(path, "w")]: creates the file, or empties an existing one. *)
Definition open_w (path : string) : M unit :=
  fun w =>
    let p := resolve w path in
    if String.eqb path EmptyString then (Raise FileNotFoundError, w)
    else
      match lookup (files w) p with
      | Some Dir => (Raise IsADirectoryError, w)
      | Some (File _ mode) =>
          (Ok tt, World (cwd w) (<[p := File (Text EmptyString) mode]> (files w)) (stdout w))
      | None =>
          match lookup (files w) (removelast p) with
          | Some Dir =>
              (Ok tt, World (cwd w) (<[p := File (Text EmptyString) None]> (files w)) (stdout w))
          | Some (File _ _) => (Raise NotADirectoryError, w)
          | None => (Raise FileNotFoundError, w)
          end
      end.

(** Writing the whole content to a file opened by [open_w] and closing
    it. *)
Definition write (path : string) (c : content) : M unit :=
  fun w =>
    let p := resolve w path in
    match lookup (files w) p with
    | Some (File _ mode) =>
        (Ok tt, World (cwd w) (<[p := File c mode]> (files w)) (stdout w))
    | _ => (Raise FileNotFoundError, w)
    end.

(** [os.chmod(path, mode)]. *)
Definition chmod (path : string) (mode : Z) : M unit :=
  fun w =>
    let p := resolve w path in
    if String.eqb path EmptyString then (Raise FileNotFoundError, w)
    else
      match lookup (files w) p with
      | Some (File c _) =>
          (Ok tt, World (cwd w) (<[p := File c (Some mode)]> (files w)) (stdout w))
      | Some Dir => (Ok tt, w)
      | None => (Raise FileNotFoundError, w)
      end.

(** [print(line)]. *)
Definition print (line : string) : M unit :=
  fun w => (Ok tt, World (cwd w) (files w) (stdout w ++ [line])).

(** A path argument of a system call must be a string. *)
Definition fspath (j : json) : result string :=
  match j with
  | JStr s => Ok s
  | _ => Raise TypeError
  end.

(** [j[k]] for a string [k]: only a dictionary can be indexed by it. *)
Definition subscript (j : json) (k : string) : result json :=
  match j with
  | JDict d => getitem d k
  | _ => Raise TypeError
  end.

End OS.

Declare Scope monad_scope.
Delimit Scope monad_scope with monad.
Notation "x <- c ;; k" := (OS.bind c (fun x => k))
  (at level 100, c at next level, right associativity) : monad_scope.
Notation "c ;; k" := (OS.bind c (fun _ => k))
  (at level 100, right associativity) : monad_scope.
Notation "'let?' x := c 'in' k" := (Py.rbind c (fun x => k))
  (at level 10, x name, c at level 100, k at level 200) : monad_scope.
Open Scope monad_scope.

(** ** [tools/job_prepper.py] *)
Module JobPrepper.
Import Py OS.

Section Prepper.

(** numpy outside the modelled arguments (see [Numpy.arange]). *)
Variable arange_other : json -> json -> json -> result (list json).

(** [str(v)] for a float, a list or a dictionary. *)
Variable repr_other : json -> string.

(** What the process finds around it: its command line, the date and the
    revision of the enclosing working copy (an exception outside one). *)
Record env : Type := Env {
  argv : list string;
  today : string;
  hexsha : result string
}.

Definition load_json (file_path : string) : M json :=
  c <- read_file file_path ;;
  match c with
  | Json parameters => ret parameters
  | Text _ => raise JSONDecodeError
  end.

Definition dump_json (data : json) (filename : string) : M unit :=
  open_w filename ;;
  write filename (Json data).

(** The loop over [existing_dirs]: a name whose remainder is not an
    integer is passed over. *)
Definition highest_num_of (prefix : string) (existing_dirs : list string) : Z :=
  fold_left
    (fun highest_num dir_name =>
       match int (replace dir_name prefix EmptyString) with
       | Some num => Z.max highest_num num
       | None => highest_num
       end)
    existing_dirs 0.

Definition existing_dirs_of (w : world) (dir prefix : string) (names : list string)
  : list string :=
  List.filter (fun d => isdir w (join dir d) && startswith d prefix) names.

Definition create_directory_structure (dir : json) (prefix : string) : M string :=
  dir <- lift (fspath dir) ;;
  makedirs dir ;;
  names <- listdir dir ;;
  w <- get ;;
  let existing_dirs := existing_dirs_of w dir prefix names in
  let highest_num := highest_num_of prefix existing_dirs in
  let next_dir_name := prefix +:+ str_of_int (highest_num + 1) in
  let next_dir_path := join dir next_dir_name in
  makedirs next_dir_path ;;
  makedirs (join next_dir_path "data") ;;
  makedirs (join next_dir_path "slurm/error") ;;
  makedirs (join next_dir_path "slurm/output") ;;
  ret next_dir_path.

(** The record [generate_metadata_file] builds before it opens the file. *)
Definition metadata_of (e : env) (slurm_params simulation_params array_params
                                   other_params : json) : result json :=
  let? description := subscript other_params "description" in
  let? github_version := hexsha e in
  Ok (JDict
        [ ("general_metadata",
            JDict [ ("author", JStr "Julien Drapeau");
                    ("creation_date", JStr (today e));
                    ("description", description);
                    ("github_version", JStr github_version) ]);
          ("job_information",
            JDict [ ("job_id", JNull);
                    ("state", JNull);
                    ("start_time", JNull);
                    ("end_time", JNull);
                    ("elapsed_time", JNull) ]);
          ("slurm_parameters", slurm_params);
          ("simulation_parameters", simulation_params);
          ("array_parameters", array_params) ]).

Definition generate_metadata_file (e : env) (metadata_path : string)
    (slurm_params simulation_params array_params other_params : json) : M unit :=
  metadata <- lift (metadata_of e slurm_params simulation_params array_params
                                other_params) ;;
  open_w metadata_path ;;
  write metadata_path (Json metadata).

(** [str(v)] as an f-string field prints it. *)
Definition py_str (v : json) : string :=
  match v with
  | JStr s => s
  | JInt z => str_of_int z
  | JNull => "None"
  | JBool true => "True"
  | JBool false => "False"
  | _ => repr_other v
  end.

Definition dquote : string := String (ascii_of_nat 34) EmptyString.

(** The text of the submission script. *)
Definition script_text (output_path error_path python_script_path : string)
    (slurm_params : json) (simul_path array_path : string) : result string :=
  let? partition := subscript slurm_params "partition" in
  let? account := subscript slurm_params "account" in
  let? array := subscript slurm_params "array" in
  let? time := subscript slurm_params "time" in
  let? job_name := subscript slurm_params "job_name" in
  let? cpus_per_task := subscript slurm_params "cpus_per_task" in
  let? mem_per_cpu := subscript slurm_params "mem_per_cpu" in
  Ok ("#!/bin/bash
#SBATCH --partition=" +:+ py_str partition +:+ "
#SBATCH --account=" +:+ py_str account +:+ "
#SBATCH --array=" +:+ py_str array +:+ "
#SBATCH --time=" +:+ py_str time +:+ "
#SBATCH --job-name=" +:+ py_str job_name +:+ "
#SBATCH --cpus-per-task=" +:+ py_str cpus_per_task +:+ "
#SBATCH --mem-per-cpu=" +:+ py_str mem_per_cpu +:+ "
#SBATCH --output=" +:+ output_path +:+ "/slurm-%A-%a.out
#SBATCH --error=" +:+ error_path +:+ "/slurm-%A-%a.err
#SBATCH --mail-user=julien.drapeau@usherbrooke.ca
#SBATCH --mail-type=ALL

export JAX_ENABLE_X64=True # JAX uses int32 by default

module load StdEnv/2020
source ENV/bin/activate

# Define the position of the desired combination in the list (1-indexed)
position=$SLURM_ARRAY_TASK_ID

# Load the combination at the specified position from array_params.json
array_dict=$(jq --argjson pos " +:+ dquote +:+ "$((position - 1))" +:+ dquote
  +:+ " '.[$pos]' " +:+ array_path +:+ ")

# Load the other dictionary from simul_params.json
simul_dict=$(<" +:+ simul_path +:+ ")

# Merge both dictionary
merged=$(jq -n --argjson array_dict " +:+ dquote +:+ "$array_dict" +:+ dquote
  +:+ " --argjson simul_dict " +:+ dquote +:+ "$simul_dict" +:+ dquote
  +:+ " '$simul_dict + $array_dict')

# Launch the Python script (-u for unbuffered output)
python -u " +:+ python_script_path +:+ " " +:+ dquote +:+ "$merged" +:+ dquote +:+ "

echo 'My job is finished !'").

Definition generate_slurm_script (subdir_path python_script_path : string)
    (slurm_params : json) (simul_path array_path : string) : M unit :=
  let slurm_script_path := join subdir_path "job_script.sh" in
  let output_path := join subdir_path "slurm/output" in
  let error_path := join subdir_path "slurm/error" in
  open_w slurm_script_path ;;
  text <- lift (script_text output_path error_path python_script_path
                            slurm_params simul_path array_path) ;;
  write slurm_script_path (Text text).

(** The value sequence of one parameter. *)
Definition param_range (value : json) : result (list json) :=
  match value with
  | JList values => Ok values
  | JDict descriptor =>
      let? start := getitem descriptor "start" in
      let? stop := getitem descriptor "end" in
      let? step := getitem descriptor "step" in
      Numpy.arange arange_other start stop step
  | _ => Raise (ValueError "Invalid range type")
  end.

(** The loop over [param_names] that fills [param_ranges]. *)
Fixpoint param_ranges_of (range_array_params : list (string * json))
    (param_names : list string) : result (list (list json)) :=
  match param_names with
  | [] => Ok []
  | param_name :: rest =>
      let? value := getitem range_array_params param_name in
      let? range := param_range value in
      let? param_ranges := param_ranges_of range_array_params rest in
      Ok (range :: param_ranges)
  end.

Definition add_array_parameters (range_array_params : json) : result (list json) :=
  match range_array_params with
  | JDict range_array_params =>
      let param_names := range_array_params.*1 in
      let? param_ranges := param_ranges_of range_array_params param_names in
      let combinations := Itertools.product param_ranges in
      Ok ((fun combination => JDict (dict_of_pairs (zip param_names combination)))
            <$> combinations)
  | _ => Raise AttributeError
  end.

(** The script run from the command line. *)
Definition main (e : env) : M unit :=
  match argv e with
  | [_; parameter_path; python_script_path] =>
      let range_array_path := join parameter_path "range_array_params.json" in
      let array_path := join parameter_path "array_params.json" in
      let simul_path := join parameter_path "simul_params.json" in
      let slurm_path := join parameter_path "slurm_params.json" in
      let other_path := join parameter_path "other_params.json" in
      range_array_params <- load_json range_array_path ;;
      simul_params <- load_json simul_path ;;
      slurm_params <- load_json slurm_path ;;
      other_params <- load_json other_path ;;
      slurm_output <- lift (subscript slurm_params "output_directory") ;;
      simul_output <- lift (subscript simul_params "output_directory") ;;
      if negb (py_eq slurm_output simul_output)
      then raise (ValueError "Output directories are different.")
      else
        array_params <- lift (add_array_parameters range_array_params) ;;
        dump_json (JList array_params) array_path ;;
        output_directory <- lift (subscript slurm_params "output_directory") ;;
        sub_dir_path <- create_directory_structure output_directory "run_" ;;
        print ("Created the following directory:  " +:+ sub_dir_path) ;;
        let secondary_job_path := join sub_dir_path "job_script.sh" in
        let metadata_path := join sub_dir_path "metadata.json" in
        generate_slurm_script sub_dir_path python_script_path slurm_params
                              simul_path array_path ;;
        chmod secondary_job_path 448 ;;
        generate_metadata_file e metadata_path slurm_params simul_params
                               range_array_params other_params ;;
        print "Job preparation was a success. To submit the job, run the following command:" ;;
        print ("python tools/job_launcher.py " +:+ sub_dir_path)
  | _ =>
      raise (ValueError "Usage: python tools/job_prepper.py parameter_path python_script_path")
  end.

End Prepper.
End JobPrepper.

(** ** [tools/job_launcher.py] *)
Module JobLauncher.
Import Py OS.

(** What [subprocess.run] hands back: the exit status of the command and
    what it wrote on its standard output. *)
Record completed_process : Type := CompletedProcess {
  returncode : Z;
  output : string
}.

Definition update_metadata (metadata_file_path : string)
    (job_details : list (string * json)) : M unit :=
  c <- read_file metadata_file_path ;;
  metadata <- match c with
              | Json j => ret j
              | Text _ => raise JSONDecodeError
              end ;;
  match metadata with
  | JDict metadata =>
      let metadata :=
        if negb (dict_mem "job_information" metadata)
        then dict_set "job_information" (JDict []) metadata
        else metadata in
      match dict_get "job_information" metadata with
      | Some (JDict job_information) =>
          let metadata :=
            dict_set "job_information"
                     (JDict (dict_update job_information job_details)) metadata in
          open_w metadata_file_path ;;
          write metadata_file_path (Json (JDict metadata))
      | Some _ => raise AttributeError
      | None => raise (KeyError "job_information")
      end
  | _ => raise TypeError
  end.

Section Launcher.

(** The scheduler's submission command, run on a script path: it either
    cannot be started or completes with a status and an output. *)
Variable sbatch : string -> result completed_process.

Definition submit_job (slurm_script_path metadata_file_path : string) : M unit :=
  result <- lift (sbatch slurm_script_path) ;;
  let job_id_str := strip (output result) in
  job_id <- lift (last_item (split job_id_str)) ;;
  update_metadata metadata_file_path [("job_id", JStr job_id)].

Definition main (argv : list string) : M unit :=
  match argv with
  | _ :: sub_dir_path :: _ =>
      let slurm_script_path := join sub_dir_path "job_script.sh" in
      let metadata_file_path := join sub_dir_path "metadata.json" in
      submit_job slurm_script_path metadata_file_path ;;
      print "Job submitted successfully."
  | _ => raise IndexError
  end.

End Launcher.
End JobLauncher.

(** ** Vocabulary of the properties *)
Module Spec.
Import Py OS.

(** The tuples over the pools in lexicographic order, written by
    recursion on the pools: the first pool varies slowest. *)
Fixpoint cross {A} (pools : list (list A)) : list (list A) :=
  match pools with
  | [] => [[]]
  | pool :: rest => x ← pool; (x ::.) <$> cross rest
  end.

(** The product of the lengths of the pools. *)
Definition size_of {A} (pools : list (list A)) : nat :=
  foldr (fun pool n => (length pool * n)%nat) 1%nat pools.

(** The position of the tuple of indices [idx] in the lexicographic
    enumeration: the mixed-radix number whose digits are the indices. *)
Fixpoint rank {A} (pools : list (list A)) (idx : list nat) : nat :=
  match pools, idx with
  | _ :: rest, i :: idx' => (i * size_of rest + rank rest idx')%nat
  | _, _ => 0%nat
  end.

(** Lexicographic order on tuples of indices. *)
Inductive lex_lt : list nat -> list nat -> Prop :=
| lex_lt_here i j idx idx' : (i < j)%nat -> lex_lt (i :: idx) (j :: idx')
| lex_lt_next i idx idx' : lex_lt idx idx' -> lex_lt (i :: idx) (i :: idx').

(** [idx] selects one position in every pool. *)
Definition valid_index {A} (pools : list (list A)) (idx : list nat) : Prop :=
  Forall2 (fun i pool => (i < length pool)%nat) idx pools.

(** Every parameter of [params] resolves, to the sequences [ranges]. *)
Definition resolves (arange_other : json -> json -> json -> result (list json))
    (params : list (string * json)) (ranges : list (list json)) : Prop :=
  Forall2 (fun kv range => JobPrepper.param_range arange_other kv.2 = Ok range)
          params ranges.

(** A value that is a list or a mapping. *)
Definition is_list_or_dict (v : json) : bool :=
  match v with
  | JList _ | JDict _ => true
  | _ => false
  end.

(** The first of [start], [end], [step] that a descriptor lacks. *)
Definition first_missing (descriptor : list (string * json)) : option string :=
  if negb (dict_mem "start" descriptor) then Some "start"
  else if negb (dict_mem "end" descriptor) then Some "end"
  else if negb (dict_mem "step" descriptor) then Some "step"
  else None.

(** The store [w] with the regular file at [path] holding [c]. *)
Definition with_file (w : world) (path : string) (c : content) (mode : option Z)
  : world :=
  World (cwd w) (<[resolve w path := File c mode]> (files w)) (stdout w).

(** [path] names a regular file of [w] that holds [c]. *)
Definition holds (w : world) (path : string) (c : content) (mode : option Z)
  : Prop :=
  path <> EmptyString /\ lookup (files w) (resolve w path) = Some (File c mode).

(** Nothing stands at [path] in [w]. *)
Definition missing (w : world) (path : string) : Prop :=
  lookup (files w) (resolve w path) = None.


(** The job-information section of a record, empty when the record has
    none. *)
Definition job_information_of (record : list (string * json))
  : list (string * json) :=
  match dict_get "job_information" record with
  | Some (JDict section) => section
  | _ => []
  end.

(** The record [update_metadata] writes back. *)
Definition merged_record (record details : list (string * json))
  : list (string * json) :=
  dict_set "job_information"
           (JDict (dict_update (job_information_of record) details))
           (if negb (dict_mem "job_information" record)
            then dict_set "job_information" (JDict []) record
            else record).

(** The job-information section, when present, is a mapping. *)
Definition section_is_dict (record : list (string * json)) : Prop :=
  match dict_get "job_information" record with
  | Some (JDict _) | None => True
  | Some _ => False
  end.

Fixpoint string_forall (p : ascii -> bool) (s : string) : bool :=
  match s with
  | EmptyString => true
  | String c s' => p c && string_forall p s'
  end.

(** Only whitespace. *)
Definition blank (s : string) : bool := string_forall is_space s.

(** A non-empty run of characters none of which is whitespace. *)
Definition token (s : string) : bool :=
  negb (String.eqb s EmptyString) && string_forall (fun c => negb (is_space c)) s.

(** Empty, or ending in whitespace. *)
Fixpoint ends_blank (s : string) : bool :=
  match s with
  | EmptyString => true
  | String c EmptyString => is_space c
  | String _ s' => ends_blank s'
  end.

(** [id] is the final whitespace-delimited token of [out]. *)
Definition final_token (out id : string) : Prop :=
  exists pre post,
    out = pre +:+ id +:+ post
    /\ ends_blank pre = true /\ token id = true /\ blank post = true.

(** [old] occurs somewhere in [s]. *)
Fixpoint occurs (old s : string) : bool :=
  startswith s old ||
  match s with
  | EmptyString => false
  | String _ s' => occurs old s'
  end.

(** [s] without its first [n] characters. *)
Fixpoint string_drop (n : nat) (s : string) : string :=
  match n, s with
  | S n', String _ s' => string_drop n' s'
  | _, _ => s
  end.

(** What follows the prefix in a name that starts with it. *)
Definition suffix_of (prefix name : string) : string :=
  string_drop (String.length prefix) name.

(** No regular file stands at [p] or above it. *)
Definition dirs_only_above (fs : gmap (list string) node) (p : list string) : Prop :=
  forall q c mode, q `prefix_of` p -> lookup fs q <> Some (File c mode).

(** No regular file of [w] stands at [path] or above it. *)
Definition free (w : world) (path : string) : Prop :=
  dirs_only_above (files w) (resolve w path).

(** [fs'] is [fs] with directories added. *)
Definition extends (fs fs' : gmap (list string) node) : Prop :=
  forall q, lookup fs' q = lookup fs q
            \/ (lookup fs q = None /\ lookup fs' q = Some Dir).

(** The places of the run directory numbered [k] and of its layout. *)
Definition run_places (dir prefix : string) (k : Z) : list string :=
  let run := join dir (prefix +:+ str_of_int k) in
  [run; join run "data"; join run "slurm/error"; join run "slurm/output"].

(** The existing immediate child directories of [dir] whose names start
    with the prefix, as the allocator finds them. *)
Definition child_dirs (w : world) (dir prefix : string) : list string :=
  match listdir dir w with
  | (Ok names, _) => JobPrepper.existing_dirs_of w dir prefix names
  | _ => []
  end.

(** Only ASCII characters: the text on which [Py.int] is Python's [int]. *)
Definition ascii_only (s : string) : bool :=
  string_forall (fun c => code c <? 128) s.

(** [h] is the largest of zero and the integers that are the suffixes of
    the child directories of [dir] whose names start with the prefix. *)
Definition largest_suffix (w : world) (dir prefix : string) (h : Z) : Prop :=
  0 <= h
  /\ (forall name k, name ∈ child_dirs w dir prefix ->
        int (suffix_of prefix name) = Some k -> k <= h)
  /\ (h = 0 \/ exists name, name ∈ child_dirs w dir prefix
                            /\ int (suffix_of prefix name) = Some h).

(** The prefixes of a resolved path, the root first. *)
Fixpoint inits {A} (p : list A) : list (list A) :=
  [] :: match p with
        | [] => []
        | c :: p' => (c ::.) <$> inits p'
        end.

(** No regular file stands at [p] or above it, as a test. *)
Definition no_file_above (fs : gmap (list string) node) (p : list string) : bool :=
  forallb (fun q => match lookup fs q with
                    | Some (File _ _) => false
                    | _ => true
                    end)
          (inits p).

(** The tokens [split_from] emits for a token that just ended. *)
Definition flush (cur : string) : list string :=
  if String.eqb cur EmptyString then [] else [cur].

(** One round of the loop over the existing directories. *)
Definition scan_step (prefix : string) (highest_num : Z) (dir_name : string) : Z :=
  match int (replace dir_name prefix EmptyString) with
  | Some num => Z.max highest_num num
  | None => highest_num
  end.

(** What [main] goes on to do once the combinations are computed. *)
Definition dump_json_and_after (repr_other : json -> string)
    (e : JobPrepper.env)
    (parameter_path python_script_path : string)
    (range_array_params simul_params slurm_params other_params : json)
    (array_params : list json) : M unit :=
  let array_path := join parameter_path "array_params.json" in
  let simul_path := join parameter_path "simul_params.json" in
  JobPrepper.dump_json (JList array_params) array_path ;;
  output_directory <- lift (subscript slurm_params "output_directory") ;;
  sub_dir_path <- JobPrepper.create_directory_structure output_directory "run_" ;;
  print ("Created the following directory:  " +:+ sub_dir_path) ;;
  let secondary_job_path := join sub_dir_path "job_script.sh" in
  let metadata_path := join sub_dir_path "metadata.json" in
  JobPrepper.generate_slurm_script repr_other sub_dir_path python_script_path
                                   slurm_params simul_path array_path ;;
  chmod secondary_job_path 448 ;;
  JobPrepper.generate_metadata_file e metadata_path slurm_params simul_params
                                    range_array_params other_params ;;
  print "Job preparation was a success. To submit the job, run the following command:" ;;
  print ("python tools/job_launcher.py " +:+ sub_dir_path).

End Spec.


(** ** Sample stores and environments *)
Module Sample.
Import Py OS.

(** [str(v)] for the values no sample below prints. *)
Definition repr_blank (v : json) : string := EmptyString.

Definition sample_runs : world :=
  World [] (<[ ["out"; "run_7a"] := Dir ]>
            (<[ ["out"; "run_2"] := Dir ]>
            (<[ ["out"; "run_1"] := Dir ]>
            {[ ["out"] := Dir ]}))) [].

(** The same directories beside a regular file whose name is that of a
    run directory. *)
Definition sample_runs_and_file : world :=
  World [] (<[ ["out"; "run_9"] := File (Text "notes") None ]>
            (<[ ["out"; "run_7a"] := Dir ]>
            (<[ ["out"; "run_2"] := Dir ]>
            (<[ ["out"; "run_1"] := Dir ]>
            {[ ["out"] := Dir ]})))) [].

Definition sample_pending : world :=
  World [] (<[ ["run_1"; "metadata.json"] :=
                 File (Json (JDict [("job_information",
                                     JDict [("state", JStr "PENDING")])]))
                      None ]>
            {[ ["run_1"] := Dir ]}) [].

Definition sample_parameters (slurm_output simul_output : string)
    (range_array_params : json) : world :=
  World [] (<[ ["params"; "range_array_params.json"] :=
                 File (Json range_array_params) None ]>
            (<[ ["params"; "simul_params.json"] :=
                  File (Json (JDict [("output_directory", JStr simul_output)]))
                       None ]>
            (<[ ["params"; "slurm_params.json"] :=
                  File (Json (JDict [("output_directory", JStr slurm_output)]))
                       None ]>
            (<[ ["params"; "other_params.json"] :=
                  File (Json (JDict [("description", JStr "sweep")])) None ]>
            {[ ["params"] := Dir ]})))) [].

Definition sample_env : JobPrepper.env :=
  JobPrepper.Env ["tools/job_prepper.py"; "params"; "main.py"] "01/01/2025"
                 (Ok "0f3c").

End Sample.

(** ** Vocabulary of the further properties *)
Module Cover.
Import Py OS Spec.

(** A computation that leaves the working directory and the printed lines
    alone and changes the tree only by adding directories. *)
Definition grows {A} (c : M A) : Prop :=
  forall w r w',
    c w = (r, w') ->
    cwd w' = cwd w /\ stdout w' = stdout w /\ extends (files w) (files w').

(** The number a string of decimal digits writes, after the digits already
    read as [acc]. *)
Fixpoint decimal (s : string) (acc : Z) : Z :=
  match s with
  | EmptyString => acc
  | String c s' => decimal s' (acc * 10 + digit_value c)
  end.

Fixpoint string_exists (p : ascii -> bool) (s : string) : bool :=
  match s with
  | EmptyString => false
  | String c s' => p c || string_exists p s'
  end.

(** No slash in the name. *)
Definition no_slash (s : string) : bool :=
  string_forall (fun c => negb (Ascii.eqb c "/")) s.

(** The first of [keys] that the dictionary lacks. *)
Fixpoint first_absent (keys : list string) (d : list (string * json))
  : option string :=
  match keys with
  | [] => None
  | k :: keys' => if dict_mem k d then first_absent keys' d else Some k
  end.

(** The keys of the scheduler parameters that the script prints, in the
    order in which it prints them. *)
Definition script_keys : list string :=
  ["partition"; "account"; "array"; "time"; "job_name"; "cpus_per_task";
   "mem_per_cpu"].

(** Scheduler parameters with the output directory and the seven keys of
    the script. *)
Definition sample_slurm : list (string * json) :=
  [("output_directory", JStr "out"); ("partition", JStr "c-apc");
   ("account", JStr "def-ko1"); ("array", JStr "1-2"); ("time", JStr "00:10:00");
   ("job_name", JStr "sweep"); ("cpus_per_task", JInt 4);
   ("mem_per_cpu", JStr "2G")].

(** A parameter directory for two jobs. *)
Definition sample_complete : world :=
  World [] (<[ ["params"; "range_array_params.json"] :=
                 File (Json (JDict [("rate", JList [JInt 1; JInt 2])])) None ]>
            (<[ ["params"; "simul_params.json"] :=
                  File (Json (JDict [("output_directory", JStr "out")])) None ]>
            (<[ ["params"; "slurm_params.json"] :=
                  File (Json (JDict sample_slurm)) None ]>
            (<[ ["params"; "other_params.json"] :=
                  File (Json (JDict [("description", JStr "sweep")])) None ]>
            {[ ["params"] := Dir ]})))) [].

(** A submission command that always answers with job 12345. *)
Definition sample_sbatch (script : string) : result JobLauncher.completed_process :=
  Ok (JobLauncher.CompletedProcess 0 "Submitted batch job 12345
").

End Cover.
(** ** Cross product *)
Section CrossProduct.
Import Py Spec.
Context {A : Type}.
Implicit Types (pools : list (list A)) (idx : list nat).

Lemma product_from_cross pools (acc : list (list A)) :
  fold_left (fun result pool => x ← result; y ← pool; [x ++ [y]]) pools acc
  = x ← acc; (x ++.) <$> cross pools.
Proof.
  revert acc. induction pools as [|pool rest IH]; intros acc; simpl.
  - induction acc as [|x acc IHacc]; [done|].
    cbn. rewrite app_nil_r. by f_equal.
  - rewrite IH. clear IH.
    induction acc as [|x acc IHacc]; [done|].
    cbn. rewrite bind_app. f_equal; [|exact IHacc]. clear IHacc.
    induction pool as [|y pool IHp]; [done|].
    cbn. rewrite fmap_app. f_equal; [|exact IHp].
    rewrite <- list_fmap_compose. apply list_fmap_ext. intros ? t _. simpl.
    by rewrite <- app_assoc.
Qed.

Lemma product_cross pools : Itertools.product pools = cross pools.
Proof.
  unfold Itertools.product. rewrite product_from_cross. simpl.
  rewrite app_nil_r. apply list_fmap_id.
Qed.

Lemma bind_length_block {B} (f : A -> list B) (l : list A) (n : nat) :
  (forall y, y ∈ l -> length (f y) = n) -> length (l ≫= f) = (length l * n)%nat.
Proof.
  induction l as [|y l IH]; intros Hlen; [done|].
  cbn. rewrite length_app, Hlen by left. rewrite IH; [done|].
  intros z Hz. apply Hlen. by right.
Qed.

Lemma cross_length pools : length (cross pools) = size_of pools.
Proof.
  induction pools as [|pool rest IH]; [done|].
  cbn. rewrite (bind_length_block _ _ (size_of rest)); [done|].
  intros y _. by rewrite length_fmap.
Qed.

Lemma cross_tuple_length pools t : t ∈ cross pools -> length t = length pools.
Proof.
  revert t. induction pools as [|pool rest IH]; intros t; simpl.
  - intros ->%list_elem_of_singleton. done.
  - intros (x & Ht & _)%list_elem_of_bind.
    apply list_elem_of_fmap in Ht as (t' & -> & Ht'). simpl. f_equal. by apply IH.
Qed.

Lemma cross_elem pools t :
  t ∈ cross pools <-> Forall2 (fun v pool => v ∈ pool) t pools.
Proof.
  revert t. induction pools as [|pool rest IH]; intros t; simpl.
  - rewrite list_elem_of_singleton. split; [intros ->; constructor|].
    by intros ->%Forall2_nil_inv_r.
  - rewrite list_elem_of_bind. split.
    + intros (x & Ht & Hx). apply list_elem_of_fmap in Ht as (t' & -> & Ht').
      constructor; [done|]. by apply IH.
    + intros (x & t' & Hx & Ht' & ->)%Forall2_cons_inv_r.
      exists x. split; [|done]. apply list_elem_of_fmap. exists t'. split; [done|].
      by apply IH.
Qed.

Lemma cross_NoDup pools : Forall NoDup pools -> NoDup (cross pools).
Proof.
  induction 1 as [|pool rest Hpool _ IH]; simpl.
  - apply NoDup_singleton.
  - apply NoDup_bind; [|intros x _; by apply NoDup_fmap_2; [apply _|]|done].
    intros x1 x2 t _ _ (t1 & -> & _)%list_elem_of_fmap (t2 & Heq & _)%list_elem_of_fmap.
    congruence.
Qed.

Lemma bind_lookup_block {B} (f : A -> list B) (l : list A) (n i j : nat) x :
  (forall y, y ∈ l -> length (f y) = n) ->
  l !! i = Some x -> (j < n)%nat ->
  (l ≫= f) !! (i * n + j)%nat = f x !! j.
Proof.
  revert i. induction l as [|y l IH]; intros i Hlen Hi Hj; [done|].
  simpl. destruct i as [|i]; simpl in *.
  - injection Hi as ->. rewrite lookup_app_l; [done|].
    rewrite Hlen; [done|]. left.
  - rewrite lookup_app_r; rewrite Hlen by left; [|lia].
    replace (n + i * n + j - n)%nat with (i * n + j)%nat by lia.
    apply IH; [|done..]. intros z Hz. apply Hlen. by right.
Qed.

Lemma rank_bound pools idx :
  valid_index pools idx -> (rank pools idx < size_of pools)%nat.
Proof.
  unfold valid_index. intros H. induction H as [|i pool idx rest Hi _ IH]; simpl; [lia|].
  fold (size_of rest). nia.
Qed.

Lemma cross_lookup pools idx vs :
  Forall3 (fun i pool v => pool !! i = Some v) idx pools vs ->
  cross pools !! rank pools idx = Some vs.
Proof.
  induction 1 as [|i pool v idx rest vs Hi Hrest IH]; simpl; [done|].
  rewrite (bind_lookup_block _ _ (size_of rest) _ _ v); [| |done|].
  - by rewrite list_lookup_fmap, IH.
  - intros y _. by rewrite length_fmap, cross_length.
  - rewrite <- cross_length. by eapply lookup_lt_Some.
Qed.

Lemma lex_lt_rank pools idx idx' :
  valid_index pools idx -> valid_index pools idx' ->
  lex_lt idx idx' -> (rank pools idx < rank pools idx')%nat.
Proof.
  intros Hv Hv' Hlt. revert pools Hv Hv'.
  induction Hlt as [i j idx idx' Hij|i idx idx' _ IH]; intros pools Hv Hv';
    apply Forall2_cons_inv_l in Hv as (pool & rest & Hi & Hv & ->);
    apply Forall2_cons_inv_l in Hv' as (pool' & rest' & Hj & Hv' & [= <- <-]);
    simpl.
  - pose proof (rank_bound rest idx Hv). nia.
  - specialize (IH rest Hv Hv'). lia.
Qed.

Lemma lex_lt_total idx idx' :
  length idx = length idx' -> lex_lt idx idx' \/ idx = idx' \/ lex_lt idx' idx.
Proof.
  revert idx'. induction idx as [|i idx IH]; intros [|j idx'] Hlen; try done.
  - by right; left.
  - injection Hlen as Hlen. destruct (lt_eq_lt_dec i j) as [[Hij| ->]|Hij].
    + left. by constructor.
    + destruct (IH idx' Hlen) as [H|[->|H]].
      * left. by constructor.
      * by right; left.
      * right; right. by constructor.
    + right; right. by constructor.
Qed.

Lemma rank_lex_lt pools idx idx' :
  valid_index pools idx -> valid_index pools idx' ->
  lex_lt idx idx' <-> (rank pools idx < rank pools idx')%nat.
Proof.
  intros Hv Hv'. split; [by apply lex_lt_rank|]. intros Hlt.
  destruct (lex_lt_total idx idx') as [H|[->|H]]; [|done|lia|].
  - unfold valid_index in *. apply Forall2_length in Hv, Hv'. congruence.
  - pose proof (lex_lt_rank pools idx' idx Hv' Hv H). lia.
Qed.

End CrossProduct.

(** ** Dictionaries *)
Section Dicts.
Import Py.
Context {V : Type}.
Implicit Types (d other : list (string * V)) (k : string) (v : V).

Lemma dict_get_set_eq k v d : dict_get k (dict_set k v d) = Some v.
Proof.
  induction d as [|[k' v'] d IH]; simpl.
  - by rewrite String.eqb_refl.
  - destruct (String.eqb_spec k k') as [->|Hne]; simpl.
    + by rewrite String.eqb_refl.
    + by destruct (String.eqb_spec k k').
Qed.

Lemma dict_get_set_ne k k' v d :
  k <> k' -> dict_get k' (dict_set k v d) = dict_get k' d.
Proof.
  intros Hne. induction d as [|[k0 v0] d IH]; simpl.
  - by destruct (String.eqb_spec k' k) as [->|].
  - destruct (String.eqb_spec k k0) as [->|Hk]; simpl.
    + by destruct (String.eqb_spec k' k0) as [->|].
    + by rewrite IH.
Qed.

Lemma dict_get_None k d : dict_get k d = None <-> k ∉ d.*1.
Proof.
  induction d as [|[k' v'] d IH]; simpl.
  - split; [intros _; apply not_elem_of_nil|done].
  - rewrite not_elem_of_cons. destruct (String.eqb_spec k k') as [->|Hne].
    + split; [done|]. by intros [? _].
    + rewrite IH. tauto.
Qed.

Lemma dict_get_Some_elem k v d : dict_get k d = Some v -> (k, v) ∈ d.
Proof.
  induction d as [|[k' v'] d IH]; simpl; [done|].
  destruct (String.eqb_spec k k') as [->|Hne].
  - intros [= ->]. left.
  - intros H. right. by apply IH.
Qed.

Lemma dict_get_elem k v d : NoDup d.*1 -> (k, v) ∈ d -> dict_get k d = Some v.
Proof.
  induction d as [|[k' v'] d IH]; simpl; [by intros _ ?%elem_of_nil|].
  intros [Hk' Hd]%NoDup_cons [[= -> ->]|Hin]%elem_of_cons.
  - by rewrite String.eqb_refl.
  - destruct (String.eqb_spec k k') as [->|Hne]; [|by apply IH].
    destruct Hk'. apply list_elem_of_fmap. by exists (k', v).
Qed.

Lemma dict_set_fresh k v d : k ∉ d.*1 -> dict_set k v d = d ++ [(k, v)].
Proof.
  induction d as [|[k' v'] d IH]; simpl; [done|].
  intros [Hne Hk]%not_elem_of_cons.
  destruct (String.eqb_spec k k'); [done|]. by rewrite IH.
Qed.

Lemma dict_set_keys k v d :
  (dict_set k v d).*1 = if dict_mem k d then d.*1 else d.*1 ++ [k].
Proof.
  unfold dict_mem. induction d as [|[k' v'] d IH]; [done|].
  cbn [dict_set dict_get].
  destruct (String.eqb_spec k k') as [->|Hne]; [done|].
  rewrite !fmap_cons, IH. by destruct (dict_get k d).
Qed.

Lemma dict_update_fresh d other :
  NoDup (d.*1 ++ other.*1) -> dict_update d other = d ++ other.
Proof.
  unfold dict_update. revert d.
  induction other as [|[k v] other IH]; intros d Hnd; simpl.
  - by rewrite app_nil_r.
  - assert (k ∉ d.*1) as Hk.
    { apply NoDup_app in Hnd as (_ & Hdis & _). intros Hin.
      apply (Hdis k Hin). left. }
    rewrite dict_set_fresh by done. rewrite IH.
    + by rewrite <- app_assoc.
    + rewrite fmap_app. simpl. by rewrite <- app_assoc.
Qed.

Lemma dict_of_pairs_NoDup other : NoDup other.*1 -> dict_of_pairs other = other.
Proof. intros Hnd. unfold dict_of_pairs. by rewrite dict_update_fresh. Qed.

Lemma dict_get_update k d other :
  NoDup other.*1 ->
  dict_get k (dict_update d other)
  = match dict_get k other with Some v => Some v | None => dict_get k d end.
Proof.
  unfold dict_update. revert d.
  induction other as [|[k0 v0] other IH]; intros d Hnd; simpl; [done|].
  apply NoDup_cons in Hnd as [Hk0 Hnd]. simpl in Hk0. rewrite IH by done.
  destruct (String.eqb_spec k k0) as [->|Hne].
  - apply dict_get_None in Hk0. rewrite Hk0. apply dict_get_set_eq.
  - rewrite dict_get_set_ne by done. done.
Qed.

End Dicts.

(** ** The Parameter Expander *)
Section Expander.
Import Py Spec.
Variable arange_other : json -> json -> json -> result (list json).

#[local] Abbreviation param_range := (JobPrepper.param_range arange_other).
#[local] Abbreviation param_ranges_of := (JobPrepper.param_ranges_of arange_other).
#[local] Abbreviation add_array_parameters := (JobPrepper.add_array_parameters arange_other).

#[local] Abbreviation resolves := (Spec.resolves arange_other).

Lemma param_ranges_of_ok d params ranges :
  (forall k v, (k, v) ∈ params -> dict_get k d = Some v) ->
  resolves params ranges ->
  param_ranges_of d params.*1 = Ok ranges.
Proof.
  intros Hget H. induction H as [|[k v] range params ranges Hr _ IH]; [done|].
  rewrite fmap_cons. cbn [JobPrepper.param_ranges_of fst]. unfold getitem.
  rewrite (Hget k v) by left. cbn [rbind]. simpl in Hr. rewrite Hr. cbn [rbind].
  rewrite IH; [done|]. intros k' v' Hin. apply Hget. by right.
Qed.

Lemma param_ranges_of_error d pre k v post ranges e :
  (forall k' v', (k', v') ∈ pre ++ (k, v) :: post -> dict_get k' d = Some v') ->
  resolves pre ranges ->
  param_range v = Raise e ->
  param_ranges_of d (pre ++ (k, v) :: post).*1 = Raise e.
Proof.
  intros Hget H Hv. induction H as [|[k0 v0] range pre ranges Hr _ IH].
  - rewrite app_nil_l, fmap_cons. cbn [JobPrepper.param_ranges_of fst].
    unfold getitem. rewrite (Hget k v) by left. cbn [rbind]. by rewrite Hv.
  - rewrite <- app_comm_cons, fmap_cons. cbn [JobPrepper.param_ranges_of fst].
    unfold getitem. rewrite (Hget k0 v0) by left. cbn [rbind].
    simpl in Hr. rewrite Hr. cbn [rbind].
    rewrite IH; [done|]. intros k' v' Hin. apply Hget. by right.
Qed.

Lemma zip_inj_r (names : list string) (c c' : list json) :
  length c = length names -> length c' = length names ->
  zip names c = zip names c' -> c = c'.
Proof.
  intros Hc Hc' Heq.
  rewrite <- (snd_zip names c), <- (snd_zip names c') by lia. by rewrite Heq.
Qed.

Lemma combination_dict (names : list string) (c : list json) :
  NoDup names -> length c = length names ->
  dict_of_pairs (zip names c) = zip names c.
Proof.
  intros Hnd Hlen. apply dict_of_pairs_NoDup. rewrite fst_zip by lia. done.
Qed.

Lemma add_array_parameters_cross d ranges :
  NoDup d.*1 -> resolves d ranges ->
  add_array_parameters (JDict d) = Ok ((fun c => JDict (zip d.*1 c)) <$> cross ranges).
Proof.
  intros Hnd Hres. unfold JobPrepper.add_array_parameters.
  rewrite (param_ranges_of_ok d d ranges); [|by intros; apply dict_get_elem|done].
  simpl. f_equal. rewrite product_cross. apply list_fmap_ext. intros i c Hc.
  apply list_elem_of_lookup_2 in Hc. apply cross_tuple_length in Hc.
  rewrite combination_dict; [done..|].
  rewrite Hc, length_fmap. symmetry. by eapply Forall2_length.
Qed.


(** C1 (amended): for a Range Specification with distinct parameter
    names whose parameters all resolve, to the sequences [ranges], the
    Expander returns the cross product of the sequences: as many
    combinations as the product of the lengths; the combination built from
    the values at the indices [idx] stands at the position whose
    mixed-radix digits are [idx], and positions follow the lexicographic
    order of the index tuples (declared parameter order, first parameter
    slowest); a combination is returned exactly when it takes one value of
    every sequence; and the combinations are pairwise distinct when no
    sequence repeats a value. *)
Theorem add_array_parameters_cross_product d ranges :
  NoDup d.*1 -> resolves d ranges ->
  exists combos,
    add_array_parameters (JDict d) = Ok combos
    /\ length combos = size_of ranges
    /\ (forall idx vs,
          Forall3 (fun i range v => range !! i = Some v) idx ranges vs ->
          combos !! rank ranges idx = Some (JDict (zip d.*1 vs)))
    /\ (forall idx idx', valid_index ranges idx -> valid_index ranges idx' ->
          (lex_lt idx idx' <-> (rank ranges idx < rank ranges idx')%nat))
    /\ (forall c, c ∈ combos <->
          exists vs, Forall2 (fun v range => v ∈ range) vs ranges
                     /\ c = JDict (zip d.*1 vs))
    /\ (Forall NoDup ranges -> NoDup combos).
Proof.
  intros Hnd Hres. eexists. split; [by apply add_array_parameters_cross|].
  split; [by rewrite length_fmap, cross_length|].
  split; [|split; [|split]].
  - intros idx vs H. by rewrite list_lookup_fmap, (cross_lookup _ _ _ H).
  - intros idx idx'. apply rank_lex_lt.
  - intros c. rewrite list_elem_of_fmap. split.
    + intros (vs & -> & Hvs). exists vs. split; [|done]. by apply cross_elem.
    + intros (vs & Hvs & ->). exists vs. split; [done|]. by apply cross_elem.
  - intros Hranges. apply NoDup_fmap_2_strong; [|by apply cross_NoDup].
    intros c c' Hc%cross_tuple_length Hc'%cross_tuple_length [= Heq].
    apply Forall2_length in Hres.
    apply (zip_inj_r d.*1); rewrite ?length_fmap; congruence.
Qed.

Lemma param_range_missing descriptor k :
  first_missing descriptor = Some k ->
  param_range (JDict descriptor) = Raise (KeyError k).
Proof.
  unfold first_missing, dict_mem. cbn [JobPrepper.param_range]. unfold getitem.
  destruct (dict_get "start" descriptor); cbn [negb rbind]; [|by intros [= <-]].
  destruct (dict_get "end" descriptor); cbn [negb rbind]; [|by intros [= <-]].
  destruct (dict_get "step" descriptor); cbn [negb rbind]; [done|by intros [= <-]].
Qed.

Lemma add_array_parameters_first_error pre k v post ranges e :
  NoDup (pre ++ (k, v) :: post).*1 ->
  resolves pre ranges ->
  param_range v = Raise e ->
  add_array_parameters (JDict (pre ++ (k, v) :: post)) = Raise e.
Proof.
  intros Hnd Hpre Hv. unfold JobPrepper.add_array_parameters.
  rewrite (param_ranges_of_error _ pre k v post ranges e); [done| |done..].
  intros k' v' Hin. by apply dict_get_elem.
Qed.

Lemma arange_not_invalid_range start stop step :
  (forall a b c, arange_other a b c <> Raise (ValueError "Invalid range type")) ->
  Numpy.arange arange_other start stop step <> Raise (ValueError "Invalid range type").
Proof.
  intros Hother. unfold Numpy.arange.
  destruct (Numpy.small_number start) as [[a|a]|]; [| |done];
    (destruct (Numpy.small_number stop) as [[b|b]|]; [| |done]);
    (destruct (Numpy.small_number step) as [[s|s]|]; [| |done]);
    try (unfold Numpy.arange_int; by destruct (s =? 0));
    (unfold Numpy.arange_float;
     repeat match goal with
            | |- context [if ?c then _ else _] => destruct c
            | |- context [match float_ceil ?q with _ => _ end] => destruct (float_ceil q)
            end; done).
Qed.

Lemma param_ranges_of_invalid_range d names :
  (forall a b c, arange_other a b c <> Raise (ValueError "Invalid range type")) ->
  param_ranges_of d names = Raise (ValueError "Invalid range type") ->
  exists k v, dict_get k d = Some v /\ is_list_or_dict v = false.
Proof.
  intros Hother. induction names as [|name names IH]; [done|].
  cbn [JobPrepper.param_ranges_of]. unfold getitem.
  destruct (dict_get name d) as [v|] eqn:Hget; cbn [rbind]; [|done].
  destruct (JobPrepper.param_range arange_other v) as [range|e] eqn:Hrange; cbn [rbind].
  - destruct (param_ranges_of d names); cbn [rbind]; [done|].
    intros [= ->]. by apply IH.
  - intros [= ->]. exists name, v. split; [done|].
    destruct v as [| | | | |l|descriptor]; try done.
    cbn [JobPrepper.param_range] in Hrange. unfold getitem in Hrange.
    destruct (dict_get "start" descriptor); cbn [rbind] in Hrange; [|done].
    destruct (dict_get "end" descriptor); cbn [rbind] in Hrange; [|done].
    destruct (dict_get "step" descriptor); cbn [rbind] in Hrange; [|done].
    by apply arange_not_invalid_range in Hrange.
Qed.




(** When every parameter declared before one whose value is neither a
    list nor a mapping resolves, the Expander raises the validation
    error. *)
Lemma add_array_parameters_invalid_shape pre k v post ranges :
  NoDup (pre ++ (k, v) :: post).*1 ->
  resolves pre ranges ->
  is_list_or_dict v = false ->
  add_array_parameters (JDict (pre ++ (k, v) :: post))
  = Raise (ValueError "Invalid range type").
Proof.
  intros Hnd Hpre Hv. eapply add_array_parameters_first_error; [done..|].
  by destruct v.
Qed.

(** C10 (amended): when every parameter declared before a mapping that
    lacks one of [start], [end], [step] resolves, the Expander raises the
    key-lookup error for the first key missing, in that order; and it
    raises the validation error only if some parameter's value is neither a
    list nor a mapping (numpy itself never raising that message). *)
Theorem add_array_parameters_missing_key pre k descriptor post ranges missing :
  NoDup (pre ++ (k, JDict descriptor) :: post).*1 ->
  resolves pre ranges ->
  first_missing descriptor = Some missing ->
  (forall a b c, arange_other a b c <> Raise (ValueError "Invalid range type")) ->
  add_array_parameters (JDict (pre ++ (k, JDict descriptor) :: post))
  = Raise (KeyError missing)
  /\ (forall d,
        add_array_parameters (JDict d) = Raise (ValueError "Invalid range type") ->
        exists k' v, (k', v) ∈ d /\ is_list_or_dict v = false).
Proof.
  intros Hnd Hpre Hmissing Hother. split.
  - eapply add_array_parameters_first_error; [done..|].
    by apply param_range_missing.
  - intros d. unfold JobPrepper.add_array_parameters.
    destruct (param_ranges_of d d.*1) as [ranges'|e] eqn:Hranges; cbn [rbind]; [done|].
    intros [= ->].
    apply param_ranges_of_invalid_range in Hranges as (k' & v & Hget & Hv); [|done].
    exists k', v. split; [|done]. by apply dict_get_Some_elem.
Qed.

End Expander.

(** ** The store *)
Section Store.
Import Py OS Spec.

Lemma bind_lift {A B} (r : result A) (k : A -> M B) w :
  bind (lift r) k w = match r with Ok a => k a w | Raise e => (Raise e, w) end.
Proof. by destruct r. Qed.

Lemma lookup_insert_node fs p nd :
  p <> [] -> lookup (<[p := nd]> fs) p = Some nd.
Proof. destruct p; [done|]. intros _. apply lookup_insert_eq. Qed.

Lemma holds_nonroot w path c mode : holds w path c mode -> resolve w path <> [].
Proof. intros [_ H] Hp. by rewrite Hp in H. Qed.

Lemma read_file_holds w path c mode :
  holds w path c mode -> read_file path w = (Ok c, w).
Proof.
  intros [Hne H]. unfold read_file. apply String.eqb_neq in Hne. by rewrite Hne, H.
Qed.

Lemma read_file_world path w : (read_file path w).2 = w.
Proof.
  unfold read_file. destruct (String.eqb path EmptyString); [done|].
  by destruct (lookup (files w) (resolve w path)) as [[|c mode]|].
Qed.

Lemma read_file_inv path w c w' :
  read_file path w = (Ok c, w') ->
  w' = w /\ exists mode, holds w path c mode.
Proof.
  unfold read_file, holds. destruct (String.eqb_spec path EmptyString); [done|].
  destruct (lookup (files w) (resolve w path)) as [[|c' mode]|]; try done.
  intros [= <- <-]. eauto.
Qed.

Lemma open_w_holds w path c mode :
  holds w path c mode ->
  open_w path w = (Ok tt, with_file w path (Text EmptyString) mode).
Proof.
  intros [Hne H]. unfold open_w. apply String.eqb_neq in Hne. by rewrite Hne, H.
Qed.

Lemma with_file_holds w path c mode :
  resolve w path <> [] -> path <> EmptyString ->
  holds (with_file w path c mode) path c mode.
Proof.
  intros Hp Hne. split; [done|]. by apply lookup_insert_node.
Qed.

Lemma with_file_twice w path c c' mode mode' :
  with_file (with_file w path c mode) path c' mode' = with_file w path c' mode'.
Proof. unfold with_file. simpl. f_equal. apply insert_insert_eq. Qed.

Lemma write_holds w path c c' mode :
  holds w path c mode -> write path c' w = (Ok tt, with_file w path c' mode).
Proof. intros [_ H]. unfold write. by rewrite H. Qed.

(** Rewriting a file that is there: open, then write the whole content. *)
Lemma rewrite_file w path c c' mode :
  holds w path c mode ->
  (open_w path ;; write path c') w = (Ok tt, with_file w path c' mode).
Proof.
  intros H. unfold bind. rewrite (open_w_holds _ _ _ _ H).
  rewrite (write_holds _ _ (Text EmptyString) _ mode).
  - by rewrite with_file_twice.
  - destruct H as [Hne H]. apply with_file_holds; [|done..].
    intros Hp. by rewrite Hp in H.
Qed.

End Store.

(** ** The Metadata Recorder *)
Section Metadata.
Import Py OS Spec.

Lemma update_metadata_record w path record details mode :
  holds w path (Json (JDict record)) mode ->
  section_is_dict record ->
  JobLauncher.update_metadata path details w
  = (Ok tt, with_file w path (Json (JDict (merged_record record details))) mode).
Proof.
  intros Hfile Hsection. unfold JobLauncher.update_metadata, bind at 1.
  rewrite (read_file_holds _ _ _ _ Hfile). unfold bind at 1, ret.
  unfold section_is_dict in Hsection. unfold merged_record, job_information_of, dict_mem.
  destruct (dict_get "job_information" record) as [v|] eqn:Hget; cbn [negb].
  - rewrite Hget. destruct v; try done. by eapply rewrite_file.
  - rewrite dict_get_set_eq. by eapply rewrite_file.
Qed.

Lemma update_metadata_failure w path details e w' :
  JobLauncher.update_metadata path details w = (Raise e, w') -> w' = w.
Proof.
  unfold JobLauncher.update_metadata, bind at 1.
  destruct (read_file path w) as [[c|e0] w0] eqn:Hread.
  - apply read_file_inv in Hread as [-> [mode Hfile]].
    destruct c as [j|text]; unfold bind at 1, ret, raise; [|by intros [= _ <-]].
    destruct j as [| | | | | |record]; try by intros [= _ <-].
    destruct (dict_get "job_information" _) as [v|]; [|by intros [= _ <-]].
    destruct v as [| | | | | |section]; try by intros [= _ <-].
    by rewrite (rewrite_file _ _ _ _ _ Hfile).
  - pose proof (read_file_world path w) as Hw. rewrite Hread in Hw. simpl in Hw.
    by intros [= _ <-].
Qed.

Lemma update_metadata_success w path details w' :
  JobLauncher.update_metadata path details w = (Ok tt, w') ->
  exists record mode,
    holds w path (Json (JDict record)) mode
    /\ w' = with_file w path (Json (JDict (merged_record record details))) mode.
Proof.
  intros Hrun. pose proof Hrun as Hrun'. revert Hrun'.
  unfold JobLauncher.update_metadata, bind at 1.
  destruct (read_file path w) as [[c|e0] w0] eqn:Hread; [|done].
  apply read_file_inv in Hread as [-> [mode Hfile]].
  destruct c as [j|text]; unfold bind at 1, ret, raise; [|done].
  destruct j as [| | | | | |record]; try done.
  intros _. exists record, mode. split; [done|].
  assert (section_is_dict record) as Hsection.
  { revert Hrun. unfold JobLauncher.update_metadata, bind at 1.
    rewrite (read_file_holds _ _ _ _ Hfile). unfold bind at 1, ret, raise.
    unfold section_is_dict, dict_mem.
    destruct (dict_get "job_information" record) as [v|] eqn:Hget; cbn [negb]; [|done].
    rewrite Hget. by destruct v. }
  rewrite (update_metadata_record _ _ _ _ _ Hfile Hsection) in Hrun. congruence.
Qed.

(** C4: on a record whose job-information section, if present, is a
    mapping, [update_metadata] with a dictionary [details] rewrites the
    file with a record in which the section (created last if absent) has
    every key of [details] at its new value and every other key as before,
    and every other section is as before; applying [{job_id: "12345"}] to a
    section holding [state: "PENDING"] gives a section with both. *)
Theorem update_metadata_merges w path record details mode :
  holds w path (Json (JDict record)) mode ->
  section_is_dict record ->
  NoDup details.*1 ->
  (exists record' section',
     JobLauncher.update_metadata path details w
     = (Ok tt, with_file w path (Json (JDict record')) mode)
     /\ dict_get "job_information" record' = Some (JDict section')
     /\ (forall k v, dict_get k details = Some v -> dict_get k section' = Some v)
     /\ (forall k, dict_get k details = None ->
           dict_get k section' = dict_get k (job_information_of record))
     /\ (forall s, s <> "job_information" -> dict_get s record' = dict_get s record)
     /\ record'.*1 = (if dict_mem "job_information" record then record.*1
                      else record.*1 ++ ["job_information"]))
  /\ (let pending :=
        World [] {[ ["metadata.json"] :=
                      File (Json (JDict [("job_information",
                                          JDict [("state", JStr "PENDING")])]))
                           None ]} [] in
      JobLauncher.update_metadata "metadata.json" [("job_id", JStr "12345")] pending
      = (Ok tt,
         with_file pending "metadata.json"
           (Json (JDict [("job_information",
                           JDict [("state", JStr "PENDING");
                                  ("job_id", JStr "12345")])]))
           None)).
Proof.
  intros Hfile Hsection Hnd. split; [|by vm_compute].
  exists (merged_record record details),
         (dict_update (job_information_of record) details).
  split; [by apply update_metadata_record|].
  unfold merged_record. split; [apply dict_get_set_eq|].
  split; [|split; [|split]].
  - intros k v Hk. by rewrite dict_get_update, Hk.
  - intros k Hk. by rewrite dict_get_update, Hk.
  - intros s Hs. rewrite dict_get_set_ne by done.
    destruct (dict_mem "job_information" record); cbn [negb]; [done|].
    by rewrite dict_get_set_ne.
  - rewrite dict_set_keys.
    destruct (dict_mem "job_information" record) eqn:Hmem; cbn [negb].
    + by rewrite Hmem.
    + unfold dict_mem at 1. rewrite dict_get_set_eq, dict_set_keys. by rewrite Hmem.
Qed.


End Metadata.

(** ** The Job Submitter *)
Section Submit.
Import Py OS Spec.

Lemma append_nil_l s : EmptyString +:+ s = s.
Proof. done. Qed.

Lemma append_cons c s t : String c s +:+ t = String c (s +:+ t).
Proof. done. Qed.

Lemma append_nil_r s : s +:+ EmptyString = s.
Proof. induction s as [|c s IH]; [done|]. by rewrite append_cons, IH. Qed.

Lemma append_assoc s t u : (s +:+ t) +:+ u = s +:+ t +:+ u.
Proof. induction s as [|c s IH]; [done|]. by rewrite !append_cons, IH. Qed.

Lemma split_from_blank s cur : blank s = true -> split_from s cur = flush cur.
Proof.
  unfold blank. revert cur. induction s as [|c s IH]; intros cur; simpl; [done|].
  intros [Hc Hs]%andb_prop. rewrite Hc, (IH EmptyString Hs). apply app_nil_r.
Qed.

Lemma split_from_token t s cur :
  string_forall (fun c => negb (is_space c)) t = true ->
  split_from (t +:+ s) cur = split_from s (cur +:+ t).
Proof.
  revert cur. induction t as [|c t IH]; intros cur.
  - intros _. by rewrite append_nil_l, append_nil_r.
  - cbn [string_forall]. intros [Hc Ht]%andb_prop. apply negb_true_iff in Hc.
    rewrite append_cons. cbn [split_from]. rewrite Hc, (IH _ Ht).
    by rewrite append_assoc, append_cons, append_nil_l.
Qed.

Lemma split_from_ends_blank pre rest cur :
  pre <> EmptyString -> ends_blank pre = true ->
  split_from (pre +:+ rest) cur = split_from pre cur ++ split_from rest EmptyString.
Proof.
  revert cur. induction pre as [|c pre IH]; intros cur Hne Hend; [done|].
  rewrite append_cons. destruct pre as [|c' pre'].
  - rewrite append_nil_l. cbn [split_from ends_blank] in *. rewrite Hend.
    by rewrite app_nil_r.
  - assert (ends_blank (String c' pre') = true) as Hend' by done.
    cbn [split_from]. destruct (is_space c).
    + rewrite IH by done. by rewrite app_assoc.
    + by rewrite IH.
Qed.

Lemma split_lstrip s : split (lstrip s) = split s.
Proof.
  unfold split. induction s as [|c s IH]; [done|].
  cbn [lstrip]. destruct (is_space c) eqn:Hc; [|done].
  cbn [split_from]. by rewrite Hc, IH.
Qed.

Lemma rstrip_empty s : rstrip s = EmptyString -> blank s = true.
Proof.
  unfold blank. induction s as [|c s IH]; simpl; [done|].
  destruct (rstrip s); [|done]. destruct (is_space c); [|done].
  intros _. by rewrite IH.
Qed.

Lemma split_from_cons c s cur :
  split_from (String c s) cur
  = if is_space c then flush cur ++ split_from s EmptyString
    else split_from s (cur +:+ String c EmptyString).
Proof. done. Qed.

Lemma split_from_rstrip s cur : split_from (rstrip s) cur = split_from s cur.
Proof.
  revert cur. induction s as [|c s IH]; intros cur; [done|].
  cbn [rstrip]. rewrite (split_from_cons c s).
  destruct (rstrip s) as [|c' r] eqn:Hr.
  - apply rstrip_empty in Hr. rewrite !(split_from_blank s) by done.
    destruct (is_space c) eqn:Hc; [by rewrite app_nil_r|].
    by rewrite split_from_cons, Hc.
  - rewrite split_from_cons. by rewrite !IH.
Qed.

Lemma split_strip s : split (strip s) = split s.
Proof.
  unfold strip. transitivity (split (lstrip s)); [|apply split_lstrip].
  unfold split. apply split_from_rstrip.
Qed.

Lemma split_final_token out id :
  final_token out id -> last (split (strip out)) = Some id.
Proof.
  intros (pre & post & -> & Hpre & [Hne Hid]%andb_prop & Hpost).
  rewrite split_strip. unfold split.
  assert (split_from (id +:+ post) EmptyString = [id]) as Hlast.
  { rewrite split_from_token, split_from_blank by done. unfold flush.
    rewrite append_nil_l. by apply negb_true_iff in Hne as ->. }
  destruct pre as [|c pre]; [by rewrite append_nil_l, Hlast|].
  rewrite split_from_ends_blank, Hlast by done. apply last_snoc.
Qed.

Lemma split_blank out : blank out = true -> split (strip out) = [].
Proof. intros H. rewrite split_strip. unfold split. by rewrite split_from_blank. Qed.

Variable sbatch : string -> result JobLauncher.completed_process.

#[local] Abbreviation submit_job := (JobLauncher.submit_job sbatch).

Lemma submit_job_failure script path w e w' :
  submit_job script path w = (Raise e, w') -> w' = w.
Proof.
  unfold JobLauncher.submit_job. rewrite bind_lift.
  destruct (sbatch script) as [cp|e0]; [|by intros [= _ <-]].
  rewrite bind_lift. destruct (last_item _) as [id|e0]; [|by intros [= _ <-]].
  apply update_metadata_failure.
Qed.

(** C5 (amended): when the submission command completes, whatever its
    exit status, with an output whose final whitespace-delimited token is
    [id], [submit_job] does what the metadata update with [{job_id: id}]
    does; when the output holds no token it raises [IndexError], and when
    the command cannot be started it raises that error, in both cases
    without touching the store; and whenever [submit_job] raises, the store
    is as before. *)
Theorem submit_job_final_token script path w cp id :
  sbatch script = Ok cp ->
  final_token (JobLauncher.output cp) id ->
  submit_job script path w
  = JobLauncher.update_metadata path [("job_id", JStr id)] w
  /\ (forall script0 path0 w0 cp0,
        sbatch script0 = Ok cp0 -> blank (JobLauncher.output cp0) = true ->
        submit_job script0 path0 w0 = (Raise IndexError, w0))
  /\ (forall script0 path0 w0 e,
        sbatch script0 = Raise e -> submit_job script0 path0 w0 = (Raise e, w0))
  /\ (forall script0 path0 w0 e w',
        submit_job script0 path0 w0 = (Raise e, w') -> w' = w0).
Proof.
  intros Hrun Hid. split; [|split; [|split]].
  - unfold JobLauncher.submit_job. rewrite bind_lift, Hrun, bind_lift.
    unfold last_item. by rewrite (split_final_token _ _ Hid).
  - intros script0 path0 w0 cp0 Hrun0 Hblank.
    unfold JobLauncher.submit_job. rewrite bind_lift, Hrun0, bind_lift.
    unfold last_item. by rewrite (split_blank _ Hblank).
  - intros script0 path0 w0 e Hrun0.
    unfold JobLauncher.submit_job. by rewrite bind_lift, Hrun0.
  - intros script0 path0 w0 e w'. apply submit_job_failure.
Qed.

End Submit.

(** ** Preparation *)
Section Prepare.
Import Py OS Spec.
Variable arange_other : json -> json -> json -> result (list json).
Variable repr_other : json -> string.

#[local] Abbreviation add_array_parameters :=
  (JobPrepper.add_array_parameters arange_other).
#[local] Abbreviation main := (JobPrepper.main arange_other repr_other).
#[local] Abbreviation dump_json_and_after := (Spec.dump_json_and_after repr_other).

Lemma open_w_inv path w w1 :
  open_w path w = (Ok tt, w1) ->
  exists mode,
    w1 = with_file w path (Text EmptyString) mode
    /\ holds w1 path (Text EmptyString) mode.
Proof.
  unfold open_w. destruct (String.eqb_spec path EmptyString) as [|Hne]; [done|].
  destruct (lookup (files w) (resolve w path)) as [[|c mode]|] eqn:Hp; [done| |].
  - intros [= <-]. exists mode. split; [done|]. apply with_file_holds; [|done].
    intros Hroot. by rewrite Hroot in Hp.
  - destruct (lookup (files w) (removelast (resolve w path))) as [[|c mode]|];
      [|done..].
    intros [= <-]. exists None. split; [done|]. apply with_file_holds; [|done].
    intros Hroot. by rewrite Hroot in Hp.
Qed.

(** Creating or replacing a file that can be opened for writing. *)
Lemma create_file path c w w1 :
  open_w path w = (Ok tt, w1) ->
  exists mode, (open_w path ;; write path c) w = (Ok tt, with_file w path c mode).
Proof.
  intros Hopen. pose proof Hopen as (mode & -> & Hfile)%open_w_inv.
  exists mode. unfold bind. rewrite Hopen.
  rewrite (write_holds _ _ _ _ _ Hfile). by rewrite with_file_twice.
Qed.

Lemma load_json_world path w : (JobPrepper.load_json path w).2 = w.
Proof.
  unfold JobPrepper.load_json, bind. pose proof (read_file_world path w) as Hw.
  destruct (read_file path w) as [[[j|text]|e] w']; simpl in *; by subst.
Qed.

Lemma bind_load_json {B} path (k : json -> M B) w :
  bind (JobPrepper.load_json path) k w
  = match (JobPrepper.load_json path w).1 with
    | Ok j => k j w
    | Raise e => (Raise e, w)
    end.
Proof.
  unfold bind at 1. pose proof (load_json_world path w) as Hw.
  destruct (JobPrepper.load_json path w) as [[j|e] w']; simpl in *; by subst.
Qed.

Lemma load_json_fst path w j : 
  JobPrepper.load_json path w = (Ok j, w) -> (JobPrepper.load_json path w).1 = Ok j.
Proof. by intros ->. Qed.

(** C9: when the description is there, the revision is known and the file
    can be opened for writing, [generate_metadata_file] leaves at the path a
    record with exactly the five sections, whose job-information section
    has exactly the five fields, all null, and whose scheduler, simulation
    and array sections are the arguments as given. *)
Theorem generate_metadata_file_fresh e path slurm_params simulation_params
    array_params other_params description revision w w1 :
  subscript other_params "description" = Ok description ->
  JobPrepper.hexsha e = Ok revision ->
  open_w path w = (Ok tt, w1) ->
  exists record section mode,
    JobPrepper.generate_metadata_file e path slurm_params simulation_params
                                      array_params other_params w
    = (Ok tt, with_file w path (Json (JDict record)) mode)
    /\ record.*1 = ["general_metadata"; "job_information"; "slurm_parameters";
                    "simulation_parameters"; "array_parameters"]
    /\ dict_get "job_information" record = Some (JDict section)
    /\ section.*1 = ["job_id"; "state"; "start_time"; "end_time"; "elapsed_time"]
    /\ (forall field, field ∈ section.*1 -> dict_get field section = Some JNull)
    /\ dict_get "general_metadata" record
       = Some (JDict [("author", JStr "Julien Drapeau");
                      ("creation_date", JStr (JobPrepper.today e));
                      ("description", description);
                      ("github_version", JStr revision)])
    /\ dict_get "slurm_parameters" record = Some slurm_params
    /\ dict_get "simulation_parameters" record = Some simulation_params
    /\ dict_get "array_parameters" record = Some array_params.
Proof.
  intros Hdescription Hrevision Hopen.
  unfold JobPrepper.generate_metadata_file, JobPrepper.metadata_of.
  rewrite Hdescription, Hrevision. cbn [rbind]. rewrite bind_lift.
  destruct (create_file path (Json (JDict
    [("general_metadata",
       JDict [("author", JStr "Julien Drapeau");
              ("creation_date", JStr (JobPrepper.today e));
              ("description", description);
              ("github_version", JStr revision)]);
     ("job_information",
       JDict [("job_id", JNull); ("state", JNull); ("start_time", JNull);
              ("end_time", JNull); ("elapsed_time", JNull)]);
     ("slurm_parameters", slurm_params);
     ("simulation_parameters", simulation_params);
     ("array_parameters", array_params)])) w w1 Hopen) as [mode Hwrite].
  eexists _, _, mode. split; [exact Hwrite|].
  split; [done|]. split; [done|]. split; [done|]. split; [|done].
  intros field Hfield. cbn in Hfield.
  repeat (apply elem_of_cons in Hfield as [->|Hfield]; [done|]).
  by apply elem_of_nil in Hfield.
Qed.

(** What [main] does up to the expansion, on a well-formed command line. *)
Lemma main_unchanged_until_expansion e w prog parameter_path python_script_path :
  JobPrepper.argv e = [prog; parameter_path; python_script_path] ->
  (exists err, main e w = (Raise err, w))
  \/ exists range_array_params simul_params slurm_params other_params output,
       JobPrepper.load_json (join parameter_path "range_array_params.json") w
       = (Ok range_array_params, w)
       /\ JobPrepper.load_json (join parameter_path "simul_params.json") w
          = (Ok simul_params, w)
       /\ JobPrepper.load_json (join parameter_path "slurm_params.json") w
          = (Ok slurm_params, w)
       /\ JobPrepper.load_json (join parameter_path "other_params.json") w
          = (Ok other_params, w)
       /\ subscript slurm_params "output_directory" = Ok output
       /\ (exists output', subscript simul_params "output_directory" = Ok output'
                           /\ py_eq output output' = true)
       /\ exists array_params,
            add_array_parameters range_array_params = Ok array_params.
Proof.
  intros Hargv. unfold JobPrepper.main. rewrite Hargv.
  rewrite bind_load_json.
  pose proof (load_json_world (join parameter_path "range_array_params.json") w) as H1.
  destruct (JobPrepper.load_json (join parameter_path "range_array_params.json") w)
    as [[range_array_params|e1] w1]; simpl in H1; subst w1; cbn [fst]; [|eauto].
  rewrite bind_load_json.
  pose proof (load_json_world (join parameter_path "simul_params.json") w) as H2.
  destruct (JobPrepper.load_json (join parameter_path "simul_params.json") w)
    as [[simul_params|e2] w2]; simpl in H2; subst w2; cbn [fst]; [|eauto].
  rewrite bind_load_json.
  pose proof (load_json_world (join parameter_path "slurm_params.json") w) as H3.
  destruct (JobPrepper.load_json (join parameter_path "slurm_params.json") w)
    as [[slurm_params|e3] w3]; simpl in H3; subst w3; cbn [fst]; [|eauto].
  rewrite bind_load_json.
  pose proof (load_json_world (join parameter_path "other_params.json") w) as H4.
  destruct (JobPrepper.load_json (join parameter_path "other_params.json") w)
    as [[other_params|e4] w4]; simpl in H4; subst w4; cbn [fst]; [|eauto].
  rewrite bind_lift.
  destruct (subscript slurm_params "output_directory") as [output|e5] eqn:Hslurm;
    [|eauto].
  rewrite bind_lift.
  destruct (subscript simul_params "output_directory") as [output'|e6] eqn:Hsimul;
    [|eauto].
  destruct (py_eq output output') eqn:Heq; cbn [negb]; [|unfold raise; eauto].
  rewrite bind_lift.
  destruct (add_array_parameters range_array_params) as [array_params|e7] eqn:Hexp;
    [|eauto].
  right. exists range_array_params, simul_params, slurm_params, other_params, output.
  eauto 12.
Qed.

Lemma main_until_check e w prog parameter_path python_script_path
    range_array_params simul_params slurm_params other_params
    slurm_output simul_output :
  JobPrepper.argv e = [prog; parameter_path; python_script_path] ->
  JobPrepper.load_json (join parameter_path "range_array_params.json") w
  = (Ok range_array_params, w) ->
  JobPrepper.load_json (join parameter_path "simul_params.json") w
  = (Ok simul_params, w) ->
  JobPrepper.load_json (join parameter_path "slurm_params.json") w
  = (Ok slurm_params, w) ->
  JobPrepper.load_json (join parameter_path "other_params.json") w
  = (Ok other_params, w) ->
  subscript slurm_params "output_directory" = Ok slurm_output ->
  subscript simul_params "output_directory" = Ok simul_output ->
  main e w
  = if negb (py_eq slurm_output simul_output)
    then (Raise (ValueError "Output directories are different."), w)
    else match add_array_parameters range_array_params with
         | Raise err => (Raise err, w)
         | Ok array_params =>
             (dump_json_and_after e parameter_path python_script_path
                range_array_params simul_params slurm_params other_params
                array_params) w
         end.
Proof.
  intros Hargv Hrange Hsimul Hslurm Hother Hso Hsi.
  unfold JobPrepper.main. rewrite Hargv.
  rewrite bind_load_json, Hrange. cbn [fst].
  rewrite bind_load_json, Hsimul. cbn [fst].
  rewrite bind_load_json, Hslurm. cbn [fst].
  rewrite bind_load_json, Hother. cbn [fst].
  rewrite bind_lift, Hso, bind_lift, Hsi.
  destruct (py_eq slurm_output simul_output); cbn [negb]; [|done].
  rewrite bind_lift.
  destruct (add_array_parameters range_array_params); [rewrite <- Hso|]; reflexivity.
Qed.

(** C7: on a command line with the parameter directory and the program
    path, when the four parameter files load and the scheduler file's
    [output_directory] differs from the simulation file's, [main] raises the
    validation error and the store is as before: no directory was created
    and [array_params.json] was not written. Whatever the state of the two
    other parameter files, [main] raises and the store is as before. *)
Theorem main_output_directory_mismatch e w prog parameter_path python_script_path
    range_array_params simul_params slurm_params other_params
    slurm_output simul_output :
  JobPrepper.argv e = [prog; parameter_path; python_script_path] ->
  JobPrepper.load_json (join parameter_path "range_array_params.json") w
  = (Ok range_array_params, w) ->
  JobPrepper.load_json (join parameter_path "simul_params.json") w
  = (Ok simul_params, w) ->
  JobPrepper.load_json (join parameter_path "slurm_params.json") w
  = (Ok slurm_params, w) ->
  JobPrepper.load_json (join parameter_path "other_params.json") w
  = (Ok other_params, w) ->
  subscript slurm_params "output_directory" = Ok slurm_output ->
  subscript simul_params "output_directory" = Ok simul_output ->
  py_eq slurm_output simul_output = false ->
  main e w = (Raise (ValueError "Output directories are different."), w)
  /\ (forall e0 w0 prog0 parameter_path0 python_script_path0 simul0 slurm0
             slurm_output0 simul_output0,
        JobPrepper.argv e0 = [prog0; parameter_path0; python_script_path0] ->
        JobPrepper.load_json (join parameter_path0 "simul_params.json") w0
        = (Ok simul0, w0) ->
        JobPrepper.load_json (join parameter_path0 "slurm_params.json") w0
        = (Ok slurm0, w0) ->
        subscript slurm0 "output_directory" = Ok slurm_output0 ->
        subscript simul0 "output_directory" = Ok simul_output0 ->
        py_eq slurm_output0 simul_output0 = false ->
        exists err, main e0 w0 = (Raise err, w0)).
Proof.
  intros Hargv Hrange Hsimul Hslurm Hother Hso Hsi Hne. split.
  - rewrite (main_until_check _ _ _ _ _ _ _ _ _ _ _
               Hargv Hrange Hsimul Hslurm Hother Hso Hsi).
    by rewrite Hne.
  - intros e0 w0 prog0 parameter_path0 python_script_path0 simul0 slurm0
           slurm_output0 simul_output0 Hargv0 Hsimul0 Hslurm0 Hso0 Hsi0 Hne0.
    destruct (main_unchanged_until_expansion _ w0 _ _ _ Hargv0)
      as [Hfail|(range' & simul' & slurm' & other' & output & _ & Hsimul' & Hslurm'
                 & _ & Hso' & (output' & Hsi' & Heq) & _)]; [done|].
    congruence.
Qed.

(** C6 (amended): when every parameter declared before one whose value is
    neither a list nor a mapping resolves, the Expander raises the
    validation error; a preparation run on that specification raises and
    leaves the store as before (no directory, no script, no
    [array_params.json]), with that very error when the other parameter
    files load and the output directories agree; and whenever the Expander
    raises, whatever the error, the run raises and the store is as
    before. *)
Theorem main_invalid_range_shape e w prog parameter_path python_script_path
    pre k v post ranges :
  NoDup (pre ++ (k, v) :: post).*1 ->
  Spec.resolves arange_other pre ranges ->
  is_list_or_dict v = false ->
  JobPrepper.argv e = [prog; parameter_path; python_script_path] ->
  JobPrepper.load_json (join parameter_path "range_array_params.json") w
  = (Ok (JDict (pre ++ (k, v) :: post)), w) ->
  add_array_parameters (JDict (pre ++ (k, v) :: post))
  = Raise (ValueError "Invalid range type")
  /\ (exists err, main e w = (Raise err, w))
  /\ (forall simul_params slurm_params other_params slurm_output simul_output,
        JobPrepper.load_json (join parameter_path "simul_params.json") w
        = (Ok simul_params, w) ->
        JobPrepper.load_json (join parameter_path "slurm_params.json") w
        = (Ok slurm_params, w) ->
        JobPrepper.load_json (join parameter_path "other_params.json") w
        = (Ok other_params, w) ->
        subscript slurm_params "output_directory" = Ok slurm_output ->
        subscript simul_params "output_directory" = Ok simul_output ->
        py_eq slurm_output simul_output = true ->
        main e w = (Raise (ValueError "Invalid range type"), w))
  /\ (forall e0 w0 prog0 parameter_path0 python_script_path0 spec err,
        JobPrepper.argv e0 = [prog0; parameter_path0; python_script_path0] ->
        JobPrepper.load_json (join parameter_path0 "range_array_params.json") w0
        = (Ok spec, w0) ->
        add_array_parameters spec = Raise err ->
        exists err', main e0 w0 = (Raise err', w0)).
Proof.
  intros Hnd Hpre Hshape Hargv Hrange.
  assert (forall e0 w0 prog0 parameter_path0 python_script_path0 spec err,
            JobPrepper.argv e0 = [prog0; parameter_path0; python_script_path0] ->
            JobPrepper.load_json (join parameter_path0 "range_array_params.json") w0
            = (Ok spec, w0) ->
            add_array_parameters spec = Raise err ->
            exists err', main e0 w0 = (Raise err', w0)) as Hany.
  { intros e0 w0 prog0 parameter_path0 python_script_path0 spec err Hargv0 Hrange0 Hexp.
    destruct (main_unchanged_until_expansion _ w0 _ _ _ Hargv0)
      as [Hfail|(range' & simul' & slurm' & other' & output & Hrange' & _ & _
                 & _ & _ & _ & (array_params & Hok))]; [done|].
    congruence. }
  pose proof (add_array_parameters_invalid_shape arange_other _ _ _ _ _
                Hnd Hpre Hshape) as Hexp.
  split; [done|]. split; [by eapply Hany|]. split; [|done].
  intros simul_params slurm_params other_params slurm_output simul_output
         Hsimul Hslurm Hother Hso Hsi Heq.
  rewrite (main_until_check _ _ _ _ _ _ _ _ _ _ _
             Hargv Hrange Hsimul Hslurm Hother Hso Hsi).
  by rewrite Heq, Hexp.
Qed.

End Prepare.

(** ** The Run Directory Allocator *)
Section Allocator.
Import Py OS Spec.

Lemma startswith_append prefix suffix : startswith (prefix +:+ suffix) prefix = true.
Proof.
  induction prefix as [|c prefix IH]; [by destruct suffix|].
  rewrite append_cons. cbn [startswith]. by rewrite Ascii.eqb_refl, IH.
Qed.

Lemma startswith_suffix name prefix :
  startswith name prefix = true -> name = prefix +:+ suffix_of prefix name.
Proof.
  unfold suffix_of. revert name. induction prefix as [|c prefix IH]; intros name.
  - intros _. by destruct name.
  - destruct name as [|d name]; [done|]. cbn [startswith].
    intros [Hc Hrest]%andb_prop. apply Ascii.eqb_eq in Hc as ->.
    rewrite append_cons. cbn [String.length string_drop]. f_equal. by apply IH.
Qed.

Lemma replace_from_skip old new t s :
  replace_from old new (t +:+ s) (String.length t) = replace_from old new s 0.
Proof.
  induction t as [|c t IH]; [done|].
  rewrite append_cons. cbn [String.length replace_from]. exact IH.
Qed.

Lemma replace_from_no_occurrence old new s :
  occurs old s = false -> replace_from old new s 0 = s.
Proof.
  induction s as [|c s IH]; [done|]. cbn [occurs replace_from].
  intros [Hhere Hlater]%orb_false_elim. rewrite Hhere. f_equal. by apply IH.
Qed.

Lemma occurs_empty s : occurs EmptyString s = true.
Proof. by destruct s. Qed.

(** Removing the prefix from a name in which it occurs only at the
    start leaves the suffix. *)
Lemma replace_prefixed prefix name :
  startswith name prefix = true ->
  occurs prefix (suffix_of prefix name) = false ->
  replace name prefix EmptyString = suffix_of prefix name.
Proof.
  intros Hstart Hocc. destruct prefix as [|c prefix].
  { by rewrite occurs_empty in Hocc. }
  unfold replace. rewrite (startswith_suffix _ _ Hstart) at 1.
  set (suffix := suffix_of (String c prefix) name) in *.
  rewrite append_cons. cbn [replace_from].
  rewrite <- append_cons, startswith_append, append_nil_l.
  cbn [String.length Nat.pred]. rewrite replace_from_skip.
  by apply replace_from_no_occurrence.
Qed.

Lemma highest_num_from prefix names (a : Z) :
  a <= fold_left (scan_step prefix) names a
  /\ (forall name k, name ∈ names ->
        int (replace name prefix EmptyString) = Some k ->
        k <= fold_left (scan_step prefix) names a)
  /\ (fold_left (scan_step prefix) names a = a
      \/ exists name, name ∈ names
                      /\ int (replace name prefix EmptyString)
                         = Some (fold_left (scan_step prefix) names a)).
Proof.
  revert a. induction names as [|name names IH]; intros a; cbn [fold_left].
  - split; [lia|]. split; [|by left]. by intros ?? ?%elem_of_nil.
  - destruct (IH (scan_step prefix a name)) as (Hle & Hmax & Hwitness).
    assert (a <= scan_step prefix a name) as Hstep.
    { unfold scan_step. destruct (int _); lia. }
    split; [lia|]. split.
    + intros name' k [->|Hin]%elem_of_cons Hk; [|by eapply Hmax].
      unfold scan_step in Hle at 1. rewrite Hk in Hle. lia.
    + destruct Hwitness as [Heq|(name' & Hin & Hparse)].
      * rewrite Heq. unfold scan_step.
        destruct (int (replace name prefix EmptyString)) as [k|] eqn:Hk; [|by left].
        destruct (Z.max_spec a k) as [[_ Hm]|[_ Hm]]; rewrite Hm.
        -- right. exists name. split; [left|done].
        -- by left.
      * right. exists name'. split; [by right|done].
Qed.

Lemma highest_num_of_spec prefix names :
  let h := JobPrepper.highest_num_of prefix names in
  0 <= h
  /\ (forall name k, name ∈ names ->
        int (replace name prefix EmptyString) = Some k -> k <= h)
  /\ (h = 0 \/ exists name, name ∈ names
                            /\ int (replace name prefix EmptyString) = Some h).
Proof. apply highest_num_from. Qed.

Lemma lookup_insert_other fs p q nd :
  q <> p -> lookup (<[p := nd]> fs) q = lookup fs q.
Proof. intros Hne. destruct q; [done|]. by apply lookup_insert_ne. Qed.

Lemma extends_refl fs : extends fs fs.
Proof. intros q. by left. Qed.

Lemma extends_trans fs1 fs2 fs3 :
  extends fs1 fs2 -> extends fs2 fs3 -> extends fs1 fs3.
Proof.
  intros H12 H23 q. destruct (H12 q) as [H|[H H']], (H23 q) as [G|[G G']].
  - left. congruence.
  - right. split; congruence.
  - right. split; congruence.
  - congruence.
Qed.

Lemma extends_insert fs p :
  lookup fs p = None -> extends fs (<[p := Dir]> fs).
Proof.
  intros Hp q. destruct (decide (q = p)) as [->|Hne].
  - right. split; [done|]. apply lookup_insert_node. intros ->. done.
  - left. by apply lookup_insert_other.
Qed.

Lemma extends_dirs_only_above fs fs' p :
  extends fs fs' -> dirs_only_above fs p -> dirs_only_above fs' p.
Proof.
  intros Hext Hp q c mode Hq Hfile. destruct (Hext q) as [H|[_ H]].
  - rewrite H in Hfile. by eapply Hp.
  - congruence.
Qed.

Lemma extends_dir fs fs' p :
  extends fs fs' -> lookup fs p = Some Dir -> lookup fs' p = Some Dir.
Proof. intros Hext Hp. destruct (Hext p) as [H|[H _]]; congruence. Qed.

Lemma makedirs_from_ok at_ rest fs :
  dirs_only_above fs (at_ ++ rest) ->
  exists fs',
    makedirs_from at_ rest fs = (Ok tt, fs')
    /\ extends fs fs'
    /\ (lookup fs at_ = Some Dir -> lookup fs' (at_ ++ rest) = Some Dir).
Proof.
  revert at_ fs. induction rest as [|c rest IH]; intros at_ fs Hfree.
  - exists fs. rewrite app_nil_r. split; [done|]. split; [apply extends_refl|done].
  - cbn [makedirs_from]. rewrite (cons_middle c at_ rest), app_assoc in *.
    destruct (lookup fs (at_ ++ [c])) as [[|content mode]|] eqn:Hp.
    + destruct (IH _ _ Hfree) as (fs' & Hrun & Hext & Hdir).
      exists fs'. split; [done|]. split; [done|]. intros _. by apply Hdir.
    + destruct (Hfree (at_ ++ [c]) content mode); [|done]. by eexists.
    + destruct (IH (at_ ++ [c]) (<[at_ ++ [c] := Dir]> fs)) as (fs' & Hrun & Hext & Hdir).
      { eapply extends_dirs_only_above; [|done]. by apply extends_insert. }
      exists fs'. split; [done|].
      split; [eapply extends_trans; [by apply extends_insert|done]|].
      intros _. apply Hdir. apply lookup_insert_node. by destruct at_.
Qed.

Lemma resolve_cwd w w' path : cwd w' = cwd w -> resolve w' path = resolve w path.
Proof. intros H. unfold resolve. by rewrite H. Qed.

(** [makedirs] succeeds where no regular file is in the way; it only adds
    directories. *)
Lemma makedirs_ok path w :
  path <> EmptyString -> free w path ->
  exists w',
    makedirs path w = (Ok tt, w')
    /\ cwd w' = cwd w /\ stdout w' = stdout w
    /\ extends (files w) (files w')
    /\ lookup (files w') (resolve w path) = Some Dir.
Proof.
  intros Hne Hfree. unfold makedirs. apply String.eqb_neq in Hne. rewrite Hne.
  destruct (makedirs_from_ok [] (resolve w path) (files w) Hfree)
    as (fs' & Hrun & Hext & Hdir).
  rewrite Hrun. eexists. split; [done|]. repeat split; try done. by apply Hdir.
Qed.

Lemma free_extends w w' path :
  cwd w' = cwd w -> extends (files w) (files w') -> free w path -> free w' path.
Proof.
  intros Hcwd Hext Hfree. unfold free. rewrite (resolve_cwd _ _ _ Hcwd).
  by eapply extends_dirs_only_above.
Qed.

Lemma join_nonempty a b : a <> EmptyString -> join a b <> EmptyString.
Proof.
  intros Ha. unfold join. destruct (startswith b "/") eqn:Hb.
  - by destruct b.
  - destruct a; [done|]. by destruct (_ || _).
Qed.

Lemma child_of_spec dir p n : child_of dir p = Some n <-> p = dir ++ [n].
Proof.
  revert p. induction dir as [|d dir IH]; intros p.
  - destruct p as [|c [|c' p]]; cbn; split; try done.
    + by intros [= ->].
    + by intros [= ->].
  - destruct p as [|c p]; cbn [child_of]; [done|].
    destruct (String.eqb_spec d c) as [->|Hne].
    + rewrite IH. split; [by intros ->|]. by intros [= ->].
    + split; [done|]. intros [= ? _]. by subst.
Qed.

(** The listing of a directory: the names of its immediate children. *)
Lemma listdir_ok dir w :
  dir <> EmptyString -> lookup (files w) (resolve w dir) = Some Dir ->
  exists names,
    listdir dir w = (Ok names, w)
    /\ forall n, n ∈ names
                 <-> exists nd, files w !! (resolve w dir ++ [n]) = Some nd.
Proof.
  intros Hne Hdir. unfold listdir. rewrite Hdir.
  apply String.eqb_neq in Hne. rewrite Hne. eexists. split; [done|].
  intros n. rewrite list_elem_of_omap. split.
  - intros ([p nd] & Hin%elem_of_map_to_list & Hchild%child_of_spec).
    simpl in Hchild. subst p. eauto.
  - intros [nd Hnd]. exists (resolve w dir ++ [n], nd).
    split; [by apply elem_of_map_to_list|]. by apply child_of_spec.
Qed.

Lemma isdir_extends w w' path :
  cwd w' = cwd w -> extends (files w) (files w') ->
  isdir w path = true -> isdir w' path = true.
Proof.
  intros Hcwd Hext. unfold isdir. rewrite (resolve_cwd _ _ _ Hcwd).
  destruct (lookup (files w) (resolve w path)) as [[|c mode]|] eqn:Hp; try done.
  by rewrite (extends_dir _ _ _ Hext Hp).
Qed.

(** One [makedirs] of a run, started from a store that extends [w0]. *)
Lemma makedirs_chain path w0 w :
  cwd w = cwd w0 -> extends (files w0) (files w) ->
  path <> EmptyString -> free w0 path ->
  exists w',
    makedirs path w = (Ok tt, w')
    /\ cwd w' = cwd w0 /\ extends (files w0) (files w')
    /\ extends (files w) (files w')
    /\ isdir w' path = true.
Proof.
  intros Hcwd Hext Hne Hfree.
  destruct (makedirs_ok path w Hne) as (w' & Hrun & Hcwd' & _ & Hext' & Hdir).
  { by eapply free_extends. }
  exists w'. split; [done|]. split; [congruence|].
  split; [by eapply extends_trans|]. split; [done|].
  unfold isdir. rewrite (resolve_cwd w w') by done. rewrite Hdir.
  apply String.eqb_neq in Hne. by rewrite Hne.
Qed.

Lemma existing_dirs_of_elem w dir prefix names name :
  name ∈ JobPrepper.existing_dirs_of w dir prefix names
  <-> name ∈ names /\ isdir w (join dir name) = true
      /\ startswith name prefix = true.
Proof.
  unfold JobPrepper.existing_dirs_of.
  rewrite !list_elem_of_In, filter_In, andb_true_iff. tauto.
Qed.

(** The largest suffix is unique. *)
Lemma largest_suffix_unique w dir prefix h h' :
  largest_suffix w dir prefix h -> largest_suffix w dir prefix h' -> h = h'.
Proof.
  intros (Hzero & Hmax & Hwitness) (Hzero' & Hmax' & Hwitness').
  assert (h' <= h).
  { destruct Hwitness' as [->|(name & Hname & Hparse)]; [done|]. by eapply Hmax. }
  assert (h <= h'); [|lia].
  destruct Hwitness as [->|(name & Hname & Hparse)]; [done|]. by eapply Hmax'.
Qed.

(** The scan finds the largest suffix where the prefix occurs in the names
    only at their start. *)
Lemma largest_suffix_highest w dir prefix :
  (forall name, name ∈ child_dirs w dir prefix ->
                occurs prefix (suffix_of prefix name) = false) ->
  largest_suffix w dir prefix
    (JobPrepper.highest_num_of prefix (child_dirs w dir prefix)).
Proof.
  intros Honce.
  assert (forall name, name ∈ child_dirs w dir prefix ->
            replace name prefix EmptyString = suffix_of prefix name) as Hsuffix.
  { intros name Hname. apply replace_prefixed; [|by apply Honce].
    revert Hname. unfold child_dirs.
    destruct (listdir dir w) as [[names|e] w0]; [|by intros ?%elem_of_nil].
    by intros (_ & _ & ?)%existing_dirs_of_elem. }
  destruct (highest_num_of_spec prefix (child_dirs w dir prefix))
    as (Hzero & Hmax & Hwitness).
  split; [done|]. split.
  - intros name k Hname Hk. eapply Hmax; [done|]. by rewrite Hsuffix.
  - destruct Hwitness as [?|(name & Hname & Hparse)]; [by left|].
    right. exists name. split; [done|]. by rewrite <- Hsuffix.
Qed.

(** C3 (amended): where no regular file stands in the way of the parent
    directory or of the places of the new run directory, the one numbered
    [h + 1], the allocator creates the parent if needed and returns the
    parent joined with the prefix and the number [h + 1], where [h] is the
    largest of zero and the integers, in Python's [int] syntax, that are
    the suffixes of the existing immediate child directories whose names
    start with the prefix, provided those names are ASCII text and the
    prefix occurs in them only at their start; a suffix that is not an
    integer is passed over, and so is a regular file, whatever its name;
    the run directory and its layout exist afterwards. That [h] is unique.
    With child directories [run_1], [run_2] and [run_7a] the result is
    [run_3], also beside a regular file [run_9], and in an empty store it
    is [run_1]. *)
Theorem create_directory_structure_next w dir prefix :
  dir <> EmptyString ->
  free w dir ->
  let w1 := (makedirs dir w).2 in
  (forall name, name ∈ child_dirs w1 dir prefix ->
                ascii_only name = true
                /\ occurs prefix (suffix_of prefix name) = false) ->
  (forall h place, largest_suffix w1 dir prefix h ->
                   place ∈ run_places dir prefix (h + 1) -> free w place) ->
  (exists h w',
     JobPrepper.create_directory_structure (JStr dir) prefix w
     = (Ok (join dir (prefix +:+ str_of_int (h + 1))), w')
     /\ 0 <= h
     /\ (forall name k, name ∈ child_dirs w1 dir prefix ->
           int (suffix_of prefix name) = Some k -> k <= h)
     /\ (h = 0 \/ exists name, name ∈ child_dirs w1 dir prefix
                               /\ int (suffix_of prefix name) = Some h)
     /\ (forall place, place ∈ run_places dir prefix (h + 1) ->
           isdir w' place = true))
  /\ (forall h h', largest_suffix w1 dir prefix h ->
                   largest_suffix w1 dir prefix h' -> h = h')
  /\ (forall name,
        name ∈ child_dirs w1 dir prefix
        <-> (exists nd, files w1 !! (resolve w1 dir ++ [name]) = Some nd)
            /\ isdir w1 (join dir name) = true
            /\ startswith name prefix = true)
  /\ (JobPrepper.create_directory_structure (JStr "out") "run_"
        (World [] (<[ ["out"; "run_7a"] := Dir ]>
                   (<[ ["out"; "run_2"] := Dir ]>
                   (<[ ["out"; "run_1"] := Dir ]>
                   {[ ["out"] := Dir ]}))) [])).1
     = Ok "out/run_3"
  /\ (JobPrepper.create_directory_structure (JStr "out") "run_"
        (World [] (<[ ["out"; "run_9"] := File (Text "notes") None ]>
                   (<[ ["out"; "run_7a"] := Dir ]>
                   (<[ ["out"; "run_2"] := Dir ]>
                   (<[ ["out"; "run_1"] := Dir ]>
                   {[ ["out"] := Dir ]})))) [])).1
     = Ok "out/run_3"
  /\ (JobPrepper.create_directory_structure (JStr "out") "run_"
        (World [] ∅ [])).1
     = Ok "out/run_1".
Proof.
  intros Hdir Hfree w1 Hnames Hplaces.
  split; [|split; [|split; [|split; [|split]; by vm_compute]]].
  - assert (largest_suffix w1 dir prefix
              (JobPrepper.highest_num_of prefix (child_dirs w1 dir prefix)))
      as Hlargest.
    { apply largest_suffix_highest. intros name Hname. by apply Hnames. }
    pose proof (fun place => Hplaces _ place Hlargest) as Hplaces'. clear Hplaces Hnames.
    revert Hlargest Hplaces'.
    destruct (makedirs_chain dir w w eq_refl (extends_refl _) Hdir Hfree)
      as (w1' & Hrun1 & Hcwd1 & Hext1 & _ & Hisdir1).
    assert (w1 = w1') as Hw1 by (unfold w1; by rewrite Hrun1). clearbody w1. subst w1'.
    destruct (listdir_ok dir w1 Hdir) as (names & Hlist & _).
    { unfold isdir in Hisdir1.
      by destruct (lookup (files w1) (resolve w1 dir)) as [[|c mode]|]. }
    assert (child_dirs w1 dir prefix
            = JobPrepper.existing_dirs_of w1 dir prefix names) as Hdirs.
    { unfold child_dirs. by rewrite Hlist. }
    unfold largest_suffix. rewrite Hdirs.
    set (dirs := JobPrepper.existing_dirs_of w1 dir prefix names) in *.
    set (h := JobPrepper.highest_num_of prefix dirs).
    intros (Hzero & Hmax & Hwitness) Hplaces'.
    unfold run_places in Hplaces'. cbv zeta in Hplaces'.
    set (run := join dir (prefix +:+ str_of_int (h + 1))) in *.
    assert (run <> EmptyString) as Hrun by by apply join_nonempty.
    destruct (makedirs_chain run w w1 Hcwd1 Hext1 Hrun) as (w2 & Hrun2 & Hcwd2 & Hext2 & Hstep2 & Hisdir2).
    { apply Hplaces'. left. }
    destruct (makedirs_chain (join run "data") w w2 Hcwd2 Hext2) as (w3 & Hrun3 & Hcwd3 & Hext3 & Hstep3 & Hisdir3).
    { by apply join_nonempty. }
    { apply Hplaces'. right; left. }
    destruct (makedirs_chain (join run "slurm/error") w w3 Hcwd3 Hext3) as (w4 & Hrun4 & Hcwd4 & Hext4 & Hstep4 & Hisdir4).
    { by apply join_nonempty. }
    { apply Hplaces'. right; right; left. }
    destruct (makedirs_chain (join run "slurm/output") w w4 Hcwd4 Hext4) as (w5 & Hrun5 & Hcwd5 & Hext5 & Hstep5 & Hisdir5).
    { by apply join_nonempty. }
    { apply Hplaces'. right; right; right; left. }
    exists h, w5. split.
    { unfold JobPrepper.create_directory_structure. rewrite bind_lift. cbn [fspath].
      unfold bind at 1. rewrite Hrun1. unfold bind at 1. rewrite Hlist.
      unfold bind at 1, get. cbv zeta. fold dirs. fold h. fold run.
      unfold bind at 1. rewrite Hrun2. unfold bind at 1. rewrite Hrun3.
      unfold bind at 1. rewrite Hrun4. unfold bind at 1. by rewrite Hrun5. }
    split; [done|]. split; [done|]. split; [done|].
    intros place Hplace. unfold run_places in Hplace. cbv zeta in Hplace.
    fold run in Hplace.
    assert (cwd w5 = cwd w4) as C54 by congruence.
    assert (cwd w5 = cwd w3) as C53 by congruence.
    assert (cwd w5 = cwd w2) as C52 by congruence.
    repeat (apply elem_of_cons in Hplace as [->|Hplace]); [| | | |by apply elem_of_nil in Hplace]; [| | |done].
    + apply (isdir_extends w2 w5); [done| |done].
      eapply extends_trans; [|done]. by eapply extends_trans.
    + apply (isdir_extends w3 w5); [done| |done]. by eapply extends_trans.
    + by apply (isdir_extends w4 w5).
  - apply largest_suffix_unique.
  - destruct (makedirs_chain dir w w eq_refl (extends_refl _) Hdir Hfree)
      as (w1' & Hrun1 & Hcwd1 & Hext1 & _ & Hisdir1).
    assert (w1 = w1') as Hw1 by (unfold w1; by rewrite Hrun1). clearbody w1. subst w1'.
    destruct (listdir_ok dir w1 Hdir) as (names & Hlist & Hnames').
    { unfold isdir in Hisdir1.
      by destruct (lookup (files w1) (resolve w1 dir)) as [[|c mode]|]. }
    intros name. unfold child_dirs. rewrite Hlist.
    by rewrite existing_dirs_of_elem, Hnames'.
Qed.

End Allocator.

(** ** Concrete runs *)
Section Instances.
Import Py OS Spec Sample.

Lemma add_array_parameters_cross_product_witness :
  exists combos,
    JobPrepper.add_array_parameters Numpy.arange_rejects
      (JDict [("rate", JList [JInt 1; JInt 2]);
              ("mode", JList [JStr "a"; JStr "b"; JStr "c"])])
    = Ok combos
    /\ length combos = 6%nat.
Proof.
  destruct (add_array_parameters_cross_product Numpy.arange_rejects
              [("rate", JList [JInt 1; JInt 2]);
               ("mode", JList [JStr "a"; JStr "b"; JStr "c"])]
              [[JInt 1; JInt 2]; [JStr "a"; JStr "b"; JStr "c"]])
    as (combos & Hrun & Hlength & _).
  - compute_done.
  - repeat constructor.
  - exists combos. split; [exact Hrun|exact Hlength].
Defined.

(** A list that repeats a value gives the same combination twice. *)
Lemma add_array_parameters_duplicates_counterexample :
  exists combos,
    JobPrepper.add_array_parameters Numpy.arange_rejects
      (JDict [("rate", JList [JInt 1; JInt 1])])
    = Ok combos
    /\ ~ NoDup combos.
Proof.
  exists [JDict [("rate", JInt 1)]; JDict [("rate", JInt 1)]].
  split; [reflexivity|]. intros [Hin _]%NoDup_cons. apply Hin. left.
Qed.



(** The test of [no_file_above] decides that a place is free. *)
Lemma no_file_above_free w path :
  no_file_above (files w) (resolve w path) = true -> free w path.
Proof.
  unfold free, no_file_above. generalize (resolve w path) as p. intros p Hcheck.
  intros q c mode Hq Hfile.
  assert (q ∈ inits p) as Hin.
  { clear Hcheck Hfile. revert q Hq.
    induction p as [|x p IH]; intros q [k Hq].
    - symmetry in Hq. apply app_eq_nil in Hq as [-> _]. left.
    - destruct q as [|y q]; [left|]. injection Hq as -> Hq. right.
      apply list_elem_of_fmap. exists q. split; [done|]. apply IH. by exists k. }
  apply list_elem_of_In in Hin.
  pose proof (proj1 (forallb_forall _ _) Hcheck q Hin) as Hq'. cbv beta in Hq'.
  by rewrite Hfile in Hq'.
Qed.

Lemma create_directory_structure_next_witness :
  exists h w',
    JobPrepper.create_directory_structure (JStr "out") "run_" sample_runs_and_file
    = (Ok (join "out" ("run_" +:+ str_of_int (h + 1))), w')
    /\ 0 <= h.
Proof.
  destruct (create_directory_structure_next sample_runs_and_file "out" "run_")
    as ((h & w' & Hrun & Hzero & _) & _).
  - discriminate.
  - apply no_file_above_free. vm_compute. reflexivity.
  - apply Forall_forall. compute_done.
  - intros h place Hlargest Hplace.
    assert (h = JobPrepper.highest_num_of "run_"
                  (child_dirs (makedirs "out" sample_runs_and_file).2 "out" "run_"))
      as ->.
    { apply (largest_suffix_unique _ _ _ _ _ Hlargest).
      apply largest_suffix_highest. apply Forall_forall. compute_done. }
    revert place Hplace.
    assert (JobPrepper.highest_num_of "run_"
              (child_dirs (makedirs "out" sample_runs_and_file).2 "out" "run_") = 2)
      as -> by (vm_compute; reflexivity).
    apply Forall_forall.
    unfold run_places. cbv zeta.
    repeat apply Forall_cons_2; [..|apply Forall_nil_2];
      apply no_file_above_free; vm_compute; reflexivity.
  - exists h, w'. split; [exact Hrun|exact Hzero].
Defined.

(** A regular file named [run_9] is an immediate child whose name starts
    with the prefix and whose suffix is the integer 9; the allocator
    returns [run_1]. *)
Lemma create_directory_structure_file_counterexample :
  let w := World [] (<[ ["out"; "run_9"] := File (Text "notes") None ]>
                     {[ ["out"] := Dir ]}) [] in
  listdir "out" w = (Ok ["run_9"], w)
  /\ startswith "run_9" "run_" = true
  /\ int (suffix_of "run_" "run_9") = Some 9
  /\ (JobPrepper.create_directory_structure (JStr "out") "run_" w).1
     = Ok "out/run_1".
Proof. repeat split; vm_compute; reflexivity. Qed.

Lemma update_metadata_merges_witness :
  exists record' section',
    JobLauncher.update_metadata "run_1/metadata.json" [("job_id", JStr "12345")]
                                sample_pending
    = (Ok tt, with_file sample_pending "run_1/metadata.json"
                        (Json (JDict record')) None)
    /\ dict_get "job_information" record' = Some (JDict section')
    /\ dict_get "job_id" section' = Some (JStr "12345")
    /\ dict_get "state" section' = Some (JStr "PENDING").
Proof.
  destruct (update_metadata_merges sample_pending "run_1/metadata.json"
              [("job_information", JDict [("state", JStr "PENDING")])]
              [("job_id", JStr "12345")] None)
    as ((record' & section' & Hrun & Hsection & Hnew & Hold & _) & _).
  - split; [discriminate|reflexivity].
  - exact I.
  - compute_done.
  - exists record', section'. split; [exact Hrun|]. split; [exact Hsection|].
    split; [apply Hnew; reflexivity|]. rewrite Hold; reflexivity.
Defined.

Lemma submit_job_final_token_witness :
  JobLauncher.submit_job
    (fun _ => Ok (JobLauncher.CompletedProcess 0 "Submitted batch job 12345
"))
    "run_1/job_script.sh" "run_1/metadata.json" sample_pending
  = JobLauncher.update_metadata "run_1/metadata.json" [("job_id", JStr "12345")]
                                sample_pending.
Proof.
  apply (submit_job_final_token
           (fun _ => Ok (JobLauncher.CompletedProcess 0 "Submitted batch job 12345
"))
           "run_1/job_script.sh" "run_1/metadata.json" sample_pending
           (JobLauncher.CompletedProcess 0 "Submitted batch job 12345
")
           "12345").
  - reflexivity.
  - exists "Submitted batch job ", "
". repeat split; reflexivity.
Defined.

(** The command exits with status 1 and prints an error message; the
    last word of the message is recorded as the job identifier. *)
Lemma submit_job_abnormal_exit_counterexample :
  JobLauncher.submit_job
    (fun _ => Ok (JobLauncher.CompletedProcess
                    1 "sbatch: error: invalid partition specified"))
    "run_1/job_script.sh" "run_1/metadata.json" sample_pending
  = (Ok tt,
     with_file sample_pending "run_1/metadata.json"
       (Json (JDict [("job_information",
                       JDict [("state", JStr "PENDING");
                              ("job_id", JStr "specified")])]))
       None).
Proof. vm_compute. reflexivity. Qed.

Lemma main_invalid_range_shape_witness :
  exists err,
    JobPrepper.main Numpy.arange_rejects repr_blank sample_env
      (sample_parameters "out" "out"
         (JDict [("rate", JList [JInt 1]); ("mode", JStr "fast")]))
    = (Raise err,
       sample_parameters "out" "out"
         (JDict [("rate", JList [JInt 1]); ("mode", JStr "fast")])).
Proof.
  destruct (main_invalid_range_shape Numpy.arange_rejects repr_blank sample_env
              (sample_parameters "out" "out"
                 (JDict [("rate", JList [JInt 1]); ("mode", JStr "fast")]))
              "tools/job_prepper.py" "params" "main.py"
              [("rate", JList [JInt 1])] "mode" (JStr "fast") [] [[JInt 1]])
    as (_ & Hmain & _).
  - compute_done.
  - repeat constructor.
  - reflexivity.
  - reflexivity.
  - vm_compute. reflexivity.
  - exact Hmain.
Defined.

(** A descriptor without [step] is declared before a string: the
    Expander raises the key-lookup error, not the validation error. *)
Lemma add_array_parameters_key_error_counterexample :
  JobPrepper.add_array_parameters Numpy.arange_rejects
    (JDict [("rate", JDict [("start", JInt 0); ("end", JInt 5)]);
            ("mode", JStr "1,2,3")])
  = Raise (KeyError "step")
  /\ is_list_or_dict (JStr "1,2,3") = false.
Proof. split; reflexivity. Qed.

Lemma main_output_directory_mismatch_witness :
  JobPrepper.main Numpy.arange_rejects repr_blank sample_env
    (sample_parameters "out_a" "out_b" (JDict [("rate", JList [JInt 1])]))
  = (Raise (ValueError "Output directories are different."),
     sample_parameters "out_a" "out_b" (JDict [("rate", JList [JInt 1])])).
Proof.
  apply (main_output_directory_mismatch Numpy.arange_rejects repr_blank sample_env
           (sample_parameters "out_a" "out_b" (JDict [("rate", JList [JInt 1])]))
           "tools/job_prepper.py" "params" "main.py"
           (JDict [("rate", JList [JInt 1])])
           (JDict [("output_directory", JStr "out_b")])
           (JDict [("output_directory", JStr "out_a")])
           (JDict [("description", JStr "sweep")])
           (JStr "out_a") (JStr "out_b"));
    vm_compute; reflexivity.
Defined.


Lemma generate_metadata_file_fresh_witness :
  exists record section mode,
    JobPrepper.generate_metadata_file sample_env "run_1/metadata.json"
      (JDict [("partition", JStr "c")]) (JDict [("seed", JInt 3)])
      (JDict [("rate", JList [JInt 1])]) (JDict [("description", JStr "sweep")])
      sample_pending
    = (Ok tt, with_file sample_pending "run_1/metadata.json"
                        (Json (JDict record)) mode)
    /\ dict_get "job_information" record = Some (JDict section)
    /\ dict_get "job_id" section = Some JNull
    /\ dict_get "array_parameters" record
       = Some (JDict [("rate", JList [JInt 1])]).
Proof.
  destruct (generate_metadata_file_fresh sample_env "run_1/metadata.json"
              (JDict [("partition", JStr "c")]) (JDict [("seed", JInt 3)])
              (JDict [("rate", JList [JInt 1])])
              (JDict [("description", JStr "sweep")])
              (JStr "sweep") "0f3c" sample_pending
              (with_file sample_pending "run_1/metadata.json"
                         (Text EmptyString) None))
    as (record & section & mode & Hrun & _ & Hsection & Hfields & Hnull & _ & _
        & _ & Harray).
  - reflexivity.
  - reflexivity.
  - vm_compute. reflexivity.
  - exists record, section, mode. split; [exact Hrun|]. split; [exact Hsection|].
    split; [|exact Harray]. apply Hnull. rewrite Hfields. left.
Defined.

Lemma add_array_parameters_missing_key_witness :
  JobPrepper.add_array_parameters Numpy.arange_rejects
    (JDict [("rate", JList [JInt 1]);
            ("mode", JDict [("start", JInt 0); ("step", JInt 1)])])
  = Raise (KeyError "end").
Proof.
  apply (add_array_parameters_missing_key Numpy.arange_rejects
           [("rate", JList [JInt 1])] "mode"
           [("start", JInt 0); ("step", JInt 1)] [] [[JInt 1]] "end").
  - compute_done.
  - repeat constructor.
  - reflexivity.
  - intros a b c. discriminate.
Defined.

(** A string is declared before a descriptor that lacks [end] and [step]:
    the Expander raises the validation error, not the key-lookup error. *)
Lemma add_array_parameters_order_counterexample :
  JobPrepper.add_array_parameters Numpy.arange_rejects
    (JDict [("mode", JStr "fast"); ("rate", JDict [("start", JInt 0)])])
  = Raise (ValueError "Invalid range type")
  /\ first_missing [("start", JInt 0)] = Some "end".
Proof. split; reflexivity. Qed.

End Instances.

(** ** Reading back what was written *)
Section Files.
Import Py OS Spec Cover.

Lemma bind_inv {A B} (c : M A) (k : A -> M B) w b w' :
  bind c k w = (Ok b, w') -> exists a w1, c w = (Ok a, w1) /\ k a w1 = (Ok b, w').
Proof. unfold bind. destruct (c w) as [[a|e] w1]; [eauto|done]. Qed.

Lemma open_w_not_dir path w w1 :
  open_w path w = (Ok tt, w1) -> lookup (files w) (resolve w path) <> Some Dir.
Proof.
  unfold open_w. destruct (String.eqb path EmptyString); [done|].
  by destruct (lookup (files w) (resolve w path)) as [[|c mode]|].
Qed.

Lemma dump_json_success data path w w' :
  JobPrepper.dump_json data path w = (Ok tt, w') ->
  exists mode, w' = with_file w path (Json data) mode
               /\ holds w' path (Json data) mode.
Proof.
  unfold JobPrepper.dump_json, bind.
  destruct (open_w path w) as [[[]|e] w1] eqn:Hopen; [|done].
  apply open_w_inv in Hopen as (mode & -> & Hfile).
  rewrite (write_holds _ _ _ _ _ Hfile), with_file_twice. intros [= <-].
  exists mode. split; [done|]. pose proof (holds_nonroot _ _ _ _ Hfile) as Hroot.
  destruct Hfile as [Hne _]. by apply with_file_holds.
Qed.




End Files.

(** ** More on the Run Directory Allocator *)
Section AllocatorMore.
Import Py OS Spec Cover.

Lemma makedirs_from_extends at_ rest fs :
  extends fs (makedirs_from at_ rest fs).2.
Proof.
  revert at_ fs. induction rest as [|c rest IH]; intros at_ fs; [apply extends_refl|].
  cbn [makedirs_from].
  destruct (lookup fs (at_ ++ [c])) as [[|content mode]|] eqn:Hp.
  - apply IH.
  - apply extends_refl.
  - eapply extends_trans; [by apply extends_insert|apply IH].
Qed.

Lemma grows_ret {A} (a : A) : grows (ret a).
Proof. intros w r w' [= _ <-]. split; [done|]. split; [done|apply extends_refl]. Qed.

Lemma grows_lift {A} (r : result A) : grows (lift r).
Proof. intros w r' w' [= _ <-]. split; [done|]. split; [done|apply extends_refl]. Qed.

Lemma grows_get : grows get.
Proof. intros w r w' [= _ <-]. split; [done|]. split; [done|apply extends_refl]. Qed.

Lemma grows_bind {A B} (c : M A) (k : A -> M B) :
  grows c -> (forall a, grows (k a)) -> grows (bind c k).
Proof.
  intros Hc Hk w r w'. unfold bind.
  destruct (c w) as [[a|e] w1] eqn:Hrun.
  - intros Hrun'. destruct (Hc _ _ _ Hrun) as (C1 & O1 & E1).
    destruct (Hk a _ _ _ Hrun') as (C2 & O2 & E2).
    split; [congruence|]. split; [congruence|]. by eapply extends_trans.
  - intros [= _ <-]. by eapply Hc.
Qed.

Lemma grows_makedirs path : grows (makedirs path).
Proof.
  intros w r w'. unfold makedirs.
  destruct (String.eqb path EmptyString).
  - intros [= _ <-]. split; [done|]. split; [done|apply extends_refl].
  - pose proof (makedirs_from_extends [] (resolve w path) (files w)) as Hext.
    destruct (makedirs_from [] (resolve w path) (files w)) as [r0 fs].
    intros [= _ <-]. by repeat split.
Qed.

Lemma grows_listdir path : grows (listdir path).
Proof.
  intros w r w'. unfold listdir.
  destruct (lookup (files w) (resolve w path)) as [[|c mode]|];
    [destruct (String.eqb path EmptyString)|..];
    intros [= _ <-]; (split; [done|]; split; [done|apply extends_refl]).
Qed.

Lemma grows_create_directory_structure dir prefix :
  grows (JobPrepper.create_directory_structure dir prefix).
Proof.
  unfold JobPrepper.create_directory_structure.
  apply grows_bind; [apply grows_lift|]. intros path.
  apply grows_bind; [apply grows_makedirs|]. intros _.
  apply grows_bind; [apply grows_listdir|]. intros names.
  apply grows_bind; [apply grows_get|]. intros w1. cbv zeta.
  repeat (apply grows_bind; [apply grows_makedirs|]; intros _).
  apply grows_ret.
Qed.

(** X2: whatever its outcome, the allocator removes and replaces nothing: a
    node that was in the tree is still there, unchanged, and the only nodes
    added are directories; the working directory and the printed lines are
    as before. *)
Theorem create_directory_structure_only_adds dir prefix w :
  let w' := (JobPrepper.create_directory_structure dir prefix w).2 in
  cwd w' = cwd w /\ stdout w' = stdout w
  /\ (forall p nd, lookup (files w) p = Some nd -> lookup (files w') p = Some nd)
  /\ (forall p nd, lookup (files w') p = Some nd ->
        lookup (files w) p = Some nd \/ (lookup (files w) p = None /\ nd = Dir)).
Proof.
  intros w'. subst w'.
  destruct (JobPrepper.create_directory_structure dir prefix w) as [r w'] eqn:Hrun.
  destruct (grows_create_directory_structure dir prefix _ _ _ Hrun) as (C & O & E).
  cbn [snd]. split; [done|]. split; [done|]. split.
  - intros p nd Hp. destruct (E p) as [H|[H _]]; congruence.
  - intros p nd Hp. destruct (E p) as [H|[H H']]; [left|right]; split || idtac;
      congruence.
Qed.

Lemma highest_num_of_le prefix names names' :
  (forall name, name ∈ names -> name ∈ names') ->
  JobPrepper.highest_num_of prefix names <= JobPrepper.highest_num_of prefix names'.
Proof.
  intros Hsub.
  destruct (highest_num_of_spec prefix names) as (_ & _ & [->|(name & Hin & Hparse)]).
  - by destruct (highest_num_of_spec prefix names') as (? & _).
  - destruct (highest_num_of_spec prefix names') as (_ & Hmax & _).
    eapply Hmax; [by apply Hsub|done].
Qed.

(** X3: the number found by the scan depends only on which names are listed,
    not on the order in which the system lists them nor on repetitions. *)
Theorem highest_num_of_order prefix names names' :
  (forall name, name ∈ names <-> name ∈ names') ->
  JobPrepper.highest_num_of prefix names = JobPrepper.highest_num_of prefix names'.
Proof.
  intros Hsame.
  pose proof (highest_num_of_le prefix names names' (fun n => proj1 (Hsame n))).
  pose proof (highest_num_of_le prefix names' names (fun n => proj2 (Hsame n))).
  lia.
Qed.

End AllocatorMore.

(** ** Names of run directories *)
Section Names.
Import Py OS Spec Cover.

Lemma digit_char_spec d :
  0 <= d < 10 -> is_digit (digit_char d) = true /\ digit_value (digit_char d) = d.
Proof.
  intros Hd.
  assert (d = 0 \/ d = 1 \/ d = 2 \/ d = 3 \/ d = 4 \/ d = 5 \/ d = 6 \/ d = 7
          \/ d = 8 \/ d = 9) as Hcases by lia.
  repeat (destruct Hcases as [->|Hcases]; [by vm_compute|]). by subst.
Qed.

Lemma decimal_app s t acc : decimal (s +:+ t) acc = decimal t (decimal s acc).
Proof.
  revert acc. induction s as [|c s IH]; intros acc; [done|].
  rewrite append_cons. cbn [decimal]. apply IH.
Qed.

Lemma string_forall_app p s t :
  string_forall p (s +:+ t) = string_forall p s && string_forall p t.
Proof.
  induction s as [|c s IH]; [done|].
  rewrite append_cons. cbn [string_forall]. by rewrite IH, andb_assoc.
Qed.

(** [digits_of] writes the decimal digits of a number that the fuel
    covers in front of the accumulator. *)
Lemma digits_of_spec fuel n acc :
  0 <= n < 10 ^ Z.of_nat fuel ->
  exists ds,
    digits_of fuel n acc = ds +:+ acc
    /\ string_forall is_digit ds = true
    /\ decimal ds 0 = n
    /\ (fuel <> O -> ds <> EmptyString).
Proof.
  revert n acc. induction fuel as [|fuel IH]; intros n acc Hn.
  - exists EmptyString. cbn in *. repeat split; try done. lia.
  - cbn [digits_of].
    destruct (digit_char_spec (n mod 10)) as [Hdigit Hvalue].
    { apply Z.mod_pos_bound. lia. }
    destruct (Z.ltb_spec n 10) as [Hsmall|Hbig].
    + exists (String (digit_char (n mod 10)) EmptyString).
      split; [done|]. cbn [string_forall decimal]. rewrite Hdigit, Hvalue.
      repeat split; try done. rewrite Z.mod_small; lia.
    + destruct (IH (n / 10) (String (digit_char (n mod 10)) acc))
        as (ds & Hrun & Hall & Hnum & _).
      { rewrite Nat2Z.inj_succ, Z.pow_succ_r in Hn by lia.
        split; [apply Z.div_pos; lia|]. apply Z.div_lt_upper_bound; lia. }
      exists (ds +:+ String (digit_char (n mod 10)) EmptyString).
      rewrite Hrun, append_assoc, append_cons, append_nil_l.
      split; [done|]. rewrite string_forall_app, Hall, decimal_app, Hnum.
      cbn [string_forall decimal]. rewrite Hdigit, Hvalue.
      repeat split; try done.
      * pose proof (Z.div_mod n 10). lia.
      * intros _. by destruct ds.
Qed.

Lemma str_of_int_digits n :
  0 <= n ->
  str_of_int n <> EmptyString
  /\ string_forall is_digit (str_of_int n) = true
  /\ decimal (str_of_int n) 0 = n.
Proof.
  intros Hn. unfold str_of_int. destruct (Z.ltb_spec n 0) as [|_]; [lia|].
  destruct (digits_of_spec (S (Z.to_nat (Z.log2 n))) n EmptyString)
    as (ds & -> & Hall & Hnum & Hne).
  - split; [done|]. rewrite Nat2Z.inj_succ, Z2Nat.id by apply Z.log2_nonneg.
    destruct (Z.eq_dec n 0) as [->|Hpos]; [done|].
    destruct (Z.log2_spec n) as [_ Hlt]; [lia|].
    eapply Z.lt_le_trans; [exact Hlt|].
    apply Z.pow_le_mono_l. lia.
  - rewrite append_nil_r. split; [by apply Hne|done].
Qed.

Lemma int_digits_decimal s acc :
  string_forall is_digit s = true -> int_digits s acc = Some (decimal s acc).
Proof.
  revert acc. induction s as [|c s IH]; intros acc; [done|].
  cbn [string_forall int_digits decimal]. intros [Hc Hs]%andb_prop.
  rewrite Hc. by apply IH.
Qed.

Lemma int_digit_head c s :
  is_digit c = true -> int (String c s) = int_unsigned (String c s).
Proof.
  intros Hc. destruct c as [[] [] [] [] [] [] [] []];
    first [ discriminate Hc | reflexivity ].
Qed.

Lemma int_of_digits s :
  s <> EmptyString -> string_forall is_digit s = true ->
  int s = Some (decimal s 0).
Proof.
  destruct s as [|c s]; [done|]. intros _. cbn [string_forall].
  intros [Hc Hs]%andb_prop. rewrite (int_digit_head _ _ Hc).
  cbn [int_unsigned decimal]. rewrite Hc. by apply int_digits_decimal.
Qed.

(** [int(str(n))] is [n]. *)
Lemma int_str_of_int n : int (str_of_int n) = Some n.
Proof.
  destruct (Z.ltb_spec n 0) as [Hneg|Hpos].
  - destruct (str_of_int_digits (- n)) as (Hne & Hall & Hnum); [lia|].
    assert (str_of_int n = String "-" (str_of_int (- n))) as ->.
    { unfold str_of_int. destruct (Z.ltb_spec n 0); [|lia].
      destruct (Z.ltb_spec (- n) 0); [lia|done]. }
    change (int (String "-" (str_of_int (- n))))
      with (Z.opp <$> int_unsigned (str_of_int (- n))).
    destruct (str_of_int (- n)) as [|c s] eqn:Hs; [done|].
    cbn [string_forall] in Hall. apply andb_prop in Hall as [Hc Hrest].
    cbn [int_unsigned]. rewrite Hc, (int_digits_decimal _ _ Hrest).
    cbn [decimal] in Hnum. change (0 * 10 + digit_value c) with (digit_value c) in Hnum.
    rewrite Hnum. simpl. f_equal. lia.
  - destruct (str_of_int_digits n Hpos) as (Hne & Hall & Hnum).
    by rewrite int_of_digits, Hnum.
Qed.

Lemma string_drop_app prefix s : suffix_of prefix (prefix +:+ s) = s.
Proof.
  unfold suffix_of. induction prefix as [|c prefix IH]; [by destruct s|].
  rewrite append_cons. cbn [String.length string_drop]. exact IH.
Qed.

Lemma digits_without_run s :
  string_forall is_digit s = true -> occurs "run_" s = false.
Proof.
  induction s as [|c s IH]; [done|]. cbn [string_forall occurs startswith].
  intros [Hc Hs]%andb_prop. rewrite (IH Hs), orb_false_r.
  destruct (Ascii.eqb_spec "r" c) as [<-|]; [done|done].
Qed.

(** The default prefix never occurs in the digits of a number. *)
Lemma run_prefix_not_in_number n : 0 <= n -> occurs "run_" (str_of_int n) = false.
Proof. intros Hn. apply digits_without_run. by apply str_of_int_digits. Qed.

(** X4: the scan reads the name the allocator gives a run directory back as
    the number it was given: a listing that holds [prefix + str(n)] makes
    the scan return at least [n], provided the prefix does not occur in the
    digits of [n]. *)
Theorem highest_num_of_reads_name prefix n names :
  occurs prefix (str_of_int n) = false ->
  (prefix +:+ str_of_int n) ∈ names ->
  int (replace (prefix +:+ str_of_int n) prefix EmptyString) = Some n
  /\ n <= JobPrepper.highest_num_of prefix names.
Proof.
  intros Hocc Hin.
  assert (int (replace (prefix +:+ str_of_int n) prefix EmptyString) = Some n)
    as Hparse.
  { rewrite replace_prefixed, string_drop_app.
    - apply int_str_of_int.
    - apply startswith_append.
    - by rewrite string_drop_app. }
  split; [done|].
  destruct (highest_num_of_spec prefix names) as (_ & Hmax & _). by eapply Hmax.
Qed.

End Names.

(** ** Running the allocator again *)
Section Rerun.
Import Py OS Spec Cover.

Lemma components_from_no_slash s cur :
  no_slash s = true -> components_from s cur = [cur +:+ s].
Proof.
  unfold no_slash. revert cur. induction s as [|c s IH]; intros cur.
  - intros _. by rewrite append_nil_r.
  - cbn [string_forall components_from]. intros [Hc Hs]%andb_prop.
    apply negb_true_iff in Hc. rewrite Hc, (IH _ Hs).
    by rewrite append_assoc, append_cons, append_nil_l.
Qed.

Lemma components_from_slash a b cur :
  components_from (a +:+ String "/" b) cur
  = components_from a cur ++ components_from b EmptyString.
Proof.
  revert cur. induction a as [|c a IH]; intros cur.
  - rewrite append_nil_l. done.
  - rewrite append_cons. cbn [components_from].
    destruct (Ascii.eqb c "/"); by rewrite IH.
Qed.

Lemma walk_app base l1 l2 : walk base (l1 ++ l2) = walk (walk base l1) l2.
Proof. apply fold_left_app. Qed.

Lemma walk_name base name :
  name <> EmptyString -> name <> "." -> name <> ".." ->
  walk base [name] = base ++ [name].
Proof.
  intros H1 H2 H3. unfold walk. cbn [fold_left].
  apply String.eqb_neq in H1, H2, H3. by rewrite H1, H2, H3.
Qed.

Lemma endswith_char_split a c :
  endswith_char a c = true -> exists a', a = a' +:+ String c EmptyString.
Proof.
  induction a as [|d a IH]; [done|]. cbn [endswith_char].
  destruct a as [|d' a'].
  - intros ->%Ascii.eqb_eq. by exists EmptyString.
  - intros (a'' & Ha)%IH. exists (String d a''). by rewrite append_cons, <- Ha.
Qed.

Lemma startswith_empty s : startswith s EmptyString = true.
Proof. by destruct s. Qed.

Lemma startswith_app a b p :
  a <> EmptyString -> startswith (a +:+ b) (String p EmptyString)
                      = startswith a (String p EmptyString).
Proof.
  destruct a as [|c a]; [done|]. intros _. rewrite append_cons.
  cbn [startswith]. by rewrite !startswith_empty.
Qed.

Lemma startswith_slash a b b' :
  startswith (a +:+ String "/" b) "/" = startswith (a +:+ String "/" b') "/".
Proof.
  destruct a as [|c a]; [rewrite !append_nil_l|rewrite !append_cons];
    cbn [startswith]; by rewrite !startswith_empty.
Qed.

Lemma no_slash_startswith name : no_slash name = true -> startswith name "/" = false.
Proof.
  destruct name as [|c name]; [done|]. unfold no_slash. cbn [string_forall startswith].
  intros [Hc _]%andb_prop. apply negb_true_iff in Hc.
  rewrite Ascii.eqb_sym, Hc. done.
Qed.

(** A plain name joined to a directory resolves to a child of what the
    directory resolves to. *)
Lemma resolve_join w dir name :
  dir <> EmptyString -> no_slash name = true ->
  name <> EmptyString -> name <> "." -> name <> ".." ->
  resolve w (join dir name) = resolve w dir ++ [name].
Proof.
  intros Hdir Hslash H1 H2 H3. unfold join.
  rewrite (no_slash_startswith _ Hslash).
  apply String.eqb_neq in Hdir as Hdir'. rewrite Hdir'. cbn [orb].
  destruct (endswith_char dir "/") eqn:Hend.
  - apply endswith_char_split in Hend as [a ->]. unfold resolve.
    rewrite append_assoc, append_cons, append_nil_l.
    rewrite (startswith_slash a name EmptyString).
    unfold components. rewrite !components_from_slash, !walk_app.
    rewrite (components_from_no_slash _ _ Hslash), append_nil_l.
    by rewrite (walk_name _ name).
  - unfold resolve. rewrite startswith_app by done.
    change ("/" +:+ name) with (String "/" name).
    unfold components. rewrite components_from_slash, walk_app.
    rewrite (components_from_no_slash _ _ Hslash), append_nil_l.
    by apply walk_name.
Qed.

Lemma string_exists_app_r p s t :
  string_exists p t = true -> string_exists p (s +:+ t) = true.
Proof.
  intros Ht. induction s as [|c s IH]; [done|].
  rewrite append_cons. cbn [string_exists]. by rewrite IH, orb_true_r.
Qed.

Lemma digits_no_slash s : string_forall is_digit s = true -> no_slash s = true.
Proof.
  unfold no_slash. induction s as [|c s IH]; [done|]. cbn [string_forall].
  intros [Hc Hs]%andb_prop. rewrite (IH Hs), andb_true_r.
  apply negb_true_iff. destruct (Ascii.eqb_spec c "/") as [->|]; done.
Qed.

Lemma digits_exist s :
  s <> EmptyString -> string_forall is_digit s = true ->
  string_exists is_digit s = true.
Proof.
  destruct s as [|c s]; [done|]. intros _. cbn [string_forall string_exists].
  by intros [-> _]%andb_prop.
Qed.

(** The name of a run directory is a plain name. *)
Lemma run_name_plain prefix n :
  no_slash prefix = true -> 0 <= n ->
  let name := prefix +:+ str_of_int n in
  no_slash name = true /\ name <> EmptyString /\ name <> "." /\ name <> "..".
Proof.
  intros Hprefix Hn name. subst name.
  destruct (str_of_int_digits n Hn) as (Hne & Hall & _).
  split.
  { unfold no_slash in *. rewrite string_forall_app, Hprefix.
    by apply digits_no_slash. }
  assert (string_exists is_digit (prefix +:+ str_of_int n) = true) as Hdigit.
  { apply string_exists_app_r. by apply digits_exist. }
  repeat split; intros Heq; by rewrite Heq in Hdigit.
Qed.

Lemma makedirs_from_success at_ rest fs fs' :
  makedirs_from at_ rest fs = (Ok tt, fs') ->
  rest <> [] -> lookup fs' (at_ ++ rest) = Some Dir.
Proof.
  revert at_ fs. induction rest as [|c rest IH]; intros at_ fs Hrun Hne; [done|].
  cbn [makedirs_from] in Hrun. rewrite (cons_middle c at_ rest), app_assoc.
  destruct (lookup fs (at_ ++ [c])) as [[|content mode]|] eqn:Hp; [| done |].
  - destruct rest as [|c' rest]; [|by apply (IH _ _ Hrun)].
    cbn in Hrun. injection Hrun as <-. by rewrite app_nil_r.
  - destruct rest as [|c' rest]; [|by apply (IH _ _ Hrun)].
    cbn in Hrun. injection Hrun as <-. rewrite app_nil_r.
    apply lookup_insert_node. by destruct at_.
Qed.

Lemma makedirs_success path w w' :
  makedirs path w = (Ok tt, w') -> isdir w' path = true.
Proof.
  unfold makedirs, isdir. destruct (String.eqb path EmptyString) eqn:Hne; [done|].
  destruct (makedirs_from [] (resolve w path) (files w)) as [r fs] eqn:Hrun.
  intros [= -> <-]. cbn [files]. change (resolve _ path) with (resolve w path).
  destruct (resolve w path) as [|c p] eqn:Hp; [done|].
  by rewrite (makedirs_from_success [] (c :: p) _ _ Hrun ltac:(done) : lookup fs (c :: p) = _).
Qed.

Lemma listdir_inv dir w names w' :
  listdir dir w = (Ok names, w') ->
  w' = w
  /\ forall n, n ∈ names
               <-> exists nd, files w !! (resolve w dir ++ [n]) = Some nd.
Proof.
  unfold listdir.
  destruct (lookup (files w) (resolve w dir)) as [[|c mode]|] eqn:Hdir; [|done..].
  destruct (String.eqb_spec dir EmptyString) as [|Hne]; [done|].
  intros Hrun. destruct (listdir_ok dir w Hne Hdir) as (names' & Hrun' & Hnames).
  unfold listdir in Hrun'. apply String.eqb_neq in Hne.
  rewrite Hdir, Hne in Hrun'. rewrite Hrun' in Hrun.
  injection Hrun as -> ->. by split.
Qed.

(** What a successful allocation did. *)
Lemma create_directory_structure_inv dir prefix w path w' :
  JobPrepper.create_directory_structure dir prefix w = (Ok path, w') ->
  exists dir_path w1 names,
    dir = JStr dir_path
    /\ makedirs dir_path w = (Ok tt, w1)
    /\ listdir dir_path w1 = (Ok names, w1)
    /\ path = join dir_path
                (prefix +:+ str_of_int
                   (JobPrepper.highest_num_of prefix
                      (JobPrepper.existing_dirs_of w1 dir_path prefix names) + 1))
    /\ (exists w2, makedirs path w1 = (Ok tt, w2)
                   /\ extends (files w2) (files w'))
    /\ Forall (fun place => isdir w' place = true)
              [path; join path "data"; join path "slurm/error";
               join path "slurm/output"].
Proof.
  unfold JobPrepper.create_directory_structure. rewrite bind_lift.
  destruct dir as [| | | |dir_path| |]; try done. cbn [fspath].
  unfold bind at 1. destruct (makedirs dir_path w) as [[[]|e] w1] eqn:Hrun1; [|done].
  unfold bind at 1. destruct (listdir dir_path w1) as [[names|e] w1'] eqn:Hlist; [|done].
  pose proof Hlist as [-> _]%listdir_inv.
  unfold bind at 1, get. cbv zeta.
  set (run := join dir_path _).
  unfold bind at 1. destruct (makedirs run w1) as [[[]|e] w2] eqn:Hrun2; [|done].
  unfold bind at 1.
  destruct (makedirs (join run "data") w2) as [[[]|e] w3] eqn:Hrun3; [|done].
  unfold bind at 1.
  destruct (makedirs (join run "slurm/error") w3) as [[[]|e] w4] eqn:Hrun4; [|done].
  unfold bind at 1.
  destruct (makedirs (join run "slurm/output") w4) as [[[]|e] w5] eqn:Hrun5; [|done].
  intros [= <- <-]. exists dir_path, w1, names.
  destruct (grows_makedirs _ _ _ _ Hrun3) as (C3 & _ & E3).
  destruct (grows_makedirs _ _ _ _ Hrun4) as (C4 & _ & E4).
  destruct (grows_makedirs _ _ _ _ Hrun5) as (C5 & _ & E5).
  repeat split; try done.
  - exists w2. split; [done|]. eauto using extends_trans.
  - repeat apply Forall_cons_2; [| | | |apply Forall_nil_2].
    + eapply (isdir_extends w2); [congruence|eauto using extends_trans|].
      by eapply makedirs_success.
    + eapply (isdir_extends w3); [congruence|eauto using extends_trans|].
      by eapply makedirs_success.
    + eapply (isdir_extends w4); [congruence|eauto using extends_trans|].
      by eapply makedirs_success.
    + by eapply makedirs_success.
Qed.

(** A directory named by the prefix and a number is counted by the scan. *)
Lemma scan_counts prefix n w dir_path names :
  no_slash prefix = true ->
  (forall n, 0 <= n -> occurs prefix (str_of_int n) = false) ->
  0 <= n -> dir_path <> EmptyString ->
  listdir dir_path w = (Ok names, w) ->
  isdir w (join dir_path (prefix +:+ str_of_int n)) = true ->
  n <= JobPrepper.highest_num_of prefix
         (JobPrepper.existing_dirs_of w dir_path prefix names).
Proof.
  intros Hprefix Hocc Hn Hdir Hlist Hisdir.
  destruct (run_name_plain prefix n Hprefix Hn) as (Hslash & H1 & H2 & H3).
  cbv zeta in *.
  set (dirs := JobPrepper.existing_dirs_of w dir_path prefix names).
  assert ((prefix +:+ str_of_int n) ∈ dirs) as Hin.
  { apply existing_dirs_of_elem. split; [|split; [done|apply startswith_append]].
    apply listdir_inv in Hlist as [_ Hnames]. apply Hnames.
    unfold isdir in Hisdir. rewrite resolve_join in Hisdir by done.
    destruct (lookup (files w) (resolve w dir_path ++ [prefix +:+ str_of_int n]))
      as [nd|] eqn:Hnode; [|done].
    exists nd. by destruct (resolve w dir_path). }
  destruct (highest_num_of_spec prefix dirs) as (_ & Hmax & _).
  eapply Hmax; [done|].
  rewrite replace_prefixed, string_drop_app.
  - apply int_str_of_int.
  - apply startswith_append.
  - rewrite string_drop_app. by apply Hocc.
Qed.

(** With a prefix that has no slash and occurs in no decimal numeral, the
    directory an allocation returns was not there before. *)
Lemma allocation_missing dir prefix w path w' :
  no_slash prefix = true ->
  (forall n, 0 <= n -> occurs prefix (str_of_int n) = false) ->
  JobPrepper.create_directory_structure dir prefix w = (Ok path, w') ->
  missing w path.
Proof.
  intros Hprefix Hocc Hrun.
  apply create_directory_structure_inv in Hrun
    as (dir_path & w1 & names & -> & Hmk & Hlist & -> & (w2 & Hmk2 & _) & Hplaces).
  set (h := JobPrepper.highest_num_of prefix
              (JobPrepper.existing_dirs_of w1 dir_path prefix names)) in *.
  assert (0 <= h) as Hh.
  { unfold h. by destruct (highest_num_of_spec prefix
      (JobPrepper.existing_dirs_of w1 dir_path prefix names)) as (? & _). }
  assert (dir_path <> EmptyString) as Hdir.
  { intros ->. by cbn in Hmk. }
  destruct (grows_makedirs _ _ _ _ Hmk) as (C1 & _ & E1).
  destruct (grows_makedirs _ _ _ _ Hmk2) as (C2 & _ & E2).
  set (run := join dir_path (prefix +:+ str_of_int (h + 1))) in *.
  unfold missing. rewrite <- (resolve_cwd w w1 run C1).
  pose proof (makedirs_success _ _ _ Hmk2) as Hisdir2. unfold isdir in Hisdir2.
  rewrite (resolve_cwd w1 w2 run C2) in Hisdir2.
  destruct (E2 (resolve w1 run)) as [Hsame|[Hnone _]]; cycle 1.
  { destruct (E1 (resolve w1 run)) as [Hsame1|[Hnone1 _]]; congruence. }
  rewrite Hsame in Hisdir2.
  destruct (lookup (files w1) (resolve w1 run)) as [[|c mode]|] eqn:Hp; [|done..].
  exfalso.
  assert (h + 1 <= h); [|lia].
  apply (scan_counts prefix (h + 1) w1 dir_path names); try done; [lia|].
  unfold isdir. fold run. rewrite Hp.
  assert (run <> EmptyString) as Hne by by apply join_nonempty.
  apply String.eqb_neq in Hne. by rewrite Hne.
Qed.

(** X5: with a prefix that has no slash and occurs in no decimal numeral
    (the prefix [run_] of the preparation script is one), the directory an
    allocation returns was not there before the call, as a directory or as
    anything else, and it is there afterwards with its data, error and
    output directories: no run is ever given the directory of another. *)
Theorem create_directory_structure_fresh dir prefix w path w' :
  no_slash prefix = true ->
  (forall n, 0 <= n -> occurs prefix (str_of_int n) = false) ->
  JobPrepper.create_directory_structure dir prefix w = (Ok path, w') ->
  missing w path
  /\ Forall (fun place => isdir w' place = true)
            [path; join path "data"; join path "slurm/error";
             join path "slurm/output"].
Proof.
  intros Hprefix Hocc Hrun. split; [by eapply allocation_missing|].
  by apply create_directory_structure_inv in Hrun as (? & ? & ? & _ & _ & _ & _ & _ & ?).
Qed.

(** X6: with a prefix that has no slash and occurs in no decimal numeral,
    an allocation made in any store in which the
    directory of an earlier allocation under the same parent is still a
    directory returns a directory with a strictly larger number; in
    particular two allocations in a row give [n] and then a number above
    [n]. *)
Theorem create_directory_structure_twice dir prefix w path1 w1 w1' path2 w2 :
  no_slash prefix = true ->
  (forall n, 0 <= n -> occurs prefix (str_of_int n) = false) ->
  JobPrepper.create_directory_structure dir prefix w = (Ok path1, w1) ->
  isdir w1' path1 = true ->
  JobPrepper.create_directory_structure dir prefix w1' = (Ok path2, w2) ->
  isdir w1 path1 = true
  /\ exists dir_path n1 n2,
       dir = JStr dir_path
       /\ path1 = join dir_path (prefix +:+ str_of_int n1)
       /\ path2 = join dir_path (prefix +:+ str_of_int n2)
       /\ 0 < n1 < n2.
Proof.
  intros Hprefix Hocc Hfirst Hstill Hsecond.
  apply create_directory_structure_inv in Hfirst
    as (dir_path & wa & names & -> & Hmk & Hlist & -> & _ & Hisdir%Forall_cons_1).
  destruct Hisdir as [Hisdir _]. split; [done|].
  apply create_directory_structure_inv in Hsecond
    as (dir_path' & wb & names' & [= <-] & Hmk' & Hlist' & -> & _ & _).
  set (n1 := JobPrepper.highest_num_of prefix
               (JobPrepper.existing_dirs_of wa dir_path prefix names) + 1) in *.
  set (dirs' := JobPrepper.existing_dirs_of wb dir_path prefix names').
  exists dir_path, n1, (JobPrepper.highest_num_of prefix dirs' + 1).
  split; [done|]. split; [done|]. split; [done|].
  assert (0 < n1) as Hn1.
  { unfold n1. destruct (highest_num_of_spec prefix
      (JobPrepper.existing_dirs_of wa dir_path prefix names)) as (? & _). lia. }
  split; [done|].
  assert (dir_path <> EmptyString) as Hdir.
  { intros ->. by cbn in Hmk. }
  destruct (grows_makedirs _ _ _ _ Hmk') as (C & _ & E).
  assert (n1 <= JobPrepper.highest_num_of prefix dirs'); [|lia].
  apply scan_counts; try done; [lia|]. by eapply isdir_extends.
Qed.

End Rerun.

(** ** The submission script *)
Section Script.
Import Py OS Spec Cover.
Variable repr_other : json -> string.

#[local] Abbreviation script_text := (JobPrepper.script_text repr_other).
#[local] Abbreviation generate_slurm_script :=
  (JobPrepper.generate_slurm_script repr_other).

Lemma getitem_mem {V} (d : list (string * V)) k :
  getitem d k = (if dict_mem k d then getitem d k else Raise (KeyError k)).
Proof. unfold getitem, dict_mem. by destruct (dict_get k d). Qed.

Lemma getitem_present {V} (d : list (string * V)) k :
  dict_mem k d = true -> exists v, getitem d k = Ok v.
Proof. unfold getitem, dict_mem. destruct (dict_get k d); [eauto|done]. Qed.

(** The fields of the text are looked up in the order of [script_keys]. *)
Lemma script_text_first_absent output_path error_path python_script_path d
    simul_path array_path :
  match first_absent script_keys d with
  | Some k =>
      script_text output_path error_path python_script_path (JDict d)
                  simul_path array_path = Raise (KeyError k)
  | None =>
      exists text,
        script_text output_path error_path python_script_path (JDict d)
                    simul_path array_path = Ok text
        /\ startswith text "#!/bin/bash
#SBATCH --partition=" = true
  end.
Proof.
  unfold JobPrepper.script_text, script_keys. cbn [first_absent subscript].
  repeat match goal with
  | |- context [dict_mem ?k d] =>
      let H := fresh "H" in
      destruct (dict_mem k d) eqn:H;
      [destruct (getitem_present d k H) as [? ->]; cbn [rbind]
      |rewrite (getitem_mem d k), H; reflexivity]
  end.
  eexists. split; [reflexivity|]. apply startswith_append.
Qed.

Lemma generate_slurm_script_key_error subdir_path python_script_path d
    simul_path array_path k w w1 :
  first_absent script_keys d = Some k ->
  open_w (join subdir_path "job_script.sh") w = (Ok tt, w1) ->
  generate_slurm_script subdir_path python_script_path (JDict d)
                        simul_path array_path w
  = (Raise (KeyError k), w1).
Proof.
  intros Hkey Hopen.
  unfold JobPrepper.generate_slurm_script. cbv zeta. unfold bind at 1.
  rewrite Hopen, bind_lift.
  pose proof (script_text_first_absent (join subdir_path "slurm/output")
                (join subdir_path "slurm/error") python_script_path d
                simul_path array_path) as Htext.
  rewrite Hkey in Htext. by rewrite Htext.
Qed.

(** X7: on a dictionary that lacks one of the seven keys the script prints,
    [generate_slurm_script] raises [KeyError] for the first one missing in
    the order of the directives; the file was opened before the text was
    built, so the script is left behind empty, whatever it held before. *)
Theorem generate_slurm_script_missing_key subdir_path python_script_path d
    simul_path array_path k w w1 :
  first_absent script_keys d = Some k ->
  open_w (join subdir_path "job_script.sh") w = (Ok tt, w1) ->
  generate_slurm_script subdir_path python_script_path (JDict d)
                        simul_path array_path w
  = (Raise (KeyError k), w1)
  /\ exists mode,
       w1 = with_file w (join subdir_path "job_script.sh") (Text EmptyString) mode
       /\ holds w1 (join subdir_path "job_script.sh") (Text EmptyString) mode.
Proof.
  intros Hkey Hopen. split; [|by apply open_w_inv].
  by apply generate_slurm_script_key_error.
Qed.

Lemma generate_slurm_script_inv subdir_path python_script_path slurm_params
    simul_path array_path w w' :
  generate_slurm_script subdir_path python_script_path slurm_params
                        simul_path array_path w = (Ok tt, w') ->
  exists text mode,
    script_text (join subdir_path "slurm/output") (join subdir_path "slurm/error")
                python_script_path slurm_params simul_path array_path = Ok text
    /\ w' = with_file w (join subdir_path "job_script.sh") (Text text) mode
    /\ holds w' (join subdir_path "job_script.sh") (Text text) mode
    /\ lookup (files w) (resolve w (join subdir_path "job_script.sh")) <> Some Dir.
Proof.
  unfold JobPrepper.generate_slurm_script. cbv zeta. unfold bind at 1.
  destruct (open_w (join subdir_path "job_script.sh") w) as [[[]|e] w1] eqn:Hopen;
    [|done].
  pose proof (open_w_not_dir _ _ _ Hopen) as Hnode.
  apply open_w_inv in Hopen as (mode & -> & Hfile). rewrite bind_lift.
  destruct (script_text _ _ _ _ _ _) as [text|e]; [|done].
  rewrite (write_holds _ _ _ _ _ Hfile), with_file_twice. intros [= <-].
  exists text, mode. split; [done|]. split; [done|]. split; [|done].
  pose proof (holds_nonroot _ _ _ _ Hfile) as Hroot.
  destruct Hfile as [Hne _]. by apply with_file_holds.
Qed.

(** X8: on a dictionary with the seven keys, where the script file can be
    opened for writing, [generate_slurm_script] returns; the file then holds
    a text that begins with the interpreter line followed by the partition
    directive, it keeps the permissions it had, and no other node, nor the
    working directory, nor the printed lines change. *)
Theorem generate_slurm_script_writes subdir_path python_script_path d
    simul_path array_path w w1 :
  first_absent script_keys d = None ->
  open_w (join subdir_path "job_script.sh") w = (Ok tt, w1) ->
  exists text mode w',
    generate_slurm_script subdir_path python_script_path (JDict d)
                          simul_path array_path w = (Ok tt, w')
    /\ holds w' (join subdir_path "job_script.sh") (Text text) mode
    /\ startswith text "#!/bin/bash
#SBATCH --partition=" = true
    /\ (forall c mode0, holds w (join subdir_path "job_script.sh") c mode0 ->
                        mode = mode0)
    /\ cwd w' = cwd w /\ stdout w' = stdout w
    /\ (forall q, q <> resolve w (join subdir_path "job_script.sh") ->
                  lookup (files w') q = lookup (files w) q).
Proof.
  intros Hkeys Hopen.
  pose proof (script_text_first_absent (join subdir_path "slurm/output")
                (join subdir_path "slurm/error") python_script_path d
                simul_path array_path) as Htext.
  rewrite Hkeys in Htext. destruct Htext as (text & Htext & Hstart).
  pose proof Hopen as (mode & Hw1 & Hfile)%open_w_inv.
  exists text, mode, (with_file w (join subdir_path "job_script.sh") (Text text) mode).
  split; [|split; [|split; [done|split; [|split; [done|split; [done|]]]]]].
  - unfold JobPrepper.generate_slurm_script. cbv zeta. unfold bind at 1.
    rewrite Hopen, bind_lift, Htext.
    rewrite (write_holds _ _ _ _ _ Hfile). subst w1. by rewrite with_file_twice.
  - pose proof (holds_nonroot _ _ _ _ Hfile) as Hroot. subst w1.
    destruct Hfile as [Hne _]. by apply with_file_holds.
  - intros c mode0 Hold. rewrite (open_w_holds _ _ _ _ Hold) in Hopen.
    injection Hopen as <-.
    apply (f_equal (fun w0 => lookup (files w0)
                      (resolve w (join subdir_path "job_script.sh")))) in Hw1.
    cbn [files with_file] in Hw1.
    rewrite !lookup_insert_node in Hw1 by (by eapply holds_nonroot).
    congruence.
  - intros q Hq. by apply lookup_insert_other.
Qed.

End Script.

(** ** Updates in a row *)
Section DictsMore.
Import Py.
Context {V : Type}.
Implicit Types (d other : list (string * V)) (k : string) (v : V).

Lemma dict_set_twice k v v' d : dict_set k v (dict_set k v' d) = dict_set k v d.
Proof.
  induction d as [|[k0 v0] d IH]; cbn [dict_set].
  - by rewrite String.eqb_refl.
  - destruct (String.eqb_spec k k0) as [->|Hne]; cbn [dict_set].
    + by rewrite String.eqb_refl.
    + apply String.eqb_neq in Hne. by rewrite Hne, IH.
Qed.

Lemma dict_mem_set k v d : dict_mem k (dict_set k v d) = true.
Proof. unfold dict_mem. by rewrite dict_get_set_eq. Qed.

Lemma dict_mem_set_other k k' v d :
  dict_mem k d = true -> dict_mem k (dict_set k' v d) = true.
Proof.
  unfold dict_mem. destruct (String.eqb_spec k' k) as [->|Hne].
  - by rewrite dict_get_set_eq.
  - by rewrite dict_get_set_ne.
Qed.

(** Assignments to two keys commute when the first is already there. *)
Lemma dict_set_comm k k' v v' d :
  k <> k' -> dict_mem k d = true ->
  dict_set k v (dict_set k' v' d) = dict_set k' v' (dict_set k v d).
Proof.
  intros Hne. unfold dict_mem.
  induction d as [|[k0 v0] d IH]; cbn [dict_get dict_set]; [done|].
  destruct (String.eqb_spec k k0) as [->|Hk], (String.eqb_spec k' k0) as [->|Hk'];
    cbn [dict_set]; try done.
  - intros _. rewrite String.eqb_refl.
    apply String.eqb_neq in Hk'. by rewrite Hk'.
  - intros _. rewrite String.eqb_refl.
    apply String.eqb_neq in Hk. by rewrite Hk.
  - intros Hmem. apply String.eqb_neq in Hk, Hk'. by rewrite Hk, Hk', IH.
Qed.

Lemma dict_update_mem k d other :
  dict_mem k d = true -> dict_mem k (dict_update d other) = true.
Proof.
  unfold dict_update. revert d.
  induction other as [|[k0 v0] other IH]; intros d Hmem; [done|].
  cbn [fold_left fst snd]. by apply IH, dict_mem_set_other.
Qed.

Lemma dict_set_update k v d other :
  k ∉ other.*1 -> dict_mem k d = true ->
  dict_set k v (dict_update d other) = dict_update (dict_set k v d) other.
Proof.
  unfold dict_update. revert d.
  induction other as [|[k0 v0] other IH]; intros d Hk Hmem; [done|].
  apply not_elem_of_cons in Hk as [Hne Hk]. cbn [fold_left fst snd].
  rewrite IH by (done || by apply dict_mem_set_other).
  by rewrite dict_set_comm.
Qed.

Lemma dict_update_set d k v other :
  NoDup other.*1 ->
  dict_update d (dict_set k v other) = dict_set k v (dict_update d other).
Proof.
  unfold dict_update. revert d.
  induction other as [|[k0 v0] other IH]; intros d Hnd; [done|].
  apply NoDup_cons in Hnd as [Hk0 Hnd]. cbn [dict_set].
  destruct (String.eqb_spec k k0) as [->|Hne]; cbn [fold_left fst snd].
  - pose proof (dict_set_update k0 v (dict_set k0 v0 d) other Hk0
                  (dict_mem_set _ _ _)) as Hcomm.
    unfold dict_update in Hcomm. by rewrite Hcomm, dict_set_twice.
  - by rewrite IH.
Qed.

Lemma dict_set_NoDup k v d : NoDup d.*1 -> NoDup (dict_set k v d).*1.
Proof.
  intros Hnd. rewrite dict_set_keys. unfold dict_mem.
  destruct (dict_get k d) eqn:Hget; [done|].
  apply dict_get_None in Hget. apply NoDup_app. split; [done|].
  split; [|apply NoDup_singleton]. intros x Hx ->%list_elem_of_singleton. done.
Qed.

(** [d.update(d1)] followed by [d.update(d2)] is [d.update(d1')] for the
    [d1'] that [d1.update(d2)] leaves. *)
Lemma dict_update_update d d1 d2 :
  NoDup d1.*1 ->
  dict_update (dict_update d d1) d2 = dict_update d (dict_update d1 d2).
Proof.
  revert d1. induction d2 as [|[k v] d2 IH]; intros d1 Hnd; [done|].
  change (dict_update (dict_update d d1) ((k, v) :: d2))
    with (dict_update (dict_set k v (dict_update d d1)) d2).
  change (dict_update d1 ((k, v) :: d2)) with (dict_update (dict_set k v d1) d2).
  rewrite <- IH by by apply dict_set_NoDup.
  by rewrite dict_update_set.
Qed.

End DictsMore.

(** ** The launcher *)
Section Launch.
Import Py OS Spec Cover.
Variable sbatch : string -> result JobLauncher.completed_process.

Lemma merged_record_section record details :
  job_information_of (merged_record record details)
  = dict_update (job_information_of record) details.
Proof.
  unfold job_information_of at 1, merged_record. by rewrite dict_get_set_eq.
Qed.

Lemma merged_record_twice record d1 d2 :
  NoDup d1.*1 ->
  merged_record (merged_record record d1) d2
  = merged_record record (dict_update d1 d2).
Proof.
  intros Hnd. unfold merged_record at 1. rewrite merged_record_section.
  unfold merged_record at 1. rewrite dict_mem_set. cbn [negb].
  unfold merged_record. by rewrite dict_set_twice, dict_update_update.
Qed.

Lemma merged_record_section_is_dict record details :
  section_is_dict (merged_record record details).
Proof. unfold section_is_dict, merged_record. by rewrite dict_get_set_eq. Qed.

Lemma update_metadata_inv w path details w' :
  JobLauncher.update_metadata path details w = (Ok tt, w') ->
  exists record mode,
    holds w path (Json (JDict record)) mode
    /\ section_is_dict record
    /\ w' = with_file w path (Json (JDict (merged_record record details))) mode.
Proof.
  intros Hrun. pose proof Hrun as (record & mode & Hfile & ->)%update_metadata_success.
  exists record, mode. split; [done|]. split; [|done].
  revert Hrun. unfold JobLauncher.update_metadata, bind at 1.
  rewrite (read_file_holds _ _ _ _ Hfile). unfold bind at 1, ret, raise.
  unfold section_is_dict, dict_mem.
  destruct (dict_get "job_information" record) as [v|] eqn:Hget; cbn [negb]; [|done].
  rewrite Hget. by destruct v.
Qed.

Lemma with_file_holds_again w path c c' mode mode' :
  holds w path c mode -> holds (with_file w path c' mode') path c' mode'.
Proof.
  intros Hfile. pose proof (holds_nonroot _ _ _ _ Hfile).
  destruct Hfile as [Hne _]. by apply with_file_holds.
Qed.

(** X9: two updates of the metadata file in a row, the first with a
    dictionary [d1] and returning, the second with [d2], leave what the one
    update with [d1.update(d2)] leaves: the second returns too, a key of
    both takes the later value and every key stays where it first was put. *)
Theorem update_metadata_twice path d1 d2 w w1 :
  NoDup d1.*1 ->
  JobLauncher.update_metadata path d1 w = (Ok tt, w1) ->
  JobLauncher.update_metadata path d2 w1
  = JobLauncher.update_metadata path (dict_update d1 d2) w
  /\ exists w2, JobLauncher.update_metadata path d2 w1 = (Ok tt, w2).
Proof.
  intros Hnd (record & mode & Hfile & Hsection & ->)%update_metadata_inv.
  pose proof (with_file_holds_again _ _ _
                (Json (JDict (merged_record record d1))) _ mode Hfile) as Hfile1.
  rewrite (update_metadata_record _ _ _ d2 _ Hfile1
             (merged_record_section_is_dict _ _)).
  rewrite (update_metadata_record _ _ _ (dict_update d1 d2) _ Hfile Hsection).
  rewrite with_file_twice, merged_record_twice by done. eauto.
Qed.

(** X10: the launcher's script raises [IndexError] on a command line without
    the run directory; when the submission or the update of the metadata
    raises, the store is as before and nothing is printed; and it prints
    its one line only after the metadata file has been rewritten with the
    job identifier, the final token of the submission's output. *)
Theorem launcher_main_outcome argv w :
  ((length argv < 2)%nat -> JobLauncher.main sbatch argv w = (Raise IndexError, w))
  /\ match JobLauncher.main sbatch argv w with
     | (Raise e, w') => w' = w
     | (Ok _, w') =>
         exists prog sub_dir_path rest cp id record mode,
           argv = prog :: sub_dir_path :: rest
           /\ sbatch (join sub_dir_path "job_script.sh") = Ok cp
           /\ last_item (split (strip (JobLauncher.output cp))) = Ok id
           /\ holds w (join sub_dir_path "metadata.json") (Json (JDict record)) mode
           /\ cwd w' = cwd w
           /\ files w'
              = files (with_file w (join sub_dir_path "metadata.json")
                         (Json (JDict (merged_record record [("job_id", JStr id)])))
                         mode)
           /\ stdout w' = stdout w ++ ["Job submitted successfully."]
     end.
Proof.
  split.
  { destruct argv as [|prog [|sub_dir_path rest]]; cbn [length]; [done..|lia]. }
  destruct argv as [|prog [|sub_dir_path rest]]; [done..|].
  unfold JobLauncher.main. cbv zeta. unfold bind at 1.
  destruct (JobLauncher.submit_job _ _ _ w) as [[[]|e] w1] eqn:Hrun.
  - revert Hrun. unfold JobLauncher.submit_job. rewrite bind_lift.
    destruct (sbatch _) as [cp|e] eqn:Hcp; [|done].
    rewrite bind_lift. cbv zeta.
    destruct (last_item _) as [id|e] eqn:Hid; [|done].
    intros (record & mode & Hfile & _ & ->)%update_metadata_inv.
    unfold print. by exists prog, sub_dir_path, rest, cp, id, record, mode.
  - by apply submit_job_failure in Hrun.
Qed.

(** X11: the metadata file a preparation writes, after a submission whose
    output ends in the token [id], holds the record the preparation built
    with the job identifier set to [id]: the four other fields of the job
    information are still null, in their places, and the other sections
    are untouched. *)
Theorem submit_job_after_generate_metadata_file e path slurm_params
    simulation_params array_params other_params script cp id w w1 :
  JobPrepper.generate_metadata_file e path slurm_params simulation_params
                                    array_params other_params w = (Ok tt, w1) ->
  sbatch script = Ok cp ->
  final_token (JobLauncher.output cp) id ->
  exists general mode,
    JobPrepper.metadata_of e slurm_params simulation_params array_params other_params
    = Ok (JDict [("general_metadata", general);
                 ("job_information",
                   JDict [("job_id", JNull); ("state", JNull); ("start_time", JNull);
                          ("end_time", JNull); ("elapsed_time", JNull)]);
                 ("slurm_parameters", slurm_params);
                 ("simulation_parameters", simulation_params);
                 ("array_parameters", array_params)])
    /\ JobLauncher.submit_job sbatch script path w1
       = (Ok tt,
          with_file w path
            (Json (JDict [("general_metadata", general);
                          ("job_information",
                            JDict [("job_id", JStr id); ("state", JNull);
                                   ("start_time", JNull); ("end_time", JNull);
                                   ("elapsed_time", JNull)]);
                          ("slurm_parameters", slurm_params);
                          ("simulation_parameters", simulation_params);
                          ("array_parameters", array_params)]))
            mode).
Proof.
  intros Hgen Hcp Hid. revert Hgen.
  unfold JobPrepper.generate_metadata_file. rewrite bind_lift.
  unfold JobPrepper.metadata_of.
  destruct (subscript other_params "description") as [description|e0]; [|done].
  destruct (JobPrepper.hexsha e) as [revision|e0]; [|done]. cbn [rbind].
  unfold bind at 1.
  destruct (open_w path w) as [[[]|e0] w0] eqn:Hopen; [|done].
  apply open_w_inv in Hopen as (mode & -> & Hfile).
  rewrite (write_holds _ _ _ _ _ Hfile). intros [= <-].
  eexists _, mode. split; [reflexivity|].
  unfold JobLauncher.submit_job. rewrite bind_lift, Hcp, bind_lift.
  unfold last_item. rewrite (split_final_token _ _ Hid). cbv zeta.
  match goal with
  | |- context [JobLauncher.update_metadata _ _
                  (with_file _ _ (Json (JDict ?record)) _)] =>
      rewrite (update_metadata_record _ _ record _ mode
                 (with_file_holds_again _ _ _ _ _ _ Hfile) I)
  end.
  by rewrite !with_file_twice.
Qed.

End Launch.

(** ** A whole preparation *)
Section Whole.
Import Py OS Spec Cover.
Variable arange_other : json -> json -> json -> result (list json).
Variable repr_other : json -> string.

#[local] Abbreviation add_array_parameters :=
  (JobPrepper.add_array_parameters arange_other).
#[local] Abbreviation main := (JobPrepper.main arange_other repr_other).
#[local] Abbreviation script_text := (JobPrepper.script_text repr_other).

(** X12: the expansion of a specification whose parameters all resolve is
    empty exactly when one of them has no value at all, and then no job is
    described; the specification without parameters expands to the one
    combination without parameters. *)
Theorem add_array_parameters_empty d ranges :
  NoDup d.*1 -> Spec.resolves arange_other d ranges ->
  (add_array_parameters (JDict d) = Ok [] <-> [] ∈ ranges)
  /\ add_array_parameters (JDict []) = Ok [JDict []].
Proof.
  intros Hnd Hres. split; [|done].
  rewrite (add_array_parameters_cross arange_other d ranges Hnd Hres).
  assert (cross ranges = [] <-> [] ∈ ranges) as <-.
  { rewrite <- length_zero_iff_nil, cross_length. clear.
    induction ranges as [|range ranges IH]; cbn [size_of foldr].
    - split; [done|]. by intros ?%elem_of_nil.
    - fold (size_of ranges). rewrite elem_of_cons, <- IH, Nat.eq_mul_0.
      rewrite length_zero_iff_nil. split; intros [?|?]; auto. }
  split.
  - intros [= Hnil]. by apply fmap_nil_inv in Hnil.
  - by intros ->.
Qed.

(** X13: with any number of arguments other than two, the preparation script
    raises its usage error before reading anything: the store is as
    before. *)
Theorem main_usage e w :
  length (JobPrepper.argv e) <> 3%nat ->
  main e w
  = (Raise (ValueError "Usage: python tools/job_prepper.py parameter_path python_script_path"),
     w).
Proof.
  unfold JobPrepper.main.
  by destruct (JobPrepper.argv e) as [|prog [|parameter_path [|script [|extra rest]]]].
Qed.

(** A plain name joined to anything resolves to a place with that name. *)
Lemma resolve_join_last w a name :
  no_slash name = true ->
  name <> EmptyString -> name <> "." -> name <> ".." ->
  exists base, resolve w (join a name) = base ++ [name].
Proof.
  intros Hslash H1 H2 H3. destruct (String.eqb_spec a EmptyString) as [->|Ha].
  - exists (cwd w). unfold join, resolve.
    rewrite (no_slash_startswith _ Hslash). cbn [String.eqb orb].
    rewrite append_nil_l, (no_slash_startswith _ Hslash).
    unfold components. rewrite (components_from_no_slash _ _ Hslash), append_nil_l.
    by apply walk_name.
  - exists (resolve w a). by apply resolve_join.
Qed.

Lemma resolve_join_ne w a name b name' :
  no_slash name = true -> name <> EmptyString -> name <> "." -> name <> ".." ->
  no_slash name' = true -> name' <> EmptyString -> name' <> "." -> name' <> ".." ->
  name <> name' ->
  resolve w (join a name) <> resolve w (join b name').
Proof.
  intros S1 A1 B1 C1 S2 A2 B2 C2 Hne.
  destruct (resolve_join_last w a name S1 A1 B1 C1) as [base ->].
  destruct (resolve_join_last w b name' S2 A2 B2 C2) as [base' ->].
  intros Heq. by apply app_inj_tail in Heq as [_ ?].
Qed.

Lemma chmod_holds w path c mode mode' :
  holds w path c mode ->
  chmod path mode' w = (Ok tt, with_file w path c (Some mode')).
Proof.
  intros [Hne H]. unfold chmod. apply String.eqb_neq in Hne. by rewrite Hne, H.
Qed.

Lemma generate_metadata_file_inv e path slurm_params simulation_params
    array_params other_params w w' :
  JobPrepper.generate_metadata_file e path slurm_params simulation_params
                                    array_params other_params w = (Ok tt, w') ->
  exists record mode,
    JobPrepper.metadata_of e slurm_params simulation_params array_params
                           other_params = Ok record
    /\ w' = with_file w path (Json record) mode
    /\ path <> EmptyString
    /\ lookup (files w) (resolve w path) <> Some Dir.
Proof.
  unfold JobPrepper.generate_metadata_file. rewrite bind_lift.
  destruct (JobPrepper.metadata_of _ _ _ _ _) as [record|e0]; [|done].
  unfold bind at 1. destruct (open_w path w) as [[[]|e0] w1] eqn:Hopen; [|done].
  pose proof (open_w_not_dir _ _ _ Hopen) as Hnode.
  apply open_w_inv in Hopen as (mode & -> & Hfile).
  rewrite (write_holds _ _ _ _ _ Hfile), with_file_twice. intros [= <-].
  exists record, mode. by destruct Hfile.
Qed.

(** What [main] does once the run directory is there. *)
Lemma main_after_allocation e sub_dir_path python_script_path slurm_params
    simul_params range_array_params other_params simul_path array_path w2 w' :
  (print ("Created the following directory:  " +:+ sub_dir_path) ;;
   JobPrepper.generate_slurm_script repr_other sub_dir_path python_script_path
                                    slurm_params simul_path array_path ;;
   chmod (join sub_dir_path "job_script.sh") 448 ;;
   JobPrepper.generate_metadata_file e (join sub_dir_path "metadata.json")
                                     slurm_params simul_params
                                     range_array_params other_params ;;
   print "Job preparation was a success. To submit the job, run the following command:" ;;
   print ("python tools/job_launcher.py " +:+ sub_dir_path)) w2 = (Ok tt, w') ->
  exists text record mode,
    script_text (join sub_dir_path "slurm/output") (join sub_dir_path "slurm/error")
                python_script_path slurm_params simul_path array_path = Ok text
    /\ JobPrepper.metadata_of e slurm_params simul_params range_array_params
                              other_params = Ok record
    /\ cwd w' = cwd w2
    /\ stdout w'
       = stdout w2
         ++ ["Created the following directory:  " +:+ sub_dir_path;
             "Job preparation was a success. To submit the job, run the following command:";
             "python tools/job_launcher.py " +:+ sub_dir_path]
    /\ files w'
       = <[resolve w2 (join sub_dir_path "metadata.json") := File (Json record) mode]>
           (<[resolve w2 (join sub_dir_path "job_script.sh")
              := File (Text text) (Some 448)]> (files w2))
    /\ lookup (files w2) (resolve w2 (join sub_dir_path "job_script.sh")) <> Some Dir
    /\ lookup (files w2) (resolve w2 (join sub_dir_path "metadata.json")) <> Some Dir.
Proof.
  intros Hrun.
  apply bind_inv in Hrun as ([] & w3 & Hprint & Hrun).
  apply bind_inv in Hrun as ([] & w4 & Hscript & Hrun).
  apply bind_inv in Hrun as ([] & w5 & Hchmod & Hrun).
  apply bind_inv in Hrun as ([] & w6 & Hmeta & Hrun).
  apply bind_inv in Hrun as ([] & w7 & Hprint2 & Hprint3).
  injection Hprint as <-.
  apply generate_slurm_script_inv in Hscript
    as (text & mode_s & Htext & -> & Hscript & Hnode_s).
  rewrite (chmod_holds _ _ _ _ _ Hscript) in Hchmod. injection Hchmod as <-.
  rewrite with_file_twice in Hmeta.
  apply generate_metadata_file_inv in Hmeta
    as (record & mode_m & Hrecord & -> & Hne_m & Hnode_m).
  injection Hprint2 as <-. injection Hprint3 as <-.
  exists text, record, mode_m.
  split; [done|]. split; [done|]. split; [done|].
  split; [cbn [stdout with_file]; by rewrite <- !app_assoc|].
  split; [done|]. split; [done|].
  cbn [files with_file] in Hnode_m.
  repeat match type of Hnode_m with
  | context [resolve ?w0 ?path] =>
      lazymatch w0 with
      | w2 => fail
      | _ => change (resolve w0 path) with (resolve w2 path) in Hnode_m
      end
  end.
  rewrite lookup_insert_other in Hnode_m; [done|].
  by apply resolve_join_ne.
Qed.

(** X14: what a preparation that returns has done. The four parameter files
    were read, the scheduler's one being a dictionary with the seven keys
    of the script and a string as output directory; the run directory is
    [run_n] under it for a positive [n], was not there before and now
    exists with its data, error and output directories; the script, with
    the text built from the parameters, is there with permissions [0o700],
    the metadata record is there, and [array_params.json] holds the
    expansion; no other node of the store was removed or altered, only
    directories were added; and exactly three lines were printed, the first
    and the last naming the run directory. *)
Theorem main_success e w prog parameter_path python_script_path w' :
  JobPrepper.argv e = [prog; parameter_path; python_script_path] ->
  main e w = (Ok tt, w') ->
  exists range_array_params simul_params d other_params dir array_params n
         text record,
    let sub_dir_path := join dir ("run_" +:+ str_of_int n) in
    let array_path := join parameter_path "array_params.json" in
    let script_path := join sub_dir_path "job_script.sh" in
    let metadata_path := join sub_dir_path "metadata.json" in
    JobPrepper.load_json (join parameter_path "range_array_params.json") w
    = (Ok range_array_params, w)
    /\ JobPrepper.load_json (join parameter_path "simul_params.json") w
       = (Ok simul_params, w)
    /\ JobPrepper.load_json (join parameter_path "slurm_params.json") w
       = (Ok (JDict d), w)
    /\ JobPrepper.load_json (join parameter_path "other_params.json") w
       = (Ok other_params, w)
    /\ dict_get "output_directory" d = Some (JStr dir)
    /\ first_absent script_keys d = None
    /\ add_array_parameters range_array_params = Ok array_params
    /\ script_text (join sub_dir_path "slurm/output") (join sub_dir_path "slurm/error")
                   python_script_path (JDict d)
                   (join parameter_path "simul_params.json") array_path
       = Ok text
    /\ JobPrepper.metadata_of e (JDict d) simul_params range_array_params
                              other_params = Ok record
    /\ 0 < n
    /\ missing w sub_dir_path
    /\ Forall (fun place => isdir w' place = true)
              [sub_dir_path; join sub_dir_path "data";
               join sub_dir_path "slurm/error"; join sub_dir_path "slurm/output"]
    /\ holds w' script_path (Text text) (Some 448)
    /\ (exists mode, holds w' metadata_path (Json record) mode)
    /\ (exists mode, holds w' array_path (Json (JList array_params)) mode)
    /\ (forall q, q <> resolve w array_path -> q <> resolve w script_path ->
                  q <> resolve w metadata_path ->
                  lookup (files w') q = lookup (files w) q
                  \/ (lookup (files w) q = None /\ lookup (files w') q = Some Dir))
    /\ cwd w' = cwd w
    /\ stdout w'
       = stdout w
         ++ ["Created the following directory:  " +:+ sub_dir_path;
             "Job preparation was a success. To submit the job, run the following command:";
             "python tools/job_launcher.py " +:+ sub_dir_path].
Proof.
  intros Hargv Hrun.
  destruct (main_unchanged_until_expansion arange_other repr_other e w _ _ _ Hargv)
    as [[err Hfail]|(range_array_params & simul_params & slurm_params & other_params
                     & output & Hrange & Hsimul & Hslurm & Hother & Hso
                     & (output' & Hsi & Heq) & array_params & Hexp)];
    [congruence|].
  rewrite (main_until_check arange_other repr_other _ _ _ _ _ _ _ _ _ _ _
             Hargv Hrange Hsimul Hslurm Hother Hso Hsi) in Hrun.
  rewrite Heq, Hexp in Hrun. cbn [negb] in Hrun.
  unfold dump_json_and_after in Hrun. cbv zeta in Hrun.
  apply bind_inv in Hrun as ([] & w1 & Hdump & Hrun).
  rewrite bind_lift, Hso in Hrun.
  apply bind_inv in Hrun as (sub & w2 & Hcreate & Hrun).
  (* the scheduler parameters *)
  destruct slurm_params as [| | | | | |d]; try done.
  cbn [subscript] in Hso. unfold getitem in Hso.
  destruct (dict_get "output_directory" d) as [v|] eqn:Hdir; [|done].
  injection Hso as ->.
  (* the steps *)
  apply dump_json_success in Hdump as (mode_a & Hw1 & Harray).
  pose proof (allocation_missing _ "run_" _ _ _ eq_refl run_prefix_not_in_number Hcreate)
    as Hmissing.
  destruct (grows_create_directory_structure _ _ _ _ _ Hcreate) as (C2 & O2 & E2).
  apply create_directory_structure_inv in Hcreate
    as (dir & w1' & names & -> & Hmk & _ & Hsub & _ & Hplaces).
  set (h := JobPrepper.highest_num_of _ _) in Hsub.
  assert (0 <= h) as Hh.
  { unfold h. by destruct (highest_num_of_spec "run_"
      (JobPrepper.existing_dirs_of w1' dir "run_" names)) as (? & _). }
  assert (dir <> EmptyString) as Hdir_ne.
  { intros ->. by cbn in Hmk. }
  clearbody h. clear Hmk w1' names.
  apply main_after_allocation in Hrun
    as (text & record & mode_m & Htext & Hrecord & C' & O' & F' & Hnode_s & Hnode_m).
  assert (cwd w1 = cwd w) as C1 by by subst w1.
  assert (cwd w2 = cwd w) as C2' by congruence.
  assert (cwd w' = cwd w) as C by congruence.
  rewrite (resolve_cwd w w2 (join sub "job_script.sh")) in F', Hnode_s by done.
  rewrite (resolve_cwd w w2 (join sub "metadata.json")) in F', Hnode_m by done.
  unfold missing in Hmissing. rewrite (resolve_cwd w w1) in Hmissing by done.
  assert (files w1 = <[resolve w (join parameter_path "array_params.json")
                       := File (Json (JList array_params)) mode_a]> (files w)) as F1.
  { by subst w1. }
  destruct Harray as [Hne_a Harray]. rewrite (resolve_cwd w w1) in Harray by done.
  exists range_array_params, simul_params, d, other_params, dir, array_params,
         (h + 1), text, record.
  cbv zeta. rewrite <- Hsub.
  set (pa := resolve w (join parameter_path "array_params.json")) in *.
  set (ps := resolve w (join sub "job_script.sh")) in *.
  set (pm := resolve w (join sub "metadata.json")) in *.
  assert (sub <> EmptyString) as Hsub_ne by (rewrite Hsub; by apply join_nonempty).
  assert (pa <> ps) as Has by by apply resolve_join_ne.
  assert (pa <> pm) as Ham by by apply resolve_join_ne.
  assert (ps <> pm) as Hsm by by apply resolve_join_ne.
  assert (ps <> []) as Hs.
  { unfold ps. destruct (resolve_join_last w sub "job_script.sh") as [base ->];
      try done. by destruct base. }
  assert (pm <> []) as Hm.
  { unfold pm. destruct (resolve_join_last w sub "metadata.json") as [base ->];
      try done. by destruct base. }
  assert (forall q, q <> ps -> q <> pm -> lookup (files w') q = lookup (files w2) q)
    as Hframe.
  { intros q Hqs Hqm. rewrite F'.
    rewrite lookup_insert_other by done. by rewrite lookup_insert_other. }
  repeat split; try done.
  - pose proof (script_text_first_absent repr_other (join sub "slurm/output")
                  (join sub "slurm/error") python_script_path d
                  (join parameter_path "simul_params.json")
                  (join parameter_path "array_params.json")) as Hkeys.
    destruct (first_absent script_keys d); [congruence|done].
  - lia.
  - unfold missing. destruct (decide (resolve w sub = pa)) as [Heq'|Hne'].
    + rewrite Heq' in Hmissing. congruence.
    + by rewrite F1, lookup_insert_other in Hmissing.
  - eapply Forall_impl; [exact Hplaces|]. intros place. cbv beta.
    unfold isdir. rewrite (resolve_cwd w w2), (resolve_cwd w w') by done.
    destruct (lookup (files w2) (resolve w place)) as [[|c mode]|] eqn:Hplace;
      [|done..].
    rewrite Hframe; [by rewrite Hplace|congruence..].
  - by apply join_nonempty.
  - rewrite (resolve_cwd w w') by done. fold ps.
    by rewrite F', lookup_insert_other, lookup_insert_node.
  - exists mode_m. split; [by apply join_nonempty|].
    rewrite (resolve_cwd w w') by done. fold pm.
    by rewrite F', lookup_insert_node.
  - exists mode_a. split; [done|].
    rewrite (resolve_cwd w w') by done. fold pa. rewrite Hframe by done.
    destruct (E2 pa) as [->|[Hnone _]]; [done|congruence].
  - intros q Hqa Hqs Hqm. rewrite Hframe by done.
    destruct (E2 q) as [Hsame|[Hnone Hdir']].
    + left. by rewrite Hsame, F1, lookup_insert_other.
    + right. split; [|done]. by rewrite F1, lookup_insert_other in Hnone.
  - by rewrite O', O2, Hw1.
Qed.

(** X15: a preparation is not all-or-nothing. When the parameter files
    load, the output directories agree and the expansion, the writing of
    [array_params.json] and the allocation succeed, but the scheduler
    parameters lack one of the seven keys of the script, the error is only
    met while the script is written: [main] raises [KeyError] for the first
    missing key after [array_params.json] has been written, the run
    directory created and its creation announced, and, the run directory
    holding no script and no metadata file yet, it leaves an empty
    [job_script.sh] there and no metadata file at all. *)
Theorem main_missing_script_key e w prog parameter_path python_script_path
    range_array_params simul_params d other_params dir array_params k
    w1 sub_dir_path w2 :
  JobPrepper.argv e = [prog; parameter_path; python_script_path] ->
  JobPrepper.load_json (join parameter_path "range_array_params.json") w
  = (Ok range_array_params, w) ->
  JobPrepper.load_json (join parameter_path "simul_params.json") w
  = (Ok simul_params, w) ->
  JobPrepper.load_json (join parameter_path "slurm_params.json") w
  = (Ok (JDict d), w) ->
  JobPrepper.load_json (join parameter_path "other_params.json") w
  = (Ok other_params, w) ->
  dict_get "output_directory" d = Some (JStr dir) ->
  subscript simul_params "output_directory" = Ok (JStr dir) ->
  add_array_parameters range_array_params = Ok array_params ->
  first_absent script_keys d = Some k ->
  JobPrepper.dump_json (JList array_params) (join parameter_path "array_params.json") w
  = (Ok tt, w1) ->
  JobPrepper.create_directory_structure (JStr dir) "run_" w1 = (Ok sub_dir_path, w2) ->
  missing w2 (join sub_dir_path "job_script.sh") ->
  missing w2 (join sub_dir_path "metadata.json") ->
  exists w',
    main e w = (Raise (KeyError k), w')
    /\ w' <> w
    /\ stdout w'
       = stdout w ++ ["Created the following directory:  " +:+ sub_dir_path]
    /\ missing w sub_dir_path
    /\ isdir w' sub_dir_path = true
    /\ holds w' (join sub_dir_path "job_script.sh") (Text EmptyString) None
    /\ missing w' (join sub_dir_path "metadata.json")
    /\ (exists mode, holds w' (join parameter_path "array_params.json")
                           (Json (JList array_params)) mode).
Proof.
  intros Hargv Hrange Hsimul Hslurm Hother Hdir Hsi Hexp Hkey Hdump Hcreate
         Hnoscript Hnometa.
  assert (subscript (JDict d) "output_directory" = Ok (JStr dir)) as Hso.
  { cbn [subscript]. unfold getitem. by rewrite Hdir. }
  rewrite (main_until_check arange_other repr_other _ _ _ _ _ _ _ _ _ _ _
             Hargv Hrange Hsimul Hslurm Hother Hso Hsi).
  cbn [py_eq]. rewrite String.eqb_refl, Hexp. cbn [negb].
  unfold dump_json_and_after. cbv zeta.
  unfold bind at 1. rewrite Hdump, bind_lift, Hso.
  unfold bind at 1. rewrite Hcreate. unfold bind at 1, print at 1.
  set (w3 := World (cwd w2) (files w2)
                   (stdout w2 ++ ["Created the following directory:  " +:+ sub_dir_path])).
  pose proof (allocation_missing _ "run_" _ _ _ eq_refl run_prefix_not_in_number Hcreate)
    as Hmissing.
  destruct (grows_create_directory_structure _ _ _ _ _ Hcreate) as (C2 & O2 & E2).
  pose proof Hcreate as (dir' & w1' & names & _ & Hmk & _ & Hsub & _ & Hplaces)
                          %create_directory_structure_inv.
  apply Forall_cons_1 in Hplaces as [Hisdir _].
  assert (dir' <> EmptyString) as Hdir_ne.
  { intros ->. by cbn in Hmk. }
  assert (sub_dir_path <> EmptyString) as Hsub_ne.
  { rewrite Hsub. by apply join_nonempty. }
  clear Hmk Hsub w1' names.
  apply dump_json_success in Hdump as (mode_a & Hw1 & Harray).
  assert (cwd w1 = cwd w) as C1 by by subst w1.
  assert (files w1 = <[resolve w (join parameter_path "array_params.json")
                       := File (Json (JList array_params)) mode_a]> (files w)) as F1.
  { by subst w1. }
  destruct Harray as [Hne_a Harray]. rewrite (resolve_cwd w w1) in Harray by done.
  unfold missing in Hmissing, Hnoscript, Hnometa.
  rewrite (resolve_cwd w w1) in Hmissing by done.
  rewrite (resolve_cwd w w2) in Hnoscript, Hnometa by congruence.
  pose proof Hisdir as Hsubdir. unfold isdir in Hsubdir.
  rewrite (resolve_cwd w w2) in Hsubdir by congruence.
  set (pa := resolve w (join parameter_path "array_params.json")) in *.
  set (ps := resolve w (join sub_dir_path "job_script.sh")) in *.
  set (pm := resolve w (join sub_dir_path "metadata.json")) in *.
  assert (pa <> ps) as Has by by apply resolve_join_ne.
  assert (ps <> pm) as Hsm by by apply resolve_join_ne.
  assert (ps = resolve w sub_dir_path ++ ["job_script.sh"]) as Hps.
  { by apply resolve_join. }
  assert (forall path, resolve w3 path = resolve w path) as R3.
  { intros path. apply resolve_cwd. cbn [cwd w3]. congruence. }
  assert (open_w (join sub_dir_path "job_script.sh") w3
          = (Ok tt, with_file w3 (join sub_dir_path "job_script.sh")
                              (Text EmptyString) None)) as Hopen.
  { unfold open_w, with_file.
    assert (join sub_dir_path "job_script.sh" <> EmptyString) as Hne
      by by apply join_nonempty.
    apply String.eqb_neq in Hne. rewrite Hne, R3. fold ps. cbn [files w3].
    rewrite Hnoscript, Hps, removelast_last.
    by destruct (lookup (files w2) (resolve w sub_dir_path)) as [[|c mode]|]. }
  unfold bind at 1.
  rewrite (generate_slurm_script_key_error repr_other sub_dir_path
             python_script_path d (join parameter_path "simul_params.json")
             (join parameter_path "array_params.json") k w3 _ Hkey Hopen).
  eexists. split; [reflexivity|].
  assert (forall path,
            resolve (with_file w3 (join sub_dir_path "job_script.sh")
                               (Text EmptyString) None) path
            = resolve w path) as R4.
  { intros path. apply resolve_cwd. cbn [cwd with_file w3]. congruence. }
  assert (ps <> []) as Hs by (rewrite Hps; by destruct (resolve w sub_dir_path)).
  unfold missing, isdir, holds. rewrite !R4. cbn [files with_file stdout w3].
  rewrite R3. fold ps pm pa.
  split; [|split; [|split; [|split; [|split; [|split; [|]]]]]].
  - intros Heq. apply (f_equal stdout) in Heq.
    cbn [stdout with_file] in Heq. unfold w3 in Heq. cbn [stdout] in Heq.
    rewrite O2, Hw1 in Heq. cbn [stdout with_file] in Heq.
    apply (f_equal length) in Heq. rewrite length_app in Heq. cbn in Heq. lia.
  - by rewrite O2, Hw1.
  - destruct (decide (resolve w sub_dir_path = pa)) as [Heq'|Hne'].
    + rewrite Heq' in Hmissing. congruence.
    + by rewrite F1, lookup_insert_other in Hmissing.
  - rewrite lookup_insert_other; [done|].
    intros Heq. rewrite Heq, Hnoscript in Hsubdir. done.
  - split; [by apply join_nonempty|]. by apply lookup_insert_node.
  - by rewrite lookup_insert_other.
  - exists mode_a. split; [done|]. rewrite lookup_insert_other by done.
    destruct (E2 pa) as [->|[Hnone _]]; [done|congruence].
Qed.

End Whole.

(** ** Further concrete runs *)
Section Runs.
Import Py OS Spec Sample Cover.


Lemma create_directory_structure_only_adds_witness :
  lookup (files (JobPrepper.create_directory_structure (JStr "out") "run_"
                   sample_runs).2) ["out"; "run_7a"]
  = Some Dir.
Proof.
  apply (create_directory_structure_only_adds (JStr "out") "run_" sample_runs).
  reflexivity.
Defined.

Lemma highest_num_of_order_witness :
  JobPrepper.highest_num_of "run_" ["run_2"; "run_10"]
  = JobPrepper.highest_num_of "run_" ["run_10"; "run_2"; "run_2"].
Proof.
  apply (highest_num_of_order "run_" ["run_2"; "run_10"] ["run_10"; "run_2"; "run_2"]).
  intros name. rewrite !elem_of_cons. tauto.
Defined.

Lemma highest_num_of_reads_name_witness :
  12 <= JobPrepper.highest_num_of "run_" ["run_3"; "run_12"].
Proof.
  apply (highest_num_of_reads_name "run_" 12 ["run_3"; "run_12"]).
  - reflexivity.
  - right. left.
Defined.

Lemma create_directory_structure_fresh_witness :
  missing sample_runs "out/run_3"
  /\ isdir (JobPrepper.create_directory_structure (JStr "out") "run_" sample_runs).2
           "out/run_3/slurm/output" = true.
Proof.
  destruct (create_directory_structure_fresh (JStr "out") "run_" sample_runs
              "out/run_3"
              (JobPrepper.create_directory_structure (JStr "out") "run_"
                 sample_runs).2)
    as [Hmissing Hplaces].
  - reflexivity.
  - exact run_prefix_not_in_number.
  - vm_compute. reflexivity.
  - split; [exact Hmissing|].
    apply Forall_cons_1 in Hplaces as [_ Hplaces].
    apply Forall_cons_1 in Hplaces as [_ Hplaces].
    apply Forall_cons_1 in Hplaces as [_ Hplaces].
    apply Forall_cons_1 in Hplaces as [Hplace _]. exact Hplace.
Defined.

Lemma create_directory_structure_twice_witness :
  exists dir_path n1 n2,
    JStr "out" = JStr dir_path
    /\ "out/run_3" = join dir_path ("run_" +:+ str_of_int n1)
    /\ "out/run_4" = join dir_path ("run_" +:+ str_of_int n2)
    /\ 0 < n1 < n2.
Proof.
  apply (create_directory_structure_twice (JStr "out") "run_" sample_runs
           "out/run_3"
           (JobPrepper.create_directory_structure (JStr "out") "run_" sample_runs).2
           (JobPrepper.create_directory_structure (JStr "out") "run_" sample_runs).2
           "out/run_4"
           (JobPrepper.create_directory_structure (JStr "out") "run_"
              (JobPrepper.create_directory_structure (JStr "out") "run_"
                 sample_runs).2).2).
  - reflexivity.
  - exact run_prefix_not_in_number.
  - vm_compute. reflexivity.
  - vm_compute. reflexivity.
  - vm_compute. reflexivity.
Defined.

Lemma generate_slurm_script_missing_key_witness :
  JobPrepper.generate_slurm_script repr_blank "run_1" "main.py"
    (JDict [("partition", JStr "c-apc")])
    "params/simul_params.json" "params/array_params.json" sample_pending
  = (Raise (KeyError "account"),
     with_file sample_pending "run_1/job_script.sh" (Text EmptyString) None).
Proof.
  apply (generate_slurm_script_missing_key repr_blank "run_1" "main.py"
           [("partition", JStr "c-apc")]
           "params/simul_params.json" "params/array_params.json" "account"
           sample_pending
           (with_file sample_pending "run_1/job_script.sh" (Text EmptyString) None)).
  - reflexivity.
  - vm_compute. reflexivity.
Defined.

Lemma generate_slurm_script_writes_witness :
  exists text mode w',
    JobPrepper.generate_slurm_script repr_blank "run_1" "main.py" (JDict sample_slurm)
      "params/simul_params.json" "params/array_params.json" sample_pending
    = (Ok tt, w')
    /\ holds w' "run_1/job_script.sh" (Text text) mode.
Proof.
  destruct (generate_slurm_script_writes repr_blank "run_1" "main.py" sample_slurm
              "params/simul_params.json" "params/array_params.json" sample_pending
              (with_file sample_pending "run_1/job_script.sh" (Text EmptyString) None))
    as (text & mode & w' & Hrun & Hfile & _).
  - reflexivity.
  - vm_compute. reflexivity.
  - exists text, mode, w'. split; [exact Hrun|exact Hfile].
Defined.

Lemma update_metadata_twice_witness :
  JobLauncher.update_metadata "run_1/metadata.json" [("state", JStr "RUNNING")]
    (JobLauncher.update_metadata "run_1/metadata.json" [("job_id", JStr "12345")]
       sample_pending).2
  = JobLauncher.update_metadata "run_1/metadata.json"
      (dict_update [("job_id", JStr "12345")] [("state", JStr "RUNNING")])
      sample_pending.
Proof.
  apply (update_metadata_twice "run_1/metadata.json" [("job_id", JStr "12345")]
           [("state", JStr "RUNNING")] sample_pending).
  - compute_done.
  - vm_compute. reflexivity.
Defined.

Lemma launcher_main_outcome_witness :
  JobLauncher.main sample_sbatch ["tools/job_launcher.py"] sample_pending
  = (Raise IndexError, sample_pending).
Proof.
  apply (launcher_main_outcome sample_sbatch ["tools/job_launcher.py"] sample_pending).
  cbn [length]. lia.
Defined.

Lemma submit_job_after_generate_metadata_file_witness :
  exists general mode record,
    JobLauncher.submit_job sample_sbatch "run_1/job_script.sh" "run_1/metadata.json"
      (JobPrepper.generate_metadata_file sample_env "run_1/metadata.json"
         (JDict sample_slurm) (JDict [("seed", JInt 3)])
         (JDict [("rate", JList [JInt 1])]) (JDict [("description", JStr "sweep")])
         sample_pending).2
    = (Ok tt, with_file sample_pending "run_1/metadata.json"
                        (Json (JDict (("general_metadata", general) :: record)))
                        mode).
Proof.
  destruct (submit_job_after_generate_metadata_file sample_sbatch sample_env
              "run_1/metadata.json"
              (JDict sample_slurm) (JDict [("seed", JInt 3)])
              (JDict [("rate", JList [JInt 1])])
              (JDict [("description", JStr "sweep")])
              "run_1/job_script.sh"
              (JobLauncher.CompletedProcess 0 "Submitted batch job 12345
")
              "12345" sample_pending
              (JobPrepper.generate_metadata_file sample_env "run_1/metadata.json"
                 (JDict sample_slurm) (JDict [("seed", JInt 3)])
                 (JDict [("rate", JList [JInt 1])])
                 (JDict [("description", JStr "sweep")])
                 sample_pending).2)
    as (general & mode & _ & Hrun).
  - vm_compute. reflexivity.
  - reflexivity.
  - exists "Submitted batch job ", "
". repeat split; reflexivity.
  - exists general, mode. eexists. exact Hrun.
Defined.

Lemma add_array_parameters_empty_witness :
  JobPrepper.add_array_parameters Numpy.arange_rejects
    (JDict [("rate", JList [JInt 1; JInt 2]); ("mode", JList [])])
  = Ok [].
Proof.
  apply (add_array_parameters_empty Numpy.arange_rejects
           [("rate", JList [JInt 1; JInt 2]); ("mode", JList [])]
           [[JInt 1; JInt 2]; []]).
  - compute_done.
  - repeat constructor.
  - right. left.
Defined.

Lemma main_usage_witness :
  JobPrepper.main Numpy.arange_rejects repr_blank
    (JobPrepper.Env ["tools/job_prepper.py"; "params"] "01/01/2025" (Ok "0f3c"))
    sample_complete
  = (Raise (ValueError "Usage: python tools/job_prepper.py parameter_path python_script_path"),
     sample_complete).
Proof.
  apply (main_usage Numpy.arange_rejects repr_blank
           (JobPrepper.Env ["tools/job_prepper.py"; "params"] "01/01/2025" (Ok "0f3c"))
           sample_complete).
  cbn. lia.
Defined.

Lemma main_success_witness :
  exists n text,
    0 < n
    /\ missing sample_complete (join "out" ("run_" +:+ str_of_int n))
    /\ holds (JobPrepper.main Numpy.arange_rejects repr_blank sample_env
                sample_complete).2
             (join (join "out" ("run_" +:+ str_of_int n)) "job_script.sh")
             (Text text) (Some 448).
Proof.
  destruct (main_success Numpy.arange_rejects repr_blank sample_env sample_complete
              "tools/job_prepper.py" "params" "main.py"
              (JobPrepper.main Numpy.arange_rejects repr_blank sample_env
                 sample_complete).2)
    as (range_array_params & simul_params & d & other_params & dir & array_params
        & n & text & record & _ & _ & Hslurm & _ & Hdir & _ & _ & _ & _ & Hn
        & Hmissing & _ & Hscript & _).
  - reflexivity.
  - vm_compute. reflexivity.
  - assert (dir = "out") as ->.
    { vm_compute in Hslurm. injection Hslurm as <-. vm_compute in Hdir.
      by injection Hdir as <-. }
    exists n, text. split; [exact Hn|]. split; [exact Hmissing|exact Hscript].
Defined.

Lemma main_missing_script_key_witness :
  exists w',
    JobPrepper.main Numpy.arange_rejects repr_blank sample_env
      (sample_parameters "out" "out" (JDict [("rate", JList [JInt 1])]))
    = (Raise (KeyError "partition"), w')
    /\ holds w' "out/run_1/job_script.sh" (Text EmptyString) None.
Proof.
  destruct (main_missing_script_key Numpy.arange_rejects repr_blank sample_env
              (sample_parameters "out" "out" (JDict [("rate", JList [JInt 1])]))
              "tools/job_prepper.py" "params" "main.py"
              (JDict [("rate", JList [JInt 1])])
              (JDict [("output_directory", JStr "out")])
              [("output_directory", JStr "out")]
              (JDict [("description", JStr "sweep")])
              "out" [JDict [("rate", JInt 1)]] "partition"
              (JobPrepper.dump_json (JList [JDict [("rate", JInt 1)]])
                 "params/array_params.json"
                 (sample_parameters "out" "out" (JDict [("rate", JList [JInt 1])]))).2
              "out/run_1"
              (JobPrepper.create_directory_structure (JStr "out") "run_"
                 (JobPrepper.dump_json (JList [JDict [("rate", JInt 1)]])
                    "params/array_params.json"
                    (sample_parameters "out" "out"
                       (JDict [("rate", JList [JInt 1])]))).2).2)
    as (w' & Hrun & _ & _ & _ & _ & Hscript & _);
    [reflexivity|vm_compute; reflexivity..|].
  exists w'. split; [exact Hrun|exact Hscript].
Defined.

End Runs.
